(** * Register-file protocol of the RP2040 peripheral controller

    A shallow embedding of [firmware/src/main.cpp] together with the
    constants of [firmware/include/i2c_registers.h] and
    [firmware/include/pin_config.h]: the 128-byte register bank, the I2C
    handlers, the encoder interrupt routine and the 100 Hz tick.

    Machine integers are values of [Z] with their wrap-around written out;
    the register bank is a list of 128 bytes indexed by register address,
    which is how the firmware itself reaches it through [reg_ptr]. *)

From Stdlib Require Import ZArith Lia Bool.
From stdpp Require Import base list numbers gmap.

Local Open Scope Z_scope.

(** ** Machine integers *)

Module Int.

(** Conversion to [uint8_t]. *)
Definition u8 (z : Z) : Z := z mod 256.

(** Conversion to [uint32_t]. *)
Definition u32 (z : Z) : Z := z mod 4294967296.

(** Conversion to [int8_t] (two's complement wrap-around). *)
Definition s8 (z : Z) : Z := (z + 128) mod 256 - 128.

(** Conversion to [int16_t] (two's complement wrap-around). *)
Definition s16 (z : Z) : Z := (z + 32768) mod 65536 - 32768.

(** [x |= m] on a [uint8_t]. *)
Definition or8 (x m : Z) : Z := u8 (Z.lor x m).

(** [x &= ~m] on a [uint8_t]: [~m] is computed on [int]. *)
Definition andn8 (x m : Z) : Z := u8 (Z.land x (Z.lnot m)).

(** [x & m] used as a condition. *)
Definition test (x m : Z) : bool := negb (Z.land x m =? 0).

(** Saturation to the [int8_t] range; the firmware never applies it, it is
    the reading the register documentation is compared against. *)
Definition clamp8 (z : Z) : Z := Z.max (-128) (Z.min 127 z).

End Int.
Import Int.

(** ** Constants of [i2c_registers.h] and [pin_config.h] *)

Definition REG_DEVICE_ID : Z := 0x00.
Definition REG_FIRMWARE_VER_MAJ : Z := 0x01.
Definition REG_FIRMWARE_VER_MIN : Z := 0x02.
Definition REG_FIRMWARE_VER_PATCH : Z := 0x03.
Definition REG_CONTROL : Z := 0x10.
Definition REG_STATUS : Z := 0x11.
Definition REG_ERROR : Z := 0x12.
Definition REG_VU_LEFT : Z := 0x20.
Definition REG_VU_RIGHT : Z := 0x21.
Definition REG_VU_MODE : Z := 0x22.
Definition REG_BACKLIGHT : Z := 0x30.
Definition REG_BACKLIGHT_MODE : Z := 0x31.
Definition REG_TAPE_SPEED : Z := 0x40.
Definition REG_TAPE_DIRECTION : Z := 0x41.
Definition REG_TAPE_MODE : Z := 0x42.
Definition REG_INPUT_STATUS_LOW : Z := 0x50.
Definition REG_INPUT_STATUS_HIGH : Z := 0x51.
Definition REG_INPUT_CHANGED_LOW : Z := 0x52.
Definition REG_INPUT_CHANGED_HIGH : Z := 0x53.
Definition REG_ENCODER_POS_LOW : Z := 0x60.
Definition REG_ENCODER_POS_HIGH : Z := 0x61.
Definition REG_ENCODER_DELTA : Z := 0x62.
Definition REG_ENCODER_BUTTON : Z := 0x63.
Definition REG_CONFIG_VU_FREQ : Z := 0x70.
Definition REG_CONFIG_DEBOUNCE : Z := 0x71.
Definition REG_CONFIG_OPTIONS : Z := 0x72.
Definition REG_COMMAND : Z := 0xF0.

Definition CTRL_ENABLE : Z := 1.
Definition CTRL_RESET_ENCODER : Z := 2.
Definition CTRL_CLEAR_INPUTS : Z := 4.
Definition CTRL_VU_ENABLE : Z := 8.
Definition CTRL_BACKLIGHT_ENABLE : Z := 16.
Definition CTRL_TAPE_ENABLE : Z := 32.
Definition CTRL_SAVE_CONFIG : Z := 64.
Definition CTRL_LOAD_CONFIG : Z := 128.

Definition STATUS_READY : Z := 1.
Definition STATUS_ERROR : Z := 2.
Definition STATUS_VU_ACTIVE : Z := 4.
Definition STATUS_BACKLIGHT_ON : Z := 8.
Definition STATUS_TAPE_RUNNING : Z := 16.
Definition STATUS_INPUT_CHANGED : Z := 32.
Definition STATUS_ENCODER_CHANGED : Z := 64.
Definition STATUS_BUTTON_PRESSED : Z := 128.

Definition ERROR_I2C_OVERFLOW : Z := 1.
Definition ERROR_INVALID_REG : Z := 2.
Definition ERROR_INVALID_CMD : Z := 4.

Definition VU_MODE_NORMAL : Z := 0x00.
Definition VU_MODE_OFF : Z := 0xFF.
Definition BACKLIGHT_MODE_MANUAL : Z := 0x00.
Definition BACKLIGHT_MODE_OFF : Z := 0xFF.
Definition TAPE_DIR_STOP : Z := 0x00.
Definition TAPE_DIR_FORWARD : Z := 0x01.
Definition TAPE_DIR_REVERSE : Z := 0x02.
Definition TAPE_DIR_BRAKE : Z := 0x03.
Definition TAPE_MODE_MANUAL : Z := 0x00.
Definition TAPE_MODE_OFF : Z := 0xFF.

Definition ENC_BTN_RELEASED : Z := 0x00.
Definition ENC_BTN_PRESSED : Z := 0x01.
Definition ENC_BTN_HELD : Z := 0x02.
Definition ENC_BTN_DOUBLE_CLICK : Z := 0x03.

Definition CMD_NOP : Z := 0x00.
Definition CMD_RESET : Z := 0x01.
Definition CMD_FACTORY_RESET : Z := 0x02.
Definition CMD_CALIBRATE_VU : Z := 0x10.
Definition CMD_TEST_VU_LEFT : Z := 0x11.
Definition CMD_TEST_VU_RIGHT : Z := 0x12.
Definition CMD_TEST_VU_BOTH : Z := 0x13.
Definition CMD_TEST_BACKLIGHT : Z := 0x20.
Definition CMD_TEST_TAPE_MOTOR : Z := 0x30.
Definition CMD_TEST_ALL : Z := 0xFF.

Definition DEVICE_ID : Z := 0x52.
Definition FIRMWARE_VERSION_MAJOR : Z := 1.
Definition FIRMWARE_VERSION_MINOR : Z := 0.
Definition FIRMWARE_VERSION_PATCH : Z := 0.

Definition PIN_VU_LEFT_IN1 : Z := 0.
Definition PIN_VU_LEFT_IN2 : Z := 1.
Definition PIN_VU_RIGHT_IN1 : Z := 4.
Definition PIN_VU_RIGHT_IN2 : Z := 5.
Definition PIN_BACKLIGHT_IN1 : Z := 6.
Definition PIN_BACKLIGHT_IN2 : Z := 7.
Definition PIN_TAPE_MOTOR_IN1 : Z := 8.
Definition PIN_TAPE_MOTOR_IN2 : Z := 9.
Definition PIN_ENCODER_A : Z := 10.
Definition PIN_ENCODER_B : Z := 11.
Definition PIN_ENCODER_BTN : Z := 12.

Definition NUM_DIGITAL_INPUTS : Z := 12.
Definition INPUT_DEBOUNCE_MS : Z := 50.

Definition DIGITAL_INPUT_PINS : list Z :=
  [13; 14; 15; 16; 17; 18; 19; 20; 21; 22; 26; 27].

(** [sizeof(I2CRegisterBank)]: eight packed blocks of sixteen bytes. *)
Definition sizeof_I2CRegisterBank : Z := 128.

(** ** The firmware's global variables

    [input_prev_low], [input_prev_high], the PWM slice numbers and the
    status-LED variables are left out: no function of the register protocol
    reads them. *)

Record state : Type := mkState {
  registers : list Z;                  (* I2CRegisterBank, byte by byte *)
  current_register : Z;                (* volatile uint8_t *)
  input_state_low : Z;                 (* uint8_t *)
  input_state_high : Z;                (* uint8_t *)
  input_last_change : list Z;          (* uint32_t [NUM_DIGITAL_INPUTS] *)
  encoder_position : Z;                (* volatile int16_t *)
  encoder_delta : Z;                   (* volatile int8_t *)
  encoder_state : Z;                   (* volatile uint8_t *)
  encoder_button_state : Z;            (* uint8_t *)
  encoder_button_press_time : Z;       (* uint32_t *)
  encoder_button_last_release : Z;     (* uint32_t *)
  last_update : Z;                     (* static uint32_t of loop() *)
  pwm : gmap Z Z                       (* last analogWrite per pin *)
}.

Definition set_registers (r : list Z) (s : state) : state :=
  mkState r (current_register s) (input_state_low s) (input_state_high s)
    (input_last_change s) (encoder_position s) (encoder_delta s)
    (encoder_state s) (encoder_button_state s) (encoder_button_press_time s)
    (encoder_button_last_release s) (last_update s) (pwm s).

Definition set_current_register (v : Z) (s : state) : state :=
  mkState (registers s) v (input_state_low s) (input_state_high s)
    (input_last_change s) (encoder_position s) (encoder_delta s)
    (encoder_state s) (encoder_button_state s) (encoder_button_press_time s)
    (encoder_button_last_release s) (last_update s) (pwm s).

Definition set_input_state (lo hi : Z) (lc : list Z) (s : state) : state :=
  mkState (registers s) (current_register s) lo hi lc
    (encoder_position s) (encoder_delta s)
    (encoder_state s) (encoder_button_state s) (encoder_button_press_time s)
    (encoder_button_last_release s) (last_update s) (pwm s).

Definition set_encoder_position (v : Z) (s : state) : state :=
  mkState (registers s) (current_register s) (input_state_low s)
    (input_state_high s) (input_last_change s) v (encoder_delta s)
    (encoder_state s) (encoder_button_state s) (encoder_button_press_time s)
    (encoder_button_last_release s) (last_update s) (pwm s).

Definition set_encoder_delta (v : Z) (s : state) : state :=
  mkState (registers s) (current_register s) (input_state_low s)
    (input_state_high s) (input_last_change s) (encoder_position s) v
    (encoder_state s) (encoder_button_state s) (encoder_button_press_time s)
    (encoder_button_last_release s) (last_update s) (pwm s).

Definition set_encoder_state (v : Z) (s : state) : state :=
  mkState (registers s) (current_register s) (input_state_low s)
    (input_state_high s) (input_last_change s) (encoder_position s)
    (encoder_delta s) v (encoder_button_state s) (encoder_button_press_time s)
    (encoder_button_last_release s) (last_update s) (pwm s).

Definition set_encoder_button_state (v : Z) (s : state) : state :=
  mkState (registers s) (current_register s) (input_state_low s)
    (input_state_high s) (input_last_change s) (encoder_position s)
    (encoder_delta s) (encoder_state s) v (encoder_button_press_time s)
    (encoder_button_last_release s) (last_update s) (pwm s).

Definition set_encoder_button_press_time (v : Z) (s : state) : state :=
  mkState (registers s) (current_register s) (input_state_low s)
    (input_state_high s) (input_last_change s) (encoder_position s)
    (encoder_delta s) (encoder_state s) (encoder_button_state s) v
    (encoder_button_last_release s) (last_update s) (pwm s).

Definition set_encoder_button_last_release (v : Z) (s : state) : state :=
  mkState (registers s) (current_register s) (input_state_low s)
    (input_state_high s) (input_last_change s) (encoder_position s)
    (encoder_delta s) (encoder_state s) (encoder_button_state s)
    (encoder_button_press_time s) v (last_update s) (pwm s).

Definition set_last_update (v : Z) (s : state) : state :=
  mkState (registers s) (current_register s) (input_state_low s)
    (input_state_high s) (input_last_change s) (encoder_position s)
    (encoder_delta s) (encoder_state s) (encoder_button_state s)
    (encoder_button_press_time s) (encoder_button_last_release s) v (pwm s).

(** [analogWrite(pin, value)]. *)
Definition analogWrite (pin value : Z) (s : state) : state :=
  mkState (registers s) (current_register s) (input_state_low s)
    (input_state_high s) (input_last_change s) (encoder_position s)
    (encoder_delta s) (encoder_state s) (encoder_button_state s)
    (encoder_button_press_time s) (encoder_button_last_release s)
    (last_update s) (<[pin := value]> (pwm s)).

(** ** Byte access to the register bank *)

(** [reg_ptr[a]] read. *)
Definition reg_get (r : list Z) (a : Z) : Z := default 0 (r !! Z.to_nat a).

(** [reg_ptr[a] = v]. *)
Definition reg_set (a v : Z) (r : list Z) : list Z := <[Z.to_nat a := v]> r.

(** A named field of [registers] read and written in the state. *)
Definition reg (s : state) (a : Z) : Z := reg_get (registers s) a.

Definition store (a v : Z) (s : state) : state :=
  set_registers (reg_set a v (registers s)) s.

(** ** Register functions *)

Definition i2c_registers_init (s : state) : state :=
  let r := replicate (Z.to_nat sizeof_I2CRegisterBank) 0 in
  let r := reg_set REG_DEVICE_ID DEVICE_ID r in
  let r := reg_set REG_FIRMWARE_VER_MAJ FIRMWARE_VERSION_MAJOR r in
  let r := reg_set REG_FIRMWARE_VER_MIN FIRMWARE_VERSION_MINOR r in
  let r := reg_set REG_FIRMWARE_VER_PATCH FIRMWARE_VERSION_PATCH r in
  let r := reg_set REG_CONTROL CTRL_ENABLE r in
  let r := reg_set REG_STATUS STATUS_READY r in
  let r := reg_set REG_VU_MODE VU_MODE_NORMAL r in
  let r := reg_set REG_BACKLIGHT 128 r in
  let r := reg_set REG_BACKLIGHT_MODE BACKLIGHT_MODE_MANUAL r in
  let r := reg_set REG_TAPE_DIRECTION TAPE_DIR_STOP r in
  let r := reg_set REG_TAPE_MODE TAPE_MODE_MANUAL r in
  let r := reg_set REG_INPUT_STATUS_LOW 0xFF r in
  let r := reg_set REG_INPUT_STATUS_HIGH 0x0F r in
  let r := reg_set REG_CONFIG_VU_FREQ 1 r in
  let r := reg_set REG_CONFIG_DEBOUNCE INPUT_DEBOUNCE_MS r in
  set_registers r s.

Definition i2c_register_read (reg_addr : Z) (s : state) : Z * state :=
  if sizeof_I2CRegisterBank <=? reg_addr then
    (0xFF, store REG_ERROR (or8 (reg s REG_ERROR) ERROR_INVALID_REG) s)
  else
    let value := reg s reg_addr in
    let s :=
      if reg_addr =? REG_INPUT_CHANGED_LOW then
        let s := store REG_INPUT_CHANGED_LOW 0 s in
        if reg s REG_INPUT_CHANGED_HIGH =? 0
        then store REG_STATUS (andn8 (reg s REG_STATUS) STATUS_INPUT_CHANGED) s
        else s
      else if reg_addr =? REG_INPUT_CHANGED_HIGH then
        let s := store REG_INPUT_CHANGED_HIGH 0 s in
        if reg s REG_INPUT_CHANGED_LOW =? 0
        then store REG_STATUS (andn8 (reg s REG_STATUS) STATUS_INPUT_CHANGED) s
        else s
      else if reg_addr =? REG_ENCODER_DELTA then
        store REG_STATUS (andn8 (reg s REG_STATUS) STATUS_ENCODER_CHANGED) s
      else s in
    (value, s).

Definition i2c_execute_command (command : Z) (s : state) : bool * state :=
  if command =? CMD_NOP then (true, s)
  else if command =? CMD_RESET then (true, i2c_registers_init s)
  else if (command =? CMD_TEST_VU_LEFT) || (command =? CMD_TEST_VU_RIGHT)
          || (command =? CMD_TEST_VU_BOTH) || (command =? CMD_TEST_BACKLIGHT)
          || (command =? CMD_TEST_TAPE_MOTOR) || (command =? CMD_TEST_ALL)
  then (true, s)
  else (false, store REG_ERROR (or8 (reg s REG_ERROR) ERROR_INVALID_CMD) s).

Definition i2c_register_write (reg_addr value : Z) (s : state) : bool * state :=
  if reg_addr <=? 0x03 then
    (false, store REG_ERROR (or8 (reg s REG_ERROR) ERROR_INVALID_REG) s)
  else if reg_addr =? REG_COMMAND then
    i2c_execute_command value s
  else if sizeof_I2CRegisterBank <=? reg_addr then
    (false, store REG_ERROR (or8 (reg s REG_ERROR) ERROR_INVALID_REG) s)
  else
    let s := store reg_addr value s in
    let s :=
      if reg_addr =? REG_CONTROL then
        let s :=
          if test value CTRL_RESET_ENCODER then
            let s := set_encoder_position 0 s in
            let s := set_encoder_delta 0 s in
            let s := store REG_ENCODER_POS_LOW 0 s in
            let s := store REG_ENCODER_POS_HIGH 0 s in
            let s := store REG_ENCODER_DELTA 0 s in
            store REG_CONTROL (andn8 (reg s REG_CONTROL) CTRL_RESET_ENCODER) s
          else s in
        if test value CTRL_CLEAR_INPUTS then
          let s := store REG_INPUT_CHANGED_LOW 0 s in
          let s := store REG_INPUT_CHANGED_HIGH 0 s in
          let s := store REG_STATUS
                     (andn8 (reg s REG_STATUS) STATUS_INPUT_CHANGED) s in
          store REG_CONTROL (andn8 (reg s REG_CONTROL) CTRL_CLEAR_INPUTS) s
        else s
      else s in
    (true, s).

(** ** I2C handlers *)

(** The [while] loop of [i2c_receive_handler] over the bytes that follow the
    register address. *)
Fixpoint receive_bytes (bytes : list Z) (s : state) : state :=
  match bytes with
  | [] => s
  | value :: rest =>
      let s := snd (i2c_register_write (current_register s) value s) in
      let s := set_current_register (u8 (current_register s + 1)) s in
      receive_bytes rest s
  end.

(** [i2c_receive_handler]: [bytes] is the content of the Wire buffer, so
    [byte_count] is its length. *)
Definition i2c_receive_handler (bytes : list Z) (s : state) : state :=
  match bytes with
  | [] => s
  | addr :: rest => receive_bytes rest (set_current_register addr s)
  end.

(** [i2c_request_handler]: the byte handed to [Wire1.write] and the state
    afterwards. *)
Definition i2c_request_handler (s : state) : Z * state :=
  let '(value, s) := i2c_register_read (current_register s) s in
  (value, set_current_register (u8 (current_register s + 1)) s).

(** ** Encoder interrupt routine *)

Definition transition_table : list (list Z) :=
  [ [ 0; -1;  1;  0];
    [ 1;  0;  0; -1];
    [-1;  0;  0;  1];
    [ 0;  1; -1;  0] ].

(** [transition_table[prev][new]]. *)
Definition transition (prev new : Z) : Z :=
  default 0 (default [] (transition_table !! Z.to_nat prev) !! Z.to_nat new).

(** The 2-bit value [(a << 1) | b] sampled from the two encoder pins. *)
Definition quadrature (digitalRead : Z -> bool) : Z :=
  let a := Z.b2z (digitalRead PIN_ENCODER_A) in
  let b := Z.b2z (digitalRead PIN_ENCODER_B) in
  Z.lor (Z.shiftl a 1) b.

Definition encoder_isr (digitalRead : Z -> bool) (s : state) : state :=
  let new_state := quadrature digitalRead in
  let delta := transition (encoder_state s) new_state in
  let s := set_encoder_state new_state s in
  if negb (delta =? 0) then
    let s := set_encoder_position (s16 (encoder_position s + delta)) s in
    set_encoder_delta (s8 (encoder_delta s + delta)) s
  else s.

(** ** The 100 Hz update functions *)

(** The [if (i < 8) { if (b) new_state_low |= ... else new_state_low &= ~...}
    else { ... new_state_high ... }] block that ends each branch of the
    debounce loop. *)
Definition write_bit (i : Z) (b : bool) (new_state : Z * Z) : Z * Z :=
  let '(new_state_low, new_state_high) := new_state in
  if i <? 8 then
    (if b then or8 new_state_low (Z.shiftl 1 i)
     else andn8 new_state_low (Z.shiftl 1 i),
     new_state_high)
  else
    (new_state_low,
     if b then or8 new_state_high (Z.shiftl 1 (i - 8))
     else andn8 new_state_high (Z.shiftl 1 (i - 8))).

(** The stable bit of channel [i] as the "keep old state" branch tests it. *)
Definition old_bit (old_low old_high i : Z) : bool :=
  if i <? 8 then test old_low (Z.shiftl 1 i)
  else test old_high (Z.shiftl 1 (i - 8)).

(** One iteration of the debounce loop.  The comparison of the sampled level
    with the stable state is the firmware's: a [bool] promoted to [int]
    against the masked byte. *)
Definition debounce_channel (digitalRead : Z -> bool) (now : Z)
    (old_low old_high : Z) (acc : Z * Z * list Z) (i : Z) : Z * Z * list Z :=
  let '(new_state, last_change) := acc in
  let state := digitalRead (default 0 (DIGITAL_INPUT_PINS !! Z.to_nat i)) in
  if negb (Z.b2z state =?
           Z.land (if i <? 8 then old_low else old_high)
                  (Z.shiftl 1 (i mod 8))) then
    if INPUT_DEBOUNCE_MS <=?
       u32 (now - default 0 (last_change !! Z.to_nat i)) then
      (write_bit i state new_state, <[Z.to_nat i := now]> last_change)
    else
      (write_bit i (old_bit old_low old_high i) new_state, last_change)
  else
    (write_bit i state new_state, last_change).

(** The debounce loop over the twelve channels. *)
Definition debounce_inputs (digitalRead : Z -> bool) (now : Z)
    (old_low old_high : Z) (last_change : list Z) : Z * Z * list Z :=
  fold_left (debounce_channel digitalRead now old_low old_high)
            (seqZ 0 NUM_DIGITAL_INPUTS) ((0xFF, 0x0F), last_change).

(** The encoder-button part of [update_inputs]. *)
Definition update_button (digitalRead : Z -> bool) (now_ms : Z) (s : state)
    : state :=
  let btn_pressed := negb (digitalRead PIN_ENCODER_BTN) in
  let s :=
    if btn_pressed && (encoder_button_state s =? ENC_BTN_RELEASED) then
      let s := set_encoder_button_state ENC_BTN_PRESSED s in
      let s := set_encoder_button_press_time now_ms s in
      let s := store REG_STATUS
                 (or8 (reg s REG_STATUS) STATUS_BUTTON_PRESSED) s in
      if u32 (now_ms - encoder_button_last_release s) <? 300
      then set_encoder_button_state ENC_BTN_DOUBLE_CLICK s
      else s
    else if btn_pressed && (encoder_button_state s =? ENC_BTN_PRESSED) then
      if 1000 <=? u32 (now_ms - encoder_button_press_time s)
      then set_encoder_button_state ENC_BTN_HELD s
      else s
    else if negb btn_pressed
            && negb (encoder_button_state s =? ENC_BTN_RELEASED) then
      let s := set_encoder_button_last_release now_ms s in
      let s := set_encoder_button_state ENC_BTN_RELEASED s in
      store REG_STATUS (andn8 (reg s REG_STATUS) STATUS_BUTTON_PRESSED) s
    else s in
  store REG_ENCODER_BUTTON (encoder_button_state s) s.

(** The [if (changed_low || changed_high)] block of [update_inputs]. *)
Definition flag_changes (changed_low changed_high : Z) (s : state) : state :=
  if negb (changed_low =? 0) || negb (changed_high =? 0) then
    let s := store REG_INPUT_CHANGED_LOW
               (or8 (reg s REG_INPUT_CHANGED_LOW) changed_low) s in
    let s := store REG_INPUT_CHANGED_HIGH
               (or8 (reg s REG_INPUT_CHANGED_HIGH) changed_high) s in
    store REG_STATUS (or8 (reg s REG_STATUS) STATUS_INPUT_CHANGED) s
  else s.

(** The contact-input part of [update_inputs], up to the publication of the
    stable bitmaps. *)
Definition update_contacts (digitalRead : Z -> bool) (now : Z) (s : state)
    : state :=
  let '(new_state_low, new_state_high, last_change) :=
    debounce_inputs digitalRead now (input_state_low s) (input_state_high s)
                    (input_last_change s) in
  let changed_low := Z.lxor (input_state_low s) new_state_low in
  let changed_high := Z.lxor (input_state_high s) new_state_high in
  let s := flag_changes changed_low changed_high s in
  let s := set_input_state new_state_low new_state_high last_change s in
  let s := store REG_INPUT_STATUS_LOW (input_state_low s) s in
  store REG_INPUT_STATUS_HIGH (input_state_high s) s.

(** [update_inputs]; [now] and [now_ms] are the results of its two calls of
    [millis()]. *)
Definition update_inputs (digitalRead : Z -> bool) (now now_ms : Z)
    (s : state) : state :=
  update_button digitalRead now_ms (update_contacts digitalRead now s).

Definition update_encoder (s : state) : state :=
  let pos := encoder_position s in
  let delta := encoder_delta s in
  let s := set_encoder_delta 0 s in
  let s := store REG_ENCODER_POS_LOW (Z.land pos 0xFF) s in
  let s := store REG_ENCODER_POS_HIGH (Z.land (Z.shiftr pos 8) 0xFF) s in
  let s := store REG_ENCODER_DELTA (u8 delta) s in
  if negb (delta =? 0)
  then store REG_STATUS (or8 (reg s REG_STATUS) STATUS_ENCODER_CHANGED) s
  else s.

(** The three actuator groups of [update_pwm_outputs], each given the
    enable flag read from [CONTROL] at the top of the function. *)
Definition update_vu_meters (vu_enabled : bool) (s : state) : state :=
  if vu_enabled && negb (reg s REG_VU_MODE =? VU_MODE_OFF) then
    let s := analogWrite PIN_VU_LEFT_IN1 (reg s REG_VU_LEFT) s in
    let s := analogWrite PIN_VU_LEFT_IN2 0 s in
    let s := analogWrite PIN_VU_RIGHT_IN1 (reg s REG_VU_RIGHT) s in
    let s := analogWrite PIN_VU_RIGHT_IN2 0 s in
    store REG_STATUS (or8 (reg s REG_STATUS) STATUS_VU_ACTIVE) s
  else
    let s := analogWrite PIN_VU_LEFT_IN1 0 s in
    let s := analogWrite PIN_VU_LEFT_IN2 0 s in
    let s := analogWrite PIN_VU_RIGHT_IN1 0 s in
    let s := analogWrite PIN_VU_RIGHT_IN2 0 s in
    store REG_STATUS (andn8 (reg s REG_STATUS) STATUS_VU_ACTIVE) s.

Definition update_backlight (backlight_enabled : bool) (s : state) : state :=
  if backlight_enabled
     && negb (reg s REG_BACKLIGHT_MODE =? BACKLIGHT_MODE_OFF) then
    let s := analogWrite PIN_BACKLIGHT_IN1 (reg s REG_BACKLIGHT) s in
    let s := analogWrite PIN_BACKLIGHT_IN2 0 s in
    store REG_STATUS (or8 (reg s REG_STATUS) STATUS_BACKLIGHT_ON) s
  else
    let s := analogWrite PIN_BACKLIGHT_IN1 0 s in
    let s := analogWrite PIN_BACKLIGHT_IN2 0 s in
    store REG_STATUS (andn8 (reg s REG_STATUS) STATUS_BACKLIGHT_ON) s.

Definition update_tape_motor (tape_enabled : bool) (s : state) : state :=
  if tape_enabled && negb (reg s REG_TAPE_MODE =? TAPE_MODE_OFF) then
    if reg s REG_TAPE_DIRECTION =? TAPE_DIR_FORWARD then
      let s := analogWrite PIN_TAPE_MOTOR_IN1 (reg s REG_TAPE_SPEED) s in
      let s := analogWrite PIN_TAPE_MOTOR_IN2 0 s in
      store REG_STATUS (or8 (reg s REG_STATUS) STATUS_TAPE_RUNNING) s
    else if reg s REG_TAPE_DIRECTION =? TAPE_DIR_REVERSE then
      let s := analogWrite PIN_TAPE_MOTOR_IN1 0 s in
      let s := analogWrite PIN_TAPE_MOTOR_IN2 (reg s REG_TAPE_SPEED) s in
      store REG_STATUS (or8 (reg s REG_STATUS) STATUS_TAPE_RUNNING) s
    else if reg s REG_TAPE_DIRECTION =? TAPE_DIR_BRAKE then
      let s := analogWrite PIN_TAPE_MOTOR_IN1 255 s in
      let s := analogWrite PIN_TAPE_MOTOR_IN2 255 s in
      store REG_STATUS (andn8 (reg s REG_STATUS) STATUS_TAPE_RUNNING) s
    else
      let s := analogWrite PIN_TAPE_MOTOR_IN1 0 s in
      let s := analogWrite PIN_TAPE_MOTOR_IN2 0 s in
      store REG_STATUS (andn8 (reg s REG_STATUS) STATUS_TAPE_RUNNING) s
  else
    let s := analogWrite PIN_TAPE_MOTOR_IN1 0 s in
    let s := analogWrite PIN_TAPE_MOTOR_IN2 0 s in
    store REG_STATUS (andn8 (reg s REG_STATUS) STATUS_TAPE_RUNNING) s.

Definition update_pwm_outputs (s : state) : state :=
  let vu_enabled := test (reg s REG_CONTROL) CTRL_VU_ENABLE in
  let backlight_enabled := test (reg s REG_CONTROL) CTRL_BACKLIGHT_ENABLE in
  let tape_enabled := test (reg s REG_CONTROL) CTRL_TAPE_ENABLE in
  let s := update_vu_meters vu_enabled s in
  let s := update_backlight backlight_enabled s in
  update_tape_motor tape_enabled s.

(** ** Main loop *)

(** What one iteration of [loop()] reads from the hardware: the three
    successive results of [millis()] (in [loop] and twice in
    [update_inputs]) and the pin levels. *)
Record hw : Type := mkHw {
  millis_loop : Z;
  millis_inputs : Z;
  millis_button : Z;
  digitalRead : Z -> bool
}.

(** The body run at 100 Hz.  The status LED is left out: it touches no
    variable of the register protocol. *)
Definition tick (h : hw) (s : state) : state :=
  let s := update_inputs (digitalRead h) (millis_inputs h) (millis_button h) s in
  let s := update_encoder s in
  update_pwm_outputs s.

Definition loop (h : hw) (s : state) : state :=
  let now := millis_loop h in
  if 10 <=? u32 (now - last_update s) then
    tick h (set_last_update now s)
  else s.

(** ** Power-up *)

(** The initial values of the globals. *)
Definition power_on : state :=
  mkState (replicate (Z.to_nat sizeof_I2CRegisterBank) 0) 0 0xFF 0x0F
          (replicate (Z.to_nat NUM_DIGITAL_INPUTS) 0) 0 0 0
          ENC_BTN_RELEASED 0 0 0 ∅.

(** [setup()]: the register bank is initialised and [STATUS] set to ready;
    pin and bus configuration leave the globals alone. *)
Definition setup (s : state) : state :=
  let s := i2c_registers_init s in
  let s := fold_left (fun s pin => analogWrite pin 0 s)
             [PIN_VU_LEFT_IN1; PIN_VU_LEFT_IN2; PIN_VU_RIGHT_IN1;
              PIN_VU_RIGHT_IN2; PIN_BACKLIGHT_IN1; PIN_BACKLIGHT_IN2;
              PIN_TAPE_MOTOR_IN1; PIN_TAPE_MOTOR_IN2] s in
  store REG_STATUS STATUS_READY s.

Definition booted : state := setup power_on.

(** Well-formed states: the two arrays have their declared sizes. *)
Definition wf (s : state) : Prop :=
  length (registers s) = 128%nat /\ length (input_last_change s) = 12%nat.

(** The encoder variables owned by the interrupt routine. *)
Definition encoder_private (s : state) : Z * Z * Z :=
  (encoder_position s, encoder_delta s, encoder_state s).

(** The button classifier's variables. *)
Definition button_private (s : state) : Z * Z * Z :=
  (encoder_button_state s, encoder_button_press_time s,
   encoder_button_last_release s).

(** The debounce variables. *)
Definition contacts_private (s : state) : Z * Z * list Z :=
  (input_state_low s, input_state_high s, input_last_change s).

(** A step that rewrites [STATUS] only, leaves its [ERROR] bit alone and
    keeps the private variables. *)
Definition status_only (f : state -> state) : Prop :=
  forall s, wf s ->
    wf (f s)
    /\ (forall a, 0 <= a -> a <> REG_STATUS -> reg (f s) a = reg s a)
    /\ Z.testbit (reg (f s) REG_STATUS) 1 = Z.testbit (reg s REG_STATUS) 1
    /\ encoder_private (f s) = encoder_private s
    /\ button_private (f s) = button_private s
    /\ contacts_private (f s) = contacts_private s.

(** ** Host transactions *)

(** Read-N transaction: the host writes the register address, then reads [n]
    bytes with auto-increment. *)
Fixpoint request_bytes (n : nat) (s : state) : list Z * state :=
  match n with
  | O => ([], s)
  | S n =>
      let '(b, s) := i2c_request_handler s in
      let '(bs, s) := request_bytes n s in
      (b :: bs, s)
  end.

Definition host_read (addr : Z) (n : nat) (s : state) : list Z * state :=
  request_bytes n (i2c_receive_handler [addr] s).

(** Write-N transaction. *)
Definition host_write (addr : Z) (bytes : list Z) (s : state) : state :=
  i2c_receive_handler (addr :: bytes) s.

(** ** Interrupt sequences *)

(** The encoder interrupts of one tick interval, each with the pin levels it
    sampled. *)
Definition run_isr (edges : list (Z -> bool)) (s : state) : state :=
  fold_left (fun s dr => encoder_isr dr s) edges s.

(** Sum of the transition-table entries along a sequence of samples. *)
Fixpoint net_displacement (prev : Z) (edges : list (Z -> bool)) : Z :=
  match edges with
  | [] => 0
  | dr :: rest =>
      transition prev (quadrature dr) + net_displacement (quadrature dr) rest
  end.

(** The 16-bit little-endian value the host assembles from 0x60/0x61. *)
Definition published_position (s : state) : Z :=
  reg s REG_ENCODER_POS_LOW + 256 * reg s REG_ENCODER_POS_HIGH.

(** Successive loop iterations. *)
Definition run_loop (hs : list hw) (s : state) : state :=
  fold_left (fun s h => loop h s) hs s.

Definition run_ticks (hs : list hw) (s : state) : state :=
  fold_left (fun s h => tick h s) hs s.

(** ** Concrete inputs used to exercise the model *)

(** All pull-ups high: contacts open, button released. *)
Definition idle_pins : Z -> bool := fun _ => true.

(** Encoder channels at levels [a] and [b], everything else idle. *)
Definition encoder_pins (a b : bool) : Z -> bool :=
  fun pin =>
    if pin =? PIN_ENCODER_A then a
    else if pin =? PIN_ENCODER_B then b
    else true.

(** One GPIO pulled low, everything else idle. *)
Definition pin_low (p : Z) : Z -> bool := fun pin => negb (pin =? p).

(** A loop iteration in which all three [millis()] calls return [t]. *)
Definition hw_at (t : Z) (pins : Z -> bool) : hw := mkHw t t t pins.

(** [n] full quadrature cycles 00 -> 10 -> 11 -> 01 -> 00, four counts
    each. *)
Definition quadrature_cycles (n : nat) : list (Z -> bool) :=
  concat (replicate n [encoder_pins true false; encoder_pins true true;
                       encoder_pins false true; encoder_pins false false]).

(** Ticks every 10 ms from [t0], [n] of them, with the same pin levels. *)
Definition ticks_from (t0 : Z) (n : Z) (pins : Z -> bool) : list hw :=
  (fun k => hw_at (t0 + 10 * k) pins) <$> seqZ 0 n.

(** The level sampled on contact channel [i]. *)
Definition raw_level (digitalRead : Z -> bool) (i : Z) : bool :=
  digitalRead (default 0 (DIGITAL_INPUT_PINS !! Z.to_nat i)).

(** The debounced level of contact channel [i]. *)
Definition chan_bit (bitmap : Z * Z) (i : Z) : bool :=
  if i <? 8 then Z.testbit (fst bitmap) i else Z.testbit (snd bitmap) (i - 8).

Definition stable_bit (s : state) (i : Z) : bool :=
  chan_bit (input_state_low s, input_state_high s) i.

(** * Properties *)

Create HintDb consts.

#[local] Hint Unfold
  REG_DEVICE_ID REG_FIRMWARE_VER_MAJ REG_FIRMWARE_VER_MIN
  REG_FIRMWARE_VER_PATCH REG_CONTROL REG_STATUS REG_ERROR REG_VU_LEFT
  REG_VU_RIGHT REG_VU_MODE REG_BACKLIGHT REG_BACKLIGHT_MODE REG_TAPE_SPEED
  REG_TAPE_DIRECTION REG_TAPE_MODE REG_INPUT_STATUS_LOW REG_INPUT_STATUS_HIGH
  REG_INPUT_CHANGED_LOW REG_INPUT_CHANGED_HIGH REG_ENCODER_POS_LOW
  REG_ENCODER_POS_HIGH REG_ENCODER_DELTA REG_ENCODER_BUTTON
  REG_CONFIG_VU_FREQ REG_CONFIG_DEBOUNCE REG_CONFIG_OPTIONS REG_COMMAND
  CTRL_ENABLE CTRL_RESET_ENCODER CTRL_CLEAR_INPUTS CTRL_VU_ENABLE
  CTRL_BACKLIGHT_ENABLE CTRL_TAPE_ENABLE CTRL_SAVE_CONFIG CTRL_LOAD_CONFIG
  STATUS_READY STATUS_ERROR STATUS_VU_ACTIVE STATUS_BACKLIGHT_ON
  STATUS_TAPE_RUNNING STATUS_INPUT_CHANGED STATUS_ENCODER_CHANGED
  STATUS_BUTTON_PRESSED ERROR_I2C_OVERFLOW ERROR_INVALID_REG
  ERROR_INVALID_CMD VU_MODE_NORMAL VU_MODE_OFF BACKLIGHT_MODE_MANUAL
  BACKLIGHT_MODE_OFF TAPE_DIR_STOP TAPE_DIR_FORWARD TAPE_DIR_REVERSE
  TAPE_DIR_BRAKE TAPE_MODE_MANUAL TAPE_MODE_OFF ENC_BTN_RELEASED
  ENC_BTN_PRESSED ENC_BTN_HELD ENC_BTN_DOUBLE_CLICK CMD_NOP CMD_RESET
  CMD_FACTORY_RESET CMD_CALIBRATE_VU CMD_TEST_VU_LEFT CMD_TEST_VU_RIGHT
  CMD_TEST_VU_BOTH CMD_TEST_BACKLIGHT CMD_TEST_TAPE_MOTOR CMD_TEST_ALL
  NUM_DIGITAL_INPUTS INPUT_DEBOUNCE_MS sizeof_I2CRegisterBank : consts.

Ltac consts := autounfold with consts in *.

(** ** Bits of truncated bytes *)

Section Bits.

Lemma testbit_u8 z n :
  0 <= n -> Z.testbit (u8 z) n = (n <? 8) && Z.testbit z n.
Proof.
  intros Hn. unfold u8. change 256 with (2 ^ 8).
  destruct (Z.ltb_spec n 8) as [Hlt | Hge].
  - rewrite Z.mod_pow2_bits_low by lia. reflexivity.
  - rewrite Z.mod_pow2_bits_high by lia. reflexivity.
Qed.

Lemma testbit_one_shifted k n :
  0 <= k -> 0 <= n -> Z.testbit (Z.shiftl 1 k) n = (n =? k).
Proof.
  intros Hk Hn. rewrite Z.shiftl_1_l.
  destruct (Z.eqb_spec n k) as [-> | Hne].
  - apply Z.pow2_bits_true. lia.
  - apply Z.pow2_bits_false. lia.
Qed.

Lemma testbit_or8 x m n :
  0 <= n -> Z.testbit (or8 x m) n = (n <? 8) && (Z.testbit x n || Z.testbit m n).
Proof. intros Hn. unfold or8. rewrite testbit_u8, Z.lor_spec; auto. Qed.

Lemma testbit_andn8 x m n :
  0 <= n ->
  Z.testbit (andn8 x m) n = (n <? 8) && (Z.testbit x n && negb (Z.testbit m n)).
Proof.
  intros Hn. unfold andn8.
  rewrite testbit_u8, Z.land_spec, Z.lnot_spec; auto.
Qed.

(** Masking with a single bit yields that bit in place. *)
Lemma land_one_shifted x k :
  0 <= k -> Z.land x (Z.shiftl 1 k) = if Z.testbit x k then 2 ^ k else 0.
Proof.
  intros Hk. apply Z.bits_inj'. intros n Hn.
  rewrite Z.land_spec, testbit_one_shifted by lia.
  destruct (Z.eqb_spec n k) as [-> | Hne].
  - destruct (Z.testbit x k) eqn:E; simpl.
    + symmetry. apply Z.pow2_bits_true. lia.
    + symmetry. apply Z.bits_0.
  - rewrite andb_false_r.
    destruct (Z.testbit x k).
    + symmetry. apply Z.pow2_bits_false. lia.
    + symmetry. apply Z.bits_0.
Qed.

Lemma test_one_shifted x k :
  0 <= k -> test x (Z.shiftl 1 k) = Z.testbit x k.
Proof.
  intros Hk. unfold test. rewrite land_one_shifted by lia.
  destruct (Z.testbit x k); [| reflexivity].
  assert (0 < 2 ^ k) by (apply Z.pow_pos_nonneg; lia).
  destruct (Z.eqb_spec (2 ^ k) 0); [lia | reflexivity].
Qed.

Lemma u8_range z : 0 <= u8 z < 256.
Proof. unfold u8. apply Z.mod_pos_bound. lia. Qed.

Lemma u8_small z : 0 <= z < 256 -> u8 z = z.
Proof. intros H. unfold u8. apply Z.mod_small. lia. Qed.

End Bits.

(** ** Reading and writing the bank *)

Ltac proj :=
  unfold reg in *;
  cbn [registers current_register input_state_low input_state_high
       input_last_change encoder_position encoder_delta encoder_state
       encoder_button_state encoder_button_press_time
       encoder_button_last_release last_update pwm
       store set_registers set_current_register set_input_state
       set_encoder_position set_encoder_delta set_encoder_state
       set_encoder_button_state set_encoder_button_press_time
       set_encoder_button_last_release set_last_update analogWrite
       fst snd] in *.

Section Bank.

Lemma length_reg_set a v r : length (reg_set a v r) = length r.
Proof. unfold reg_set. apply length_insert. Qed.

Lemma reg_get_set (r : list Z) a b v :
  length r = 128%nat -> 0 <= a < 128 -> 0 <= b ->
  reg_get (reg_set a v r) b = if a =? b then v else reg_get r b.
Proof.
  intros Hlen Ha Hb. unfold reg_get, reg_set.
  destruct (Z.eqb_spec a b) as [-> | Hne].
  - rewrite list_lookup_insert_eq by lia. reflexivity.
  - rewrite list_lookup_insert_ne by lia. reflexivity.
Qed.

Lemma reg_get_replicate n a : reg_get (replicate n 0) a = 0.
Proof.
  unfold reg_get.
  destruct (replicate n 0 !! Z.to_nat a) as [x |] eqn:E; [| reflexivity].
  apply lookup_replicate in E. simpl. tauto.
Qed.

Lemma wf_store a v s : wf s -> wf (store a v s).
Proof. unfold wf. proj. rewrite length_reg_set. tauto. Qed.

Lemma reg_store s a b v :
  wf s -> 0 <= a < 128 -> 0 <= b ->
  reg (store a v s) b = if a =? b then v else reg s b.
Proof. intros [Hlen _] Ha Hb. proj. apply reg_get_set; assumption. Qed.

Lemma reg_store_same s a v :
  wf s -> 0 <= a < 128 -> reg (store a v s) a = v.
Proof.
  intros Hwf Ha. rewrite reg_store by (auto; lia).
  rewrite Z.eqb_refl. reflexivity.
Qed.

Lemma reg_store_other s a b v :
  wf s -> 0 <= a < 128 -> 0 <= b -> a <> b ->
  reg (store a v s) b = reg s b.
Proof.
  intros Hwf Ha Hb Hne. rewrite reg_store by (auto; lia).
  destruct (Z.eqb_spec a b); [contradiction | reflexivity].
Qed.

Lemma wf_set_current_register v s : wf s -> wf (set_current_register v s).
Proof. exact id. Qed.
Lemma wf_set_encoder_position v s : wf s -> wf (set_encoder_position v s).
Proof. exact id. Qed.
Lemma wf_set_encoder_delta v s : wf s -> wf (set_encoder_delta v s).
Proof. exact id. Qed.
Lemma wf_set_encoder_state v s : wf s -> wf (set_encoder_state v s).
Proof. exact id. Qed.
Lemma wf_set_encoder_button_state v s :
  wf s -> wf (set_encoder_button_state v s).
Proof. exact id. Qed.
Lemma wf_set_encoder_button_press_time v s :
  wf s -> wf (set_encoder_button_press_time v s).
Proof. exact id. Qed.
Lemma wf_set_encoder_button_last_release v s :
  wf s -> wf (set_encoder_button_last_release v s).
Proof. exact id. Qed.
Lemma wf_set_last_update v s : wf s -> wf (set_last_update v s).
Proof. exact id. Qed.
Lemma wf_analogWrite p v s : wf s -> wf (analogWrite p v s).
Proof. exact id. Qed.
Lemma wf_set_input_state lo hi lc s :
  length lc = 12%nat -> wf s -> wf (set_input_state lo hi lc s).
Proof. intros Hlc [Hr _]. split; assumption. Qed.

Lemma wf_i2c_registers_init s : wf s -> wf (i2c_registers_init s).
Proof.
  intros [_ Hlc]. split; [| exact Hlc].
  unfold i2c_registers_init. proj.
  rewrite !length_reg_set. reflexivity.
Qed.

Lemma wf_power_on : wf power_on.
Proof. split; reflexivity. Qed.

Lemma wf_booted : wf booted.
Proof. split; reflexivity. Qed.

End Bank.

Create HintDb wf.

#[local] Hint Resolve wf_store wf_set_current_register wf_set_encoder_position
  wf_set_encoder_delta wf_set_encoder_state wf_set_encoder_button_state
  wf_set_encoder_button_press_time wf_set_encoder_button_last_release
  wf_set_last_update wf_analogWrite wf_set_input_state wf_i2c_registers_init
  wf_power_on wf_booted : wf.

(** Rewrites every read of a bank that was just stored into; the addresses
    are constants, so the comparisons compute. *)
Ltac is_numeral x :=
  match x with
  | Z0 => idtac
  | Zpos _ => idtac
  end.

Ltac closed_eqb :=
  repeat match goal with
         | |- context [?x =? ?y] =>
             is_numeral x; is_numeral y;
             let b := eval cbv in (x =? y) in
             match b with
             | true => change (x =? y) with true
             | false => change (x =? y) with false
             end
         | |- context [?x <=? ?y] =>
             is_numeral x; is_numeral y;
             let b := eval cbv in (x <=? y) in
             match b with
             | true => change (x <=? y) with true
             | false => change (x <=? y) with false
             end
         end;
  cbv iota.

Ltac closed_bits :=
  repeat match goal with
         | |- context [Z.testbit ?x ?y] =>
             is_numeral x; is_numeral y;
             let b := eval cbv in (Z.testbit x y) in
             change (Z.testbit x y) with b
         | |- context [?x <? ?y] =>
             is_numeral x; is_numeral y;
             let b := eval cbv in (x <? y) in
             change (x <? y) with b
         end;
  rewrite ?orb_false_r, ?orb_true_r, ?andb_true_r, ?andb_true_l; cbn [negb].

Ltac regs :=
  proj;
  repeat (rewrite reg_get_set
            by (rewrite ?length_reg_set; solve [assumption | consts; lia]));
  consts; closed_eqb.

Ltac split_ifs :=
  repeat match goal with
         | |- context [if ?c then _ else _] => destruct c eqn:?
         end.

Ltac addr_cases :=
  repeat match goal with
         | |- context [?x =? ?y] => destruct (Z.eqb_spec x y); try lia
         end.

Ltac status_only_tac f :=
  intros s Hwf;
  split; [unfold f; split_ifs; auto 10 with wf |];
  destruct Hwf as [Hlen _];
  split; [intros a Ha Hne; unfold f; split_ifs; regs; addr_cases; reflexivity |];
  split;
  [ unfold f; split_ifs; regs; rewrite ?testbit_or8, ?testbit_andn8 by lia;
    closed_bits; reflexivity
  | repeat split; unfold f; split_ifs; reflexivity ].

(** ** What each update function leaves alone *)

Section Frames.

Variable dr : Z -> bool.

Lemma encoder_private_inv s s' :
  encoder_private s = encoder_private s' ->
  encoder_position s = encoder_position s'
  /\ encoder_delta s = encoder_delta s'
  /\ encoder_state s = encoder_state s'.
Proof. unfold encoder_private. intros [= -> -> ->]. auto. Qed.

Lemma wf_update_button t s : wf s -> wf (update_button dr t s).
Proof. intros H. unfold update_button. split_ifs; auto 10 with wf. Qed.

Lemma update_button_reg t s a :
  wf s -> 0 <= a -> a <> REG_STATUS -> a <> REG_ENCODER_BUTTON ->
  reg (update_button dr t s) a = reg s a.
Proof.
  intros [Hlen _] Ha H1 H2. unfold update_button.
  split_ifs; regs; addr_cases; reflexivity.
Qed.

Lemma update_button_status_bit t s n :
  wf s -> 0 <= n < 7 ->
  Z.testbit (reg (update_button dr t s) REG_STATUS) n
  = Z.testbit (reg s REG_STATUS) n.
Proof.
  intros [Hlen _] Hn. unfold update_button.
  assert (H128 : Z.testbit 128 n = false)
    by (apply (Z.pow2_bits_false 7); lia).
  assert (H8 : (n <? 8) = true) by (apply Z.ltb_lt; lia).
  split_ifs; regs; rewrite ?testbit_or8, ?testbit_andn8 by lia;
    rewrite ?H128, ?H8; cbn [negb andb];
    rewrite ?orb_false_r, ?andb_true_r; reflexivity.
Qed.

Lemma update_button_encoder t s :
  encoder_private (update_button dr t s) = encoder_private s.
Proof. unfold update_button. split_ifs; reflexivity. Qed.

Lemma debounce_fold_length now lo hi chans acc :
  length (snd (fold_left (debounce_channel dr now lo hi) chans acc))
  = length (snd acc).
Proof.
  revert acc. induction chans as [| i chans IH]; intros acc; [reflexivity |].
  simpl. rewrite IH. destruct acc as [new_state lc].
  unfold debounce_channel. split_ifs; simpl; rewrite ?length_insert; auto.
Qed.

Lemma debounce_inputs_length now lo hi lc :
  length (snd (debounce_inputs dr now lo hi lc)) = length lc.
Proof. unfold debounce_inputs. apply debounce_fold_length. Qed.

Lemma wf_flag_changes cl ch s : wf s -> wf (flag_changes cl ch s).
Proof. intros H. unfold flag_changes. split_ifs; auto 10 with wf. Qed.

Lemma flag_changes_reg cl ch s a :
  wf s -> 0 <= a -> a <> REG_STATUS ->
  a <> REG_INPUT_CHANGED_LOW -> a <> REG_INPUT_CHANGED_HIGH ->
  reg (flag_changes cl ch s) a = reg s a.
Proof.
  intros [Hlen _] Ha H1 H2 H3. unfold flag_changes.
  split_ifs; regs; addr_cases; reflexivity.
Qed.

Lemma flag_changes_status_error cl ch s :
  wf s ->
  Z.testbit (reg (flag_changes cl ch s) REG_STATUS) 1
  = Z.testbit (reg s REG_STATUS) 1.
Proof.
  intros [Hlen _]. unfold flag_changes.
  split_ifs; regs; rewrite ?testbit_or8 by lia; closed_bits; reflexivity.
Qed.

Lemma wf_update_contacts now s : wf s -> wf (update_contacts dr now s).
Proof.
  intros Hwf. unfold update_contacts.
  pose proof (debounce_inputs_length now (input_state_low s)
                (input_state_high s) (input_last_change s)) as Hlen.
  destruct (debounce_inputs _ _ _ _ _) as [[lo hi] lc]. simpl in Hlen.
  rewrite (proj2 Hwf) in Hlen.
  auto using wf_store, wf_set_input_state, wf_flag_changes.
Qed.

Lemma update_contacts_reg now s a :
  wf s -> 0 <= a -> a <> REG_STATUS ->
  a <> REG_INPUT_STATUS_LOW -> a <> REG_INPUT_STATUS_HIGH ->
  a <> REG_INPUT_CHANGED_LOW -> a <> REG_INPUT_CHANGED_HIGH ->
  reg (update_contacts dr now s) a = reg s a.
Proof.
  intros Hwf Ha H1 H2 H3 H4 H5. unfold update_contacts.
  pose proof (debounce_inputs_length now (input_state_low s)
                (input_state_high s) (input_last_change s)) as Hlen.
  destruct (debounce_inputs _ _ _ _ _) as [[lo hi] lc]. simpl in Hlen.
  rewrite (proj2 Hwf) in Hlen.
  rewrite !reg_store_other
    by (auto using wf_store, wf_set_input_state, wf_flag_changes;
        consts; lia).
  change (reg (set_input_state lo hi lc ?x) a) with (reg x a).
  apply flag_changes_reg; assumption.
Qed.

Lemma update_contacts_status now s :
  wf s ->
  exists cl ch,
    reg (update_contacts dr now s) REG_STATUS
    = reg (flag_changes cl ch s) REG_STATUS.
Proof.
  intros Hwf. unfold update_contacts.
  pose proof (debounce_inputs_length now (input_state_low s)
                (input_state_high s) (input_last_change s)) as Hlen.
  destruct (debounce_inputs _ _ _ _ _) as [[lo hi] lc]. simpl in Hlen.
  rewrite (proj2 Hwf) in Hlen.
  eexists _, _.
  rewrite !reg_store_other
    by (auto using wf_store, wf_set_input_state, wf_flag_changes;
        consts; lia).
  reflexivity.
Qed.

Lemma flag_changes_encoder cl ch s :
  encoder_private (flag_changes cl ch s) = encoder_private s.
Proof. unfold flag_changes. split_ifs; reflexivity. Qed.

Lemma update_contacts_encoder now s :
  encoder_private (update_contacts dr now s) = encoder_private s.
Proof.
  unfold update_contacts.
  destruct (debounce_inputs _ _ _ _ _) as [[lo hi] lc].
  apply (flag_changes_encoder _ _ s).
Qed.

Lemma wf_update_inputs now t s : wf s -> wf (update_inputs dr now t s).
Proof.
  intros Hwf. apply wf_update_button, wf_update_contacts, Hwf.
Qed.

Lemma update_inputs_reg now t s a :
  wf s -> 0 <= a ->
  a <> REG_STATUS -> a <> REG_ENCODER_BUTTON ->
  a <> REG_INPUT_STATUS_LOW -> a <> REG_INPUT_STATUS_HIGH ->
  a <> REG_INPUT_CHANGED_LOW -> a <> REG_INPUT_CHANGED_HIGH ->
  reg (update_inputs dr now t s) a = reg s a.
Proof.
  intros Hwf Ha H1 H2 H3 H4 H5 H6. unfold update_inputs.
  rewrite update_button_reg by auto using wf_update_contacts.
  apply update_contacts_reg; assumption.
Qed.

Lemma update_inputs_encoder now t s :
  encoder_private (update_inputs dr now t s) = encoder_private s.
Proof.
  unfold update_inputs.
  rewrite update_button_encoder. apply update_contacts_encoder.
Qed.

Lemma update_inputs_status_error now t s :
  wf s ->
  Z.testbit (reg (update_inputs dr now t s) REG_STATUS) 1
  = Z.testbit (reg s REG_STATUS) 1.
Proof.
  intros Hwf. unfold update_inputs.
  rewrite update_button_status_bit by (auto using wf_update_contacts; lia).
  destruct (update_contacts_status now s Hwf) as (cl & ch & ->).
  apply flag_changes_status_error, Hwf.
Qed.

Lemma wf_update_encoder s : wf s -> wf (update_encoder s).
Proof. intros H. unfold update_encoder. split_ifs; auto 10 with wf. Qed.

Lemma update_encoder_reg s a :
  wf s -> 0 <= a ->
  a <> REG_STATUS -> a <> REG_ENCODER_POS_LOW ->
  a <> REG_ENCODER_POS_HIGH -> a <> REG_ENCODER_DELTA ->
  reg (update_encoder s) a = reg s a.
Proof.
  intros [Hlen _] Ha H1 H2 H3 H4. unfold update_encoder.
  split_ifs; regs; addr_cases; reflexivity.
Qed.

Lemma update_encoder_status_error s :
  wf s ->
  Z.testbit (reg (update_encoder s) REG_STATUS) 1
  = Z.testbit (reg s REG_STATUS) 1.
Proof.
  intros [Hlen _]. unfold update_encoder.
  split_ifs; regs; rewrite ?testbit_or8 by lia; closed_bits; reflexivity.
Qed.

(** The tick publishes position and accumulated delta and zeroes the
    accumulator. *)
Lemma update_encoder_publishes s :
  wf s ->
  reg (update_encoder s) REG_ENCODER_POS_LOW
    = Z.land (encoder_position s) 0xFF
  /\ reg (update_encoder s) REG_ENCODER_POS_HIGH
    = Z.land (Z.shiftr (encoder_position s) 8) 0xFF
  /\ reg (update_encoder s) REG_ENCODER_DELTA = u8 (encoder_delta s)
  /\ encoder_private (update_encoder s)
    = (encoder_position s, 0, encoder_state s).
Proof.
  intros [Hlen _]. unfold update_encoder.
  split_ifs; repeat split; regs; reflexivity.
Qed.

Lemma status_only_compose f g :
  status_only f -> status_only g -> status_only (fun s => g (f s)).
Proof.
  intros Hf Hg s Hwf.
  destruct (Hf s Hwf) as (Hwf' & Hr & Hb & Hp & Hq & Hc).
  destruct (Hg (f s) Hwf') as (Hwf'' & Hr' & Hb' & Hp' & Hq' & Hc').
  split; [exact Hwf'' |]. split; [| repeat split; congruence].
  intros a Ha Hne. rewrite Hr', Hr; auto.
Qed.

Lemma status_only_vu b : status_only (update_vu_meters b).
Proof. status_only_tac update_vu_meters. Qed.

Lemma status_only_backlight b : status_only (update_backlight b).
Proof. status_only_tac update_backlight. Qed.

Lemma status_only_tape b : status_only (update_tape_motor b).
Proof. status_only_tac update_tape_motor. Qed.

Lemma status_only_pwm_outputs : status_only update_pwm_outputs.
Proof.
  intros s Hwf. unfold update_pwm_outputs.
  apply (status_only_compose
           (fun s0 => update_backlight
                        (test (reg s REG_CONTROL) CTRL_BACKLIGHT_ENABLE)
                        (update_vu_meters
                           (test (reg s REG_CONTROL) CTRL_VU_ENABLE) s0))
           (update_tape_motor (test (reg s REG_CONTROL) CTRL_TAPE_ENABLE)));
    [| apply status_only_tape | assumption].
  apply (status_only_compose (update_vu_meters _) (update_backlight _));
    [apply status_only_vu | apply status_only_backlight].
Qed.

Lemma update_contacts_button now s :
  button_private (update_contacts dr now s) = button_private s.
Proof.
  unfold update_contacts.
  destruct (debounce_inputs _ _ _ _ _) as [[lo hi] lc].
  change (button_private (flag_changes (Z.lxor (input_state_low s) lo)
                            (Z.lxor (input_state_high s) hi) s)
          = button_private s).
  unfold flag_changes. split_ifs; reflexivity.
Qed.

Lemma update_button_contacts t s :
  contacts_private (update_button dr t s) = contacts_private s.
Proof. unfold update_button. split_ifs; reflexivity. Qed.

Lemma update_encoder_button s :
  button_private (update_encoder s) = button_private s
  /\ contacts_private (update_encoder s) = contacts_private s.
Proof. unfold update_encoder. split_ifs; split; reflexivity. Qed.

End Frames.

(** ** The tick as a whole *)

Section Tick.

Variable h : hw.

Lemma wf_tick s : wf s -> wf (tick h s).
Proof.
  intros Hwf. unfold tick.
  apply status_only_pwm_outputs, wf_update_encoder, wf_update_inputs, Hwf.
Qed.

Lemma wf_loop s : wf s -> wf (loop h s).
Proof.
  intros Hwf. unfold loop. split_ifs; [| exact Hwf].
  apply wf_tick, wf_set_last_update, Hwf.
Qed.

(** Registers outside the input, encoder and status blocks survive a
    tick. *)
Lemma tick_reg s a :
  wf s -> 0 <= a ->
  a <> REG_STATUS ->
  ~ (REG_INPUT_STATUS_LOW <= a <= REG_INPUT_CHANGED_HIGH) ->
  ~ (REG_ENCODER_POS_LOW <= a <= REG_ENCODER_BUTTON) ->
  reg (tick h s) a = reg s a.
Proof.
  intros Hwf Ha H1 H2 H3. unfold tick. consts.
  pose proof (wf_update_inputs (digitalRead h) (millis_inputs h)
                (millis_button h) s Hwf) as Hwf1.
  pose proof (wf_update_encoder _ Hwf1) as Hwf2.
  destruct (status_only_pwm_outputs _ Hwf2) as (_ & Hr & _).
  rewrite Hr by (consts; lia).
  rewrite update_encoder_reg by (auto; consts; lia).
  apply update_inputs_reg; auto; consts; lia.
Qed.

Lemma tick_status_error s :
  wf s ->
  Z.testbit (reg (tick h s) REG_STATUS) 1 = Z.testbit (reg s REG_STATUS) 1.
Proof.
  intros Hwf. unfold tick.
  pose proof (wf_update_inputs (digitalRead h) (millis_inputs h)
                (millis_button h) s Hwf) as Hwf1.
  pose proof (wf_update_encoder _ Hwf1) as Hwf2.
  destruct (status_only_pwm_outputs _ Hwf2) as (_ & _ & -> & _).
  rewrite update_encoder_status_error by assumption.
  apply update_inputs_status_error, Hwf.
Qed.

(** The tick publishes the interrupt routine's counters and zeroes the
    accumulator. *)
Lemma tick_publishes s :
  wf s ->
  reg (tick h s) REG_ENCODER_POS_LOW = Z.land (encoder_position s) 0xFF
  /\ reg (tick h s) REG_ENCODER_POS_HIGH
    = Z.land (Z.shiftr (encoder_position s) 8) 0xFF
  /\ reg (tick h s) REG_ENCODER_DELTA = u8 (encoder_delta s)
  /\ encoder_private (tick h s) = (encoder_position s, 0, encoder_state s).
Proof.
  intros Hwf. unfold tick.
  pose proof (wf_update_inputs (digitalRead h) (millis_inputs h)
                (millis_button h) s Hwf) as Hwf1.
  pose proof (wf_update_encoder _ Hwf1) as Hwf2.
  destruct (status_only_pwm_outputs _ Hwf2) as (_ & Hr & _ & -> & _).
  rewrite !Hr by (consts; lia).
  destruct (update_encoder_publishes _ Hwf1) as (-> & -> & -> & ->).
  destruct (encoder_private_inv _ _
              (update_inputs_encoder (digitalRead h) (millis_inputs h)
                 (millis_button h) s)) as (-> & -> & ->).
  auto.
Qed.

End Tick.

(** ** Host reads *)

Section Reads.

(** Registers without a read side effect. *)
Lemma i2c_register_read_plain a s :
  0 <= a < 128 ->
  a <> REG_INPUT_CHANGED_LOW -> a <> REG_INPUT_CHANGED_HIGH ->
  a <> REG_ENCODER_DELTA ->
  i2c_register_read a s = (reg s a, s).
Proof.
  intros Ha H1 H2 H3. unfold i2c_register_read. consts.
  destruct (Z.leb_spec 128 a); [lia |].
  addr_cases. reflexivity.
Qed.

Lemma i2c_register_read_delta s :
  i2c_register_read REG_ENCODER_DELTA s
  = (reg s REG_ENCODER_DELTA,
     store REG_STATUS (andn8 (reg s REG_STATUS) STATUS_ENCODER_CHANGED) s).
Proof. reflexivity. Qed.

Lemma i2c_register_read_out_of_range a s :
  128 <= a ->
  i2c_register_read a s
  = (0xFF, store REG_ERROR (or8 (reg s REG_ERROR) ERROR_INVALID_REG) s).
Proof.
  intros Ha. unfold i2c_register_read. consts.
  destruct (Z.leb_spec 128 a); [reflexivity | lia].
Qed.

End Reads.

(** ** Claims about the register bank *)

(** C7, as amended: a host read of the command port 0xF0 takes the
    out-of-range path of [i2c_register_read]: the byte returned is 0xFF and
    ERROR.INVALID_REG is set; the other ERROR bits and every other register
    keep their values. *)
Theorem read_command_port_is_invalid (s : state) :
  wf s ->
  let '(value, s') := i2c_register_read REG_COMMAND s in
  value = 0xFF
  /\ Z.testbit (reg s' REG_ERROR) 1 = true
  /\ (forall n, 0 <= n < 8 -> n <> 1 ->
       Z.testbit (reg s' REG_ERROR) n = Z.testbit (reg s REG_ERROR) n)
  /\ (forall a, 0 <= a -> a <> REG_ERROR -> reg s' a = reg s a).
Proof.
  intros [Hlen _].
  rewrite i2c_register_read_out_of_range by (consts; lia).
  split; [reflexivity |]. split; [| split].
  - regs. rewrite testbit_or8 by lia. closed_bits. reflexivity.
  - intros n Hn Hne. regs. rewrite testbit_or8 by lia.
    change 2 with (2 ^ 1). rewrite (Z.pow2_bits_false 1 n) by lia.
    destruct (Z.ltb_spec n 8); [| lia]. simpl. apply orb_false_r.
  - intros a Ha Hne. regs. addr_cases; reflexivity.
Qed.

Lemma read_command_port_is_invalid_witness :
  wf booted
  /\ fst (i2c_register_read REG_COMMAND booted) = 0xFF
  /\ Z.testbit (reg (snd (i2c_register_read REG_COMMAND booted)) REG_ERROR) 1
     = true.
Proof.
  split; [exact wf_booted |].
  pose proof (read_command_port_is_invalid booted wf_booted) as H.
  destruct (i2c_register_read REG_COMMAND booted) as [value s'].
  destruct H as (Hv & Hb & _). split; assumption.
Defined.

(** C7 as stated fails: after power-up a one-byte read at 0xF0 does not
    return 0 and does change ERROR. *)
Lemma read_command_port_counterexample :
  ~ (fst (host_read REG_COMMAND 1 booted) = [0]
     /\ reg (snd (host_read REG_COMMAND 1 booted)) REG_ERROR
        = reg booted REG_ERROR).
Proof. intros [H _]. vm_compute in H. discriminate H. Qed.

(** C9: a host write to STATUS (0x11) or ERROR (0x12) is accepted and
    stores the byte verbatim: the write returns ok, nothing but the addressed
    byte changes (so no error bit is raised by the write), and a following
    read returns the byte written.  In particular writing 0 to 0x12 clears
    the error bitmap without touching any other variable. *)
Theorem status_and_error_are_host_writable (s : state) (a v : Z) :
  wf s ->
  a = REG_STATUS \/ a = REG_ERROR ->
  let '(ok, s') := i2c_register_write a v s in
  ok = true
  /\ s' = store a v s
  /\ reg s' REG_ERROR = (if a =? REG_ERROR then v else reg s REG_ERROR)
  /\ (forall b, 0 <= b -> b <> a -> reg s' b = reg s b)
  /\ i2c_register_read a s' = (v, s')
  /\ fst (host_read a 1 (host_write a [v] s)) = [v].
Proof.
  intros Hwf Ha.
  assert (Hw : i2c_register_write a v s = (true, store a v s))
    by (destruct Ha as [-> | ->]; reflexivity).
  rewrite Hw. split; [reflexivity |]. split; [reflexivity |].
  assert (Hrd : forall s0, wf s0 ->
            i2c_register_read a (store a v s0) = (v, store a v s0)).
  { intros s0 Hwf0.
    rewrite i2c_register_read_plain by (destruct Ha as [-> | ->]; consts; lia).
    rewrite reg_store_same by (auto; destruct Ha as [-> | ->]; consts; lia).
    reflexivity. }
  split; [| split; [| split]].
  - rewrite reg_store by (auto; destruct Ha as [-> | ->]; consts; lia).
    destruct Ha as [-> | ->]; reflexivity.
  - intros b Hb Hne.
    apply reg_store_other; auto; destruct Ha as [-> | ->]; consts; lia.
  - apply Hrd, Hwf.
  - assert (E : host_write a [v] s
                 = set_current_register (u8 (a + 1)) (store a v s))
      by (destruct Ha as [-> | ->]; reflexivity).
    rewrite E.
    unfold host_read, i2c_receive_handler, receive_bytes, request_bytes,
      i2c_request_handler.
    change (current_register (set_current_register a ?x)) with a.
    rewrite i2c_register_read_plain
      by (destruct Ha as [-> | ->]; consts; lia).
    cbn [fst].
    change (reg (set_current_register a
                   (set_current_register (u8 (a + 1)) (store a v s))) a)
      with (reg (store a v s) a).
    rewrite reg_store_same by (auto; destruct Ha as [-> | ->]; consts; lia).
    reflexivity.
Qed.

Lemma status_and_error_are_host_writable_witness :
  wf booted
  /\ fst (i2c_register_write REG_ERROR 0 booted) = true
  /\ reg (snd (i2c_register_write REG_ERROR 0 booted)) REG_ERROR = 0
  /\ fst (host_read REG_ERROR 1 (host_write REG_ERROR [0] booted)) = [0].
Proof.
  split; [exact wf_booted |].
  pose proof (status_and_error_are_host_writable booted REG_ERROR 0
                wf_booted (or_intror eq_refl)) as H.
  destruct (i2c_register_write REG_ERROR 0 booted) as [ok s'].
  destruct H as (Hok & _ & He & _ & _ & Hh).
  repeat split; assumption.
Defined.

(** ** Command dispatch *)

(** The commands the [switch] of [i2c_execute_command] has a case for. *)
Lemma i2c_execute_command_accepted (s : state) (c : Z) :
  c = CMD_NOP \/ c = CMD_TEST_VU_LEFT \/ c = CMD_TEST_VU_RIGHT
  \/ c = CMD_TEST_VU_BOTH \/ c = CMD_TEST_BACKLIGHT
  \/ c = CMD_TEST_TAPE_MOTOR \/ c = CMD_TEST_ALL ->
  i2c_execute_command c s = (true, s).
Proof.
  intros H. repeat destruct H as [-> | H]; try subst c; reflexivity.
Qed.

Lemma i2c_execute_command_reset (s : state) :
  i2c_execute_command CMD_RESET s = (true, i2c_registers_init s)
  /\ reg (i2c_registers_init s) REG_ERROR = 0.
Proof. split; reflexivity. Qed.

(** Every other byte takes the [default] branch. *)
Lemma i2c_execute_command_default (s : state) (c : Z) :
  c <> CMD_NOP -> c <> CMD_RESET -> c <> CMD_TEST_VU_LEFT ->
  c <> CMD_TEST_VU_RIGHT -> c <> CMD_TEST_VU_BOTH ->
  c <> CMD_TEST_BACKLIGHT -> c <> CMD_TEST_TAPE_MOTOR -> c <> CMD_TEST_ALL ->
  i2c_execute_command c s
  = (false, store REG_ERROR (or8 (reg s REG_ERROR) ERROR_INVALID_CMD) s).
Proof.
  intros. unfold i2c_execute_command. consts.
  addr_cases. reflexivity.
Qed.

(** C2, the code at the two inputs where it departs from the claim: the
    command codes FACTORY_RESET (0x02) and CALIBRATE_VU (0x10), which
    [i2c_registers.h] defines, have no case in the [switch]; the command is
    refused and ERROR.INVALID_CMD is set. *)
Theorem declared_commands_rejected (s : state) (c : Z) :
  wf s ->
  c = CMD_FACTORY_RESET \/ c = CMD_CALIBRATE_VU ->
  let '(ok, s') := i2c_execute_command c s in
  ok = false /\ Z.testbit (reg s' REG_ERROR) 2 = true.
Proof.
  intros [Hlen _] Hc.
  rewrite i2c_execute_command_default
    by (destruct Hc as [-> | ->]; consts; lia).
  split; [reflexivity |].
  regs. rewrite testbit_or8 by lia. closed_bits. reflexivity.
Qed.

Lemma declared_commands_rejected_witness :
  wf booted
  /\ fst (i2c_execute_command CMD_FACTORY_RESET booted) = false
  /\ Z.testbit
       (reg (snd (i2c_execute_command CMD_FACTORY_RESET booted)) REG_ERROR) 2
     = true.
Proof.
  split; [exact wf_booted |].
  pose proof (declared_commands_rejected booted CMD_FACTORY_RESET
                wf_booted (or_introl eq_refl)) as H.
  destruct (i2c_execute_command CMD_FACTORY_RESET booted) as [ok s'].
  exact H.
Defined.

(** ** Writes to CONTROL *)

Section Control.

Lemma testbit_byte_high v n : 0 <= v < 256 -> 8 <= n -> Z.testbit v n = false.
Proof.
  intros Hv Hn. rewrite <- (u8_small v Hv), testbit_u8 by lia.
  destruct (Z.ltb_spec n 8); [lia | reflexivity].
Qed.

Lemma test_bit1 v : test v 2 = Z.testbit v 1.
Proof. apply (test_one_shifted v 1). lia. Qed.

Lemma test_bit2 v : test v 4 = Z.testbit v 2.
Proof. apply (test_one_shifted v 2). lia. Qed.

Lemma bit_index_cases n :
  0 <= n ->
  n = 0 \/ n = 1 \/ n = 2 \/ n = 3 \/ n = 4 \/ n = 5 \/ n = 6 \/ n = 7
  \/ 8 <= n.
Proof. lia. Qed.

(** The byte left in CONTROL by the two self-clearing blocks. *)
Lemma control_after_write v :
  0 <= v < 256 ->
  (if test v CTRL_CLEAR_INPUTS
   then andn8 (if test v CTRL_RESET_ENCODER
               then andn8 v CTRL_RESET_ENCODER else v) CTRL_CLEAR_INPUTS
   else if test v CTRL_RESET_ENCODER
        then andn8 v CTRL_RESET_ENCODER else v)
  = Z.land v 0xF9.
Proof.
  intros Hv. consts. rewrite test_bit1, test_bit2.
  apply Z.bits_inj'. intros n Hn.
  rewrite Z.land_spec.
  destruct (Z.testbit v 2) eqn:E2, (Z.testbit v 1) eqn:E1;
    rewrite ?testbit_andn8 by lia;
    destruct (bit_index_cases n Hn)
      as [-> | [-> | [-> | [-> | [-> | [-> | [-> | [-> | Hhi]]]]]]]];
    try (rewrite (testbit_byte_high v n Hv Hhi);
         destruct (Z.ltb_spec n 8); [lia | reflexivity]);
    closed_bits; rewrite ?E1, ?E2, ?andb_false_r; reflexivity.
Qed.

End Control.

Ltac pointer :=
  repeat match goal with
         | |- context [current_register (set_current_register ?a ?x)] =>
             change (current_register (set_current_register a x)) with a
         end.

Section EncoderReadout.

Lemma host_read_encoder s :
  wf s ->
  fst (host_read REG_ENCODER_POS_LOW 3 s)
  = [reg s REG_ENCODER_POS_LOW; reg s REG_ENCODER_POS_HIGH;
     reg s REG_ENCODER_DELTA].
Proof.
  intros Hwf. unfold host_read, i2c_receive_handler, receive_bytes.
  cbn [request_bytes]. unfold i2c_request_handler.
  pointer. rewrite i2c_register_read_plain by (consts; lia).
  cbv beta iota. pointer.
  change (u8 (REG_ENCODER_POS_LOW + 1)) with REG_ENCODER_POS_HIGH.
  rewrite i2c_register_read_plain by (consts; lia).
  cbv beta iota. pointer.
  change (u8 (REG_ENCODER_POS_HIGH + 1)) with REG_ENCODER_DELTA.
  rewrite i2c_register_read_delta.
  reflexivity.
Qed.

End EncoderReadout.

Section Writes.

Lemma wf_i2c_execute_command c s : wf s -> wf (snd (i2c_execute_command c s)).
Proof.
  intros Hwf. unfold i2c_execute_command.
  split_ifs; cbn [snd]; auto with wf.
Qed.

Lemma wf_i2c_register_write a v s :
  wf s -> wf (snd (i2c_register_write a v s)).
Proof.
  intros Hwf. unfold i2c_register_write.
  destruct (a <=? 3); [cbn [snd]; auto with wf |].
  destruct (a =? REG_COMMAND); [apply wf_i2c_execute_command, Hwf |].
  destruct (sizeof_I2CRegisterBank <=? a); [cbn [snd]; auto with wf |].
  cbn [snd]. split_ifs; auto 20 with wf.
Qed.

End Writes.

(** C8, as amended: after a host write of [v] to CONTROL the stored byte is
    [v] with bits 1 (RESET_ENCODER) and 2 (CLEAR_INPUTS) cleared; bits 6
    (SAVE_CONFIG) and 7 (LOAD_CONFIG) are stored as written, like the
    enable bits. *)
Theorem control_write_self_clears_bits_1_and_2 (s : state) (v : Z) :
  wf s -> 0 <= v < 256 ->
  let '(ok, s') := i2c_register_write REG_CONTROL v s in
  ok = true
  /\ reg s' REG_CONTROL = Z.land v 0xF9
  /\ Z.testbit (reg s' REG_CONTROL) 1 = false
  /\ Z.testbit (reg s' REG_CONTROL) 2 = false
  /\ Z.testbit (reg s' REG_CONTROL) 6 = Z.testbit v 6
  /\ Z.testbit (reg s' REG_CONTROL) 7 = Z.testbit v 7.
Proof.
  intros [Hlen Hlc] Hv. unfold i2c_register_write. consts. closed_eqb.
  assert (Hc : reg (snd (i2c_register_write REG_CONTROL v s)) REG_CONTROL
               = Z.land v 0xF9).
  { rewrite <- (control_after_write v Hv).
    unfold i2c_register_write. consts. closed_eqb.
    destruct (test v 2), (test v 4); regs; reflexivity. }
  unfold i2c_register_write in Hc. consts. revert Hc. closed_eqb.
  cbn [snd]. intros ->. split; [reflexivity |]. split; [reflexivity |].
  rewrite !Z.land_spec. closed_bits.
  rewrite !andb_false_r. auto.
Qed.

Lemma control_write_self_clears_bits_1_and_2_witness :
  wf booted
  /\ reg (snd (i2c_register_write REG_CONTROL 0xFF booted)) REG_CONTROL = 0xF9.
Proof.
  split; [exact wf_booted |].
  pose proof (control_write_self_clears_bits_1_and_2 booted 0xFF wf_booted
                ltac:(lia)) as H.
  destruct (i2c_register_write REG_CONTROL 0xFF booted) as [ok s'].
  destruct H as (_ & H & _). exact H.
Defined.

(** C8 as stated fails: writing SAVE_CONFIG (0x40) to CONTROL after
    power-up leaves bit 6 set in the stored byte. *)
Lemma control_write_action_bits_counterexample :
  ~ (let c := reg (host_write REG_CONTROL [0x40] booted) REG_CONTROL in
     Z.testbit c 1 = false /\ Z.testbit c 2 = false
     /\ Z.testbit c 6 = false /\ Z.testbit c 7 = false).
Proof. intros (_ & _ & H & _). vm_compute in H. discriminate H. Qed.

(** C4: a host write to CONTROL with bit 1 (RESET_ENCODER) set zeroes,
    within the write, the encoder position, the delta accumulator and the
    bank bytes 0x60/0x61/0x62, and leaves bit 1 of the stored CONTROL byte
    clear; the host then reads position 0 and delta 0, right away and also
    after a tick in which no encoder edge occurred. *)
Theorem reset_encoder_zeroes_position_and_delta (s : state) (v : Z) :
  wf s -> Z.testbit v 1 = true ->
  let '(ok, s') := i2c_register_write REG_CONTROL v s in
  ok = true
  /\ encoder_position s' = 0
  /\ encoder_delta s' = 0
  /\ reg s' REG_ENCODER_POS_LOW = 0
  /\ reg s' REG_ENCODER_POS_HIGH = 0
  /\ reg s' REG_ENCODER_DELTA = 0
  /\ Z.testbit (reg s' REG_CONTROL) 1 = false
  /\ fst (host_read REG_ENCODER_POS_LOW 3 s') = [0; 0; 0]
  /\ forall h, fst (host_read REG_ENCODER_POS_LOW 3 (tick h s')) = [0; 0; 0].
Proof.
  intros Hwf Hbit.
  pose proof (wf_i2c_register_write REG_CONTROL v s Hwf) as Hwf'.
  assert (Hmain :
    fst (i2c_register_write REG_CONTROL v s) = true
    /\ encoder_position (snd (i2c_register_write REG_CONTROL v s)) = 0
    /\ encoder_delta (snd (i2c_register_write REG_CONTROL v s)) = 0
    /\ reg (snd (i2c_register_write REG_CONTROL v s)) REG_ENCODER_POS_LOW = 0
    /\ reg (snd (i2c_register_write REG_CONTROL v s)) REG_ENCODER_POS_HIGH = 0
    /\ reg (snd (i2c_register_write REG_CONTROL v s)) REG_ENCODER_DELTA = 0
    /\ Z.testbit (reg (snd (i2c_register_write REG_CONTROL v s)) REG_CONTROL) 1
       = false).
  { destruct Hwf as [Hlen Hlc].
    unfold i2c_register_write. consts. closed_eqb.
    rewrite test_bit1, Hbit.
    destruct (test v 4); cbn [fst snd];
      (split; [reflexivity |]); (split; [reflexivity |]);
      (split; [reflexivity |]);
      repeat split; regs; rewrite ?testbit_andn8 by lia; closed_bits;
      rewrite ?andb_false_r; reflexivity. }
  destruct (i2c_register_write REG_CONTROL v s) as [ok s']. cbn [fst snd] in *.
  destruct Hmain as (Hok & Hp & Hd & Hlo & Hhi & Hde & Hc).
  repeat (split; [assumption |]).
  split.
  - rewrite host_read_encoder by assumption. rewrite Hlo, Hhi, Hde. reflexivity.
  - intros h. rewrite host_read_encoder by (apply wf_tick; assumption).
    destruct (tick_publishes h s' Hwf') as (-> & -> & -> & _).
    rewrite Hp, Hd. reflexivity.
Qed.

Lemma reset_encoder_zeroes_position_and_delta_witness :
  let s := run_isr (quadrature_cycles 1) booted in
  wf s /\ encoder_position s = 4
  /\ fst (host_read REG_ENCODER_POS_LOW 3
            (snd (i2c_register_write REG_CONTROL 0x03 s))) = [0; 0; 0].
Proof.
  split; [split; reflexivity |]. split; [reflexivity |].
  pose proof (reset_encoder_zeroes_position_and_delta
                (run_isr (quadrature_cycles 1) booted) 0x03
                ltac:(split; reflexivity) eq_refl) as H.
  destruct (i2c_register_write REG_CONTROL 3
              (run_isr (quadrature_cycles 1) booted)) as [ok s'].
  destruct H as (_ & _ & _ & _ & _ & _ & _ & H & _). exact H.
Defined.

(** ** The encoder counters *)

Section Encoder.

Lemma s16_mod x : s16 x mod 65536 = x mod 65536.
Proof.
  unfold s16.
  rewrite <- (Z.add_opp_r _ 32768), <- Zplus_mod_idemp_l, Z.mod_mod by lia.
  rewrite Zplus_mod_idemp_l. f_equal. lia.
Qed.

Lemma s8_mod x : s8 x mod 256 = x mod 256.
Proof.
  unfold s8.
  rewrite <- (Z.add_opp_r _ 128), <- Zplus_mod_idemp_l, Z.mod_mod by lia.
  rewrite Zplus_mod_idemp_l. f_equal. lia.
Qed.

Lemma s8_congr x y : x mod 256 = y mod 256 -> s8 x = s8 y.
Proof.
  intros H. unfold s8.
  rewrite <- (Zplus_mod_idemp_l x), <- (Zplus_mod_idemp_l y), H.
  reflexivity.
Qed.

Lemma s8_small x : -128 <= x <= 127 -> s8 x = x.
Proof. intros H. unfold s8. rewrite Z.mod_small by lia. lia. Qed.

Lemma clamp8_small x : -128 <= x <= 127 -> clamp8 x = x.
Proof. intros H. unfold clamp8. lia. Qed.

(** The two published bytes are the position modulo 2^16, low byte
    first. *)
Lemma position_bytes p :
  Z.land p 0xFF + 256 * Z.land (Z.shiftr p 8) 0xFF = p mod 65536.
Proof.
  change 0xFF with (Z.ones 8).
  rewrite !Z.land_ones, Z.shiftr_div_pow2 by lia.
  change (2 ^ 8) with 256. change 65536 with (256 * 256).
  rewrite Z.rem_mul_r by lia. reflexivity.
Qed.

(** The sampled pair always indexes the transition table. *)
Lemma quadrature_range dr : 0 <= quadrature dr < 4.
Proof.
  unfold quadrature.
  destruct (dr PIN_ENCODER_A), (dr PIN_ENCODER_B);
    vm_compute; (split; [discriminate | reflexivity]).
Qed.

Lemma transition_range prev new : -1 <= transition prev new <= 1.
Proof.
  unfold transition, transition_table.
  destruct (Z.to_nat prev) as [| [| [| [| p]]]];
    destruct (Z.to_nat new) as [| [| [| [| n]]]];
    vm_compute; (split; discriminate).
Qed.

Lemma encoder_isr_spec dr s :
  let delta := transition (encoder_state s) (quadrature dr) in
  encoder_state (encoder_isr dr s) = quadrature dr
  /\ encoder_position (encoder_isr dr s) mod 65536
     = (encoder_position s + delta) mod 65536
  /\ encoder_delta (encoder_isr dr s) mod 256
     = (encoder_delta s + delta) mod 256
  /\ registers (encoder_isr dr s) = registers s
  /\ input_last_change (encoder_isr dr s) = input_last_change s.
Proof.
  intros delta. unfold encoder_isr. fold delta.
  destruct (Z.eqb_spec delta 0) as [E | E]; cbn [negb]; proj.
  - rewrite E, !Z.add_0_r. auto.
  - rewrite s16_mod, s8_mod. auto.
Qed.

Lemma run_isr_spec edges s :
  let d := net_displacement (encoder_state s) edges in
  encoder_position (run_isr edges s) mod 65536
    = (encoder_position s + d) mod 65536
  /\ encoder_delta (run_isr edges s) mod 256 = (encoder_delta s + d) mod 256
  /\ registers (run_isr edges s) = registers s
  /\ input_last_change (run_isr edges s) = input_last_change s.
Proof.
  revert s. induction edges as [| dr edges IH]; intros s.
  - cbn. rewrite !Z.add_0_r. auto.
  - cbn [run_isr fold_left net_displacement].
    destruct (encoder_isr_spec dr s) as (Hs & Hp & Hd & Hr & Hl).
    destruct (IH (encoder_isr dr s)) as (Hp' & Hd' & Hr' & Hl').
    unfold run_isr in *. rewrite Hs in *.
    split; [| split; [| split]].
    + rewrite Hp', <- Zplus_mod_idemp_l, Hp, Zplus_mod_idemp_l.
      f_equal. lia.
    + rewrite Hd', <- Zplus_mod_idemp_l, Hd, Zplus_mod_idemp_l.
      f_equal. lia.
    + congruence.
    + congruence.
Qed.

Lemma wf_run_isr edges s : wf s -> wf (run_isr edges s).
Proof.
  intros [Hr Hl].
  destruct (run_isr_spec edges s) as (_ & _ & Hr' & Hl').
  split; congruence.
Qed.

Lemma published_position_tick h s :
  wf s -> published_position (tick h s) = encoder_position s mod 65536.
Proof.
  intros Hwf. unfold published_position.
  destruct (tick_publishes h s Hwf) as (-> & -> & _).
  apply position_bytes.
Qed.

End Encoder.

(** C1, as amended: the interrupt routine adds each transition-table entry
    to the position and to the delta accumulator with plain two's-complement
    wrap-around.  For the edges between two ticks with net displacement
    [d], the host reads at 0x60/0x61 the previous position advanced by [d]
    modulo 2^16, and at 0x62 the byte whose [int8_t] value is [d] reduced
    modulo 2^8 into [-128, 127]; that is [d] itself, hence also [d] clamped,
    whenever [-128 <= d <= 127]. *)
Theorem encoder_delta_wraps_position_advances
    (s : state) (h0 h1 : hw) (edges : list (Z -> bool)) :
  wf s ->
  let s0 := tick h0 s in
  let d := net_displacement (encoder_state s0) edges in
  let s1 := tick h1 (run_isr edges s0) in
  exists lo hi delta,
    fst (host_read REG_ENCODER_POS_LOW 3 s1) = [lo; hi; delta]
    /\ lo + 256 * hi = (published_position s0 + d) mod 65536
    /\ 0 <= delta < 256
    /\ s8 delta = s8 d
    /\ (-128 <= d <= 127 -> s8 delta = d /\ d = clamp8 d).
Proof.
  intros Hwf s0 d s1.
  assert (Hwf0 : wf s0) by (apply wf_tick, Hwf).
  assert (Hwfi : wf (run_isr edges s0)) by (apply wf_run_isr, Hwf0).
  assert (Hwf1 : wf s1) by (apply wf_tick, Hwfi).
  destruct (tick_publishes h0 s Hwf) as (_ & _ & _ & Hpriv).
  destruct (encoder_private_inv s0 (set_encoder_delta 0 s) Hpriv)
    as (Hp0 & Hd0 & Hs0).
  cbn [encoder_position encoder_delta encoder_state set_encoder_delta]
    in Hp0, Hd0, Hs0.
  destruct (run_isr_spec edges s0) as (Hp & Hd & _).
  fold d in Hp, Hd. rewrite Hd0 in Hd. rewrite Z.add_0_l in Hd.
  exists (reg s1 REG_ENCODER_POS_LOW), (reg s1 REG_ENCODER_POS_HIGH),
         (reg s1 REG_ENCODER_DELTA).
  split; [apply host_read_encoder, Hwf1 |].
  split.
  { change (published_position s1 = (published_position s0 + d) mod 65536).
    unfold s1, s0. rewrite !published_position_tick by assumption.
    fold s0. rewrite Hp, Zplus_mod_idemp_l, Hp0. reflexivity. }
  destruct (tick_publishes h1 (run_isr edges s0) Hwfi) as (_ & _ & Hdelta & _).
  fold s1 in Hdelta. rewrite Hdelta.
  split; [apply u8_range |].
  assert (Hs8 : s8 (u8 (encoder_delta (run_isr edges s0))) = s8 d).
  { apply s8_congr. unfold u8. rewrite Z.mod_mod by lia. exact Hd. }
  split; [exact Hs8 |].
  intros Hrange. rewrite Hs8, s8_small, clamp8_small by assumption. auto.
Qed.

Lemma encoder_delta_wraps_position_advances_witness :
  wf booted
  /\ fst (host_read REG_ENCODER_POS_LOW 3
            (tick (hw_at 20 idle_pins)
               (run_isr (quadrature_cycles 2)
                  (tick (hw_at 10 idle_pins) booted))))
     = [8; 0; 8].
Proof.
  split; [exact wf_booted |].
  destruct (encoder_delta_wraps_position_advances booted (hw_at 10 idle_pins)
              (hw_at 20 idle_pins) (quadrature_cycles 2) wf_booted)
    as (lo & hi & delta & Hread & _).
  rewrite Hread. vm_compute in Hread. exact (eq_sym Hread).
Defined.

(** C1 as stated fails: 128 counts in one direction within one tick make
    the accumulator wrap to -128 where saturation would give 127. *)
Lemma encoder_delta_saturation_counterexample :
  let s0 := tick (hw_at 10 idle_pins) booted in
  let edges := quadrature_cycles 32 in
  let d := net_displacement (encoder_state s0) edges in
  let s1 := tick (hw_at 20 idle_pins) (run_isr edges s0) in
  d = 128
  /\ ~ (exists delta,
          fst (host_read REG_ENCODER_DELTA 1 s1) = [delta]
          /\ s8 delta = clamp8 d).
Proof.
  split; [vm_compute; reflexivity |].
  intros (delta & Hread & Hclamp).
  vm_compute in Hread. injection Hread as <-.
  vm_compute in Hclamp. discriminate Hclamp.
Qed.

(** ** Soft reset *)

(** C10: the soft-reset command re-initialises the register bank only.  The
    private encoder variables (and the debounce and button variables) keep
    their values, so although 0x60/0x61 read 0 right after the reset, the
    first tick publishes the pre-reset position again, and the pending delta
    with it, without any encoder edge in between. *)
Theorem soft_reset_keeps_encoder_state (s : state) (h : hw) :
  wf s ->
  let s1 := host_write REG_COMMAND [CMD_RESET] s in
  i2c_execute_command CMD_RESET s = (true, i2c_registers_init s)
  /\ registers s1 = registers booted
  /\ encoder_private s1 = encoder_private s
  /\ button_private s1 = button_private s
  /\ contacts_private s1 = contacts_private s
  /\ published_position s1 = 0
  /\ published_position (tick h s1) = encoder_position s mod 65536
  /\ reg (tick h s1) REG_ENCODER_DELTA = u8 (encoder_delta s).
Proof.
  intros Hwf s1.
  assert (Hwf1 : wf s1) by (destruct Hwf as [_ Hl]; split; [reflexivity | exact Hl]).
  repeat (split; [reflexivity |]).
  split.
  - rewrite published_position_tick by assumption. reflexivity.
  - destruct (tick_publishes h s1 Hwf1) as (_ & _ & -> & _). reflexivity.
Qed.

Lemma soft_reset_keeps_encoder_state_witness :
  let s := tick (hw_at 10 idle_pins) (run_isr (quadrature_cycles 1) booted) in
  let s1 := host_write REG_COMMAND [CMD_RESET] s in
  wf s
  /\ published_position s = 4
  /\ published_position s1 = 0
  /\ published_position (tick (hw_at 20 idle_pins) s1) = 4.
Proof.
  split; [split; reflexivity |]. split; [reflexivity |].
  destruct (soft_reset_keeps_encoder_state
              (tick (hw_at 10 idle_pins)
                 (run_isr (quadrature_cycles 1) booted))
              (hw_at 20 idle_pins) ltac:(split; reflexivity))
    as (_ & _ & _ & _ & _ & H0 & H1 & _).
  split; [exact H0 |]. rewrite H1. reflexivity.
Defined.

(** ** The STATUS.ERROR bit *)

(** C5, as amended: no step of the tick writes the STATUS.ERROR bit (bit 1
    of 0x11) or the ERROR register: a loop iteration, whether or not its
    10 ms tick is due, leaves both exactly as they were, so the bit does not
    follow the error bitmap. *)
Theorem tick_leaves_status_error_alone (s : state) (h : hw) :
  wf s ->
  Z.testbit (reg (tick h s) REG_STATUS) 1 = Z.testbit (reg s REG_STATUS) 1
  /\ reg (tick h s) REG_ERROR = reg s REG_ERROR
  /\ Z.testbit (reg (loop h s) REG_STATUS) 1 = Z.testbit (reg s REG_STATUS) 1
  /\ reg (loop h s) REG_ERROR = reg s REG_ERROR.
Proof.
  intros Hwf.
  assert (Hb : forall s0, wf s0 ->
            Z.testbit (reg (tick h s0) REG_STATUS) 1
            = Z.testbit (reg s0 REG_STATUS) 1)
    by (intros; apply tick_status_error; assumption).
  assert (He : forall s0, wf s0 -> reg (tick h s0) REG_ERROR = reg s0 REG_ERROR)
    by (intros; apply tick_reg; auto; consts; lia).
  split; [apply Hb, Hwf |]. split; [apply He, Hwf |].
  unfold loop. destruct (10 <=? u32 (millis_loop h - last_update s)).
  - rewrite Hb, He by (apply wf_set_last_update, Hwf). split; reflexivity.
  - split; reflexivity.
Qed.

Lemma tick_leaves_status_error_alone_witness :
  let s := host_write REG_COMMAND [0x77] booted in
  wf s
  /\ reg (tick (hw_at 10 idle_pins) s) REG_ERROR = ERROR_INVALID_CMD
  /\ Z.testbit (reg (tick (hw_at 10 idle_pins) s) REG_STATUS) 1 = false.
Proof.
  split; [split; reflexivity |].
  destruct (tick_leaves_status_error_alone
              (host_write REG_COMMAND [0x77] booted) (hw_at 10 idle_pins)
              ltac:(split; reflexivity))
    as (Hb & He & _).
  rewrite Hb, He. split; reflexivity.
Defined.

(** C5 as stated fails: an invalid command sets ERROR.INVALID_CMD, and after
    the next tick STATUS.ERROR is still clear. *)
Lemma status_error_counterexample :
  let s := loop (hw_at 10 idle_pins) (host_write REG_COMMAND [0x77] booted) in
  reg s REG_ERROR = ERROR_INVALID_CMD
  /\ ~ (Z.testbit (reg s REG_STATUS) 1 = negb (reg s REG_ERROR =? 0)).
Proof.
  split; [vm_compute; reflexivity |].
  intros H. vm_compute in H. discriminate H.
Qed.

(** ** The button classifier *)

Section Button.

Variable dr : Z -> bool.
Hypothesis pressed : dr PIN_ENCODER_BTN = false.

Lemma button_private_inv s s' :
  button_private s = button_private s' ->
  encoder_button_state s = encoder_button_state s'
  /\ encoder_button_press_time s = encoder_button_press_time s'
  /\ encoder_button_last_release s = encoder_button_last_release s'.
Proof. unfold button_private. intros [= -> -> ->]. auto. Qed.

(** A press that follows a release by less than 300 ms. *)
Lemma update_button_double_click t s :
  wf s ->
  encoder_button_state s = ENC_BTN_RELEASED ->
  u32 (t - encoder_button_last_release s) < 300 ->
  button_private (update_button dr t s)
    = (ENC_BTN_DOUBLE_CLICK, t, encoder_button_last_release s)
  /\ reg (update_button dr t s) REG_ENCODER_BUTTON = ENC_BTN_DOUBLE_CLICK.
Proof.
  intros [Hlen _] Hst Hlt. unfold update_button.
  rewrite pressed, Hst. cbn [negb andb]. consts. closed_eqb.
  proj. destruct (Z.ltb_spec (u32 (t - encoder_button_last_release s)) 300);
    [| lia].
  split; [reflexivity |]. regs. reflexivity.
Qed.

(** A press that does not: the state is PRESSED. *)
Lemma update_button_single_press t s :
  wf s ->
  encoder_button_state s = ENC_BTN_RELEASED ->
  300 <= u32 (t - encoder_button_last_release s) ->
  button_private (update_button dr t s)
    = (ENC_BTN_PRESSED, t, encoder_button_last_release s)
  /\ reg (update_button dr t s) REG_ENCODER_BUTTON = ENC_BTN_PRESSED.
Proof.
  intros [Hlen _] Hst Hge. unfold update_button.
  rewrite pressed, Hst. cbn [negb andb]. consts. closed_eqb.
  proj. destruct (Z.ltb_spec (u32 (t - encoder_button_last_release s)) 300);
    [lia |].
  split; [reflexivity |]. regs. reflexivity.
Qed.

(** While the button stays down, DOUBLE_CLICK matches no branch. *)
Lemma update_button_double_click_stays t s :
  wf s ->
  encoder_button_state s = ENC_BTN_DOUBLE_CLICK ->
  button_private (update_button dr t s) = button_private s
  /\ reg (update_button dr t s) REG_ENCODER_BUTTON = ENC_BTN_DOUBLE_CLICK.
Proof.
  intros [Hlen _] Hst. unfold update_button.
  rewrite pressed, Hst. cbn [negb andb]. consts. closed_eqb.
  split; [reflexivity |]. regs. exact Hst.
Qed.

(** PRESSED is the only state from which HELD is entered. *)
Lemma update_button_held t s :
  wf s ->
  encoder_button_state s = ENC_BTN_PRESSED ->
  1000 <= u32 (t - encoder_button_press_time s) ->
  button_private (update_button dr t s)
    = (ENC_BTN_HELD, encoder_button_press_time s,
       encoder_button_last_release s)
  /\ reg (update_button dr t s) REG_ENCODER_BUTTON = ENC_BTN_HELD.
Proof.
  intros [Hlen _] Hst Hge. unfold update_button.
  rewrite pressed, Hst. cbn [negb andb]. consts. closed_eqb.
  destruct (Z.leb_spec 1000 (u32 (t - encoder_button_press_time s)));
    [| lia].
  split; [reflexivity |]. regs. reflexivity.
Qed.

End Button.

Section ButtonTick.

(** What a tick does to the classifier is what [update_button] does. *)
Lemma tick_button h s :
  wf s ->
  exists s0,
    wf s0 /\ button_private s0 = button_private s
    /\ button_private (tick h s)
       = button_private (update_button (digitalRead h) (millis_button h) s0)
    /\ reg (tick h s) REG_ENCODER_BUTTON
       = reg (update_button (digitalRead h) (millis_button h) s0)
             REG_ENCODER_BUTTON.
Proof.
  intros Hwf.
  exists (update_contacts (digitalRead h) (millis_inputs h) s).
  pose proof (wf_update_contacts (digitalRead h) (millis_inputs h) s Hwf)
    as Hwf0.
  split; [exact Hwf0 |]. split; [apply update_contacts_button |].
  unfold tick, update_inputs.
  pose proof (wf_update_button (digitalRead h) (millis_button h) _ Hwf0)
    as Hwf1.
  pose proof (wf_update_encoder _ Hwf1) as Hwf2.
  destruct (status_only_pwm_outputs _ Hwf2) as (_ & Hr & _ & _ & -> & _).
  rewrite Hr by (consts; lia).
  rewrite update_encoder_reg by (auto; consts; lia).
  destruct (update_encoder_button
              (update_button (digitalRead h) (millis_button h)
                 (update_contacts (digitalRead h) (millis_inputs h) s)))
    as [-> _].
  split; reflexivity.
Qed.

Lemma tick_double_click_stays h s :
  wf s ->
  digitalRead h PIN_ENCODER_BTN = false ->
  encoder_button_state s = ENC_BTN_DOUBLE_CLICK ->
  encoder_button_state (tick h s) = ENC_BTN_DOUBLE_CLICK
  /\ encoder_button_press_time (tick h s) = encoder_button_press_time s
  /\ reg (tick h s) REG_ENCODER_BUTTON = ENC_BTN_DOUBLE_CLICK.
Proof.
  intros Hwf Hdown Hst.
  destruct (tick_button h s Hwf) as (s0 & Hwf0 & Hb0 & Hb & Hr).
  destruct (button_private_inv _ _ Hb0) as (Hst0 & Hpt0 & _).
  destruct (update_button_double_click_stays (digitalRead h) Hdown
              (millis_button h) s0 Hwf0 ltac:(congruence)) as (Hb1 & Hr1).
  rewrite Hb1 in Hb.
  destruct (button_private_inv _ _ Hb) as (-> & -> & _).
  rewrite Hr, Hr1. repeat split; congruence.
Qed.

Lemma run_ticks_double_click_stays hs s :
  wf s ->
  Forall (fun h => digitalRead h PIN_ENCODER_BTN = false) hs ->
  encoder_button_state s = ENC_BTN_DOUBLE_CLICK ->
  reg s REG_ENCODER_BUTTON = ENC_BTN_DOUBLE_CLICK ->
  reg (run_ticks hs s) REG_ENCODER_BUTTON = ENC_BTN_DOUBLE_CLICK
  /\ encoder_button_press_time (run_ticks hs s)
     = encoder_button_press_time s.
Proof.
  intros Hwf Hall. revert s Hwf.
  induction Hall as [| h hs Hdown _ IH]; intros s Hwf Hst Hreg.
  - split; [exact Hreg | reflexivity].
  - cbn [run_ticks fold_left].
    destruct (tick_double_click_stays h s Hwf Hdown Hst)
      as (Hst' & Hpt' & Hreg').
    destruct (IH (tick h s) (wf_tick h s Hwf) Hst' Hreg') as (H1 & H2).
    unfold run_ticks in *. split; congruence.
Qed.

End ButtonTick.

(** C6, as amended: a press within 300 ms of the last release takes
    ENCODER_BUTTON (0x63) directly to DOUBLE_CLICK (3), and the register
    then stays at DOUBLE_CLICK for as long as the button is held, however
    long: the hold test is made in state PRESSED only, and the press time it
    would use is not touched. *)
Theorem double_click_is_kept_while_held (s : state) (h : hw) (hs : list hw) :
  wf s ->
  encoder_button_state s = ENC_BTN_RELEASED ->
  digitalRead h PIN_ENCODER_BTN = false ->
  u32 (millis_button h - encoder_button_last_release s) < 300 ->
  Forall (fun h' => digitalRead h' PIN_ENCODER_BTN = false) hs ->
  reg (tick h s) REG_ENCODER_BUTTON = ENC_BTN_DOUBLE_CLICK
  /\ reg (run_ticks hs (tick h s)) REG_ENCODER_BUTTON = ENC_BTN_DOUBLE_CLICK
  /\ encoder_button_press_time (run_ticks hs (tick h s)) = millis_button h.
Proof.
  intros Hwf Hst Hdown Hlt Hall.
  destruct (tick_button h s Hwf) as (s0 & Hwf0 & Hb0 & Hb & Hr).
  destruct (button_private_inv _ _ Hb0) as (Hst0 & _ & Hlr0).
  destruct (update_button_double_click (digitalRead h) Hdown
              (millis_button h) s0 Hwf0 ltac:(congruence)
              ltac:(rewrite Hlr0; exact Hlt)) as (Hb1 & Hr1).
  rewrite Hb1 in Hb. rewrite Hr1 in Hr.
  assert (Hst1 : encoder_button_state (tick h s) = ENC_BTN_DOUBLE_CLICK)
    by (unfold button_private in Hb; congruence).
  assert (Hpt1 : encoder_button_press_time (tick h s) = millis_button h)
    by (unfold button_private in Hb; congruence).
  destruct (run_ticks_double_click_stays hs (tick h s) (wf_tick h s Hwf)
              Hall Hst1 Hr) as (H1 & H2).
  split; [exact Hr |]. split; [exact H1 | congruence].
Qed.

Lemma ticks_from_pins t n pins p :
  Forall (fun h => digitalRead h p = pins p) (ticks_from t n pins).
Proof.
  unfold ticks_from. apply Forall_fmap, Forall_forall.
  intros k _. reflexivity.
Qed.

Lemma double_click_is_kept_while_held_witness :
  let s := run_loop [hw_at 1000 (pin_low PIN_ENCODER_BTN);
                     hw_at 1050 idle_pins] booted in
  let h := hw_at 1200 (pin_low PIN_ENCODER_BTN) in
  let hs := ticks_from 1210 110 (pin_low PIN_ENCODER_BTN) in
  wf s
  /\ encoder_button_last_release s = 1050
  /\ reg (run_ticks hs (tick h s)) REG_ENCODER_BUTTON = ENC_BTN_DOUBLE_CLICK.
Proof.
  split; [split; reflexivity |]. split; [reflexivity |].
  apply (double_click_is_kept_while_held
           (run_loop [hw_at 1000 (pin_low PIN_ENCODER_BTN);
                      hw_at 1050 idle_pins] booted)
           (hw_at 1200 (pin_low PIN_ENCODER_BTN))
           (ticks_from 1210 110 (pin_low PIN_ENCODER_BTN))).
  - split; reflexivity.
  - reflexivity.
  - reflexivity.
  - vm_compute. reflexivity.
  - apply (ticks_from_pins 1210 110 (pin_low PIN_ENCODER_BTN) PIN_ENCODER_BTN).
Defined.

(** C6 as stated fails: click, release, press again 150 ms later and keep
    the button down for 1100 ms; the register shows DOUBLE_CLICK at the
    second press and is not HELD at the end. *)
Lemma double_click_hold_counterexample :
  let s := run_loop [hw_at 1000 (pin_low PIN_ENCODER_BTN);
                     hw_at 1050 idle_pins] booted in
  let s2 := loop (hw_at 1200 (pin_low PIN_ENCODER_BTN)) s in
  let s3 := run_loop (ticks_from 1210 110 (pin_low PIN_ENCODER_BTN)) s2 in
  reg s2 REG_ENCODER_BUTTON = ENC_BTN_DOUBLE_CLICK
  /\ encoder_button_press_time s3 = 1200
  /\ ~ (reg s3 REG_ENCODER_BUTTON = ENC_BTN_HELD).
Proof.
  split; [vm_compute; reflexivity |]. split; [vm_compute; reflexivity |].
  intros H. vm_compute in H. discriminate H.
Qed.

(** ** Contact debounce *)

Section Debounce.

Variable dr : Z -> bool.
Variables now old_low old_high : Z.

Local Abbreviation step := (debounce_channel dr now old_low old_high).
Local Abbreviation raw := (raw_level dr).
Local Abbreviation stable := (chan_bit (old_low, old_high)).

Lemma chan_bit_write_bit_same i b ns :
  0 <= i < 12 -> chan_bit (write_bit i b ns) i = b.
Proof.
  intros Hi. destruct ns as [lo hi]. unfold write_bit, chan_bit.
  destruct (Z.ltb_spec i 8); cbn [fst snd]; destruct b;
    rewrite ?testbit_or8, ?testbit_andn8, testbit_one_shifted by lia;
    rewrite Z.eqb_refl, ?orb_true_r, ?andb_false_r;
    first
      [ reflexivity
      | match goal with
        | |- context [?x <? 8] =>
            destruct (Z.ltb_spec x 8); [reflexivity | lia]
        end ].
Qed.

Lemma chan_bit_write_bit_other i j b ns :
  0 <= i < 12 -> 0 <= j < 12 -> i <> j ->
  chan_bit (write_bit j b ns) i = chan_bit ns i.
Proof.
  intros Hi Hj Hne. destruct ns as [lo hi]. unfold write_bit, chan_bit.
  destruct (Z.ltb_spec j 8), (Z.ltb_spec i 8); cbn [fst snd];
    try reflexivity; destruct b;
    rewrite ?testbit_or8, ?testbit_andn8, testbit_one_shifted by lia;
    match goal with
    | |- context [?x =? ?y] => destruct (Z.eqb_spec x y); [lia |]
    end;
    match goal with
    | |- context [?x <? 8] => destruct (Z.ltb_spec x 8); [| lia]
    end;
    cbn [negb andb]; rewrite ?orb_false_r, ?andb_true_r; reflexivity.
Qed.

Lemma debounce_channel_other acc i j :
  0 <= i < 12 -> 0 <= j < 12 -> i <> j ->
  chan_bit (fst (step acc j)) i = chan_bit (fst acc) i
  /\ snd (step acc j) !! Z.to_nat i = snd acc !! Z.to_nat i.
Proof.
  intros Hi Hj Hne. destruct acc as [ns lc].
  unfold step, debounce_channel.
  split_ifs; cbn [fst snd];
    rewrite ?chan_bit_write_bit_other by assumption;
    rewrite ?list_lookup_insert_ne by lia; auto.
Qed.

Lemma debounce_fold_other chans acc i :
  0 <= i < 12 ->
  Forall (fun j => 0 <= j < 12 /\ j <> i) chans ->
  chan_bit (fst (fold_left step chans acc)) i = chan_bit (fst acc) i
  /\ snd (fold_left step chans acc) !! Z.to_nat i = snd acc !! Z.to_nat i.
Proof.
  intros Hi Hall. revert acc.
  induction Hall as [| j chans [Hj Hne] _ IH]; intros acc; [auto |].
  cbn [fold_left]. destruct (IH (step acc j)) as [-> ->].
  apply debounce_channel_other; auto.
Qed.

(** The comparison the loop makes does fire when the sampled level and the
    stable bit differ. *)
Lemma differs_detected i :
  0 <= i < 12 -> raw i <> stable i ->
  negb (Z.b2z (raw i)
        =? Z.land (if i <? 8 then old_low else old_high)
                  (Z.shiftl 1 (i mod 8))) = true
  /\ old_bit old_low old_high i = stable i.
Proof.
  intros Hi Hne. unfold chan_bit, old_bit in *. cbn [fst snd] in *.
  assert (Hm : i mod 8 = if i <? 8 then i else i - 8).
  { destruct (Z.ltb_spec i 8).
    - apply Z.mod_small. lia.
    - replace i with ((i - 8) + 1 * 8) at 1 by lia.
      rewrite Z_mod_plus_full. apply Z.mod_small. lia. }
  rewrite Hm. destruct (Z.ltb_spec i 8);
    rewrite land_one_shifted, test_one_shifted by lia;
    (split; [| reflexivity]);
    match goal with
    | |- context [Z.testbit ?x ?k] =>
        assert (0 < 2 ^ k) by (apply Z.pow_pos_nonneg; lia);
        destruct (Z.testbit x k), (raw i); try congruence; cbn [Z.b2z];
        match goal with
        | |- context [?a =? ?b] => destruct (Z.eqb_spec a b); [lia |]
        end; reflexivity
    end.
Qed.

Lemma debounce_channel_same acc i :
  0 <= i < 12 -> length (snd acc) = 12%nat -> raw i <> stable i ->
  let elapsed := u32 (now - default 0 (snd acc !! Z.to_nat i)) in
  chan_bit (fst (step acc i)) i
    = (if INPUT_DEBOUNCE_MS <=? elapsed then raw i else stable i)
  /\ snd (step acc i) !! Z.to_nat i
     = (if INPUT_DEBOUNCE_MS <=? elapsed then Some now
        else snd acc !! Z.to_nat i).
Proof.
  intros Hi Hlen Hne elapsed. destruct acc as [ns lc].
  destruct (differs_detected i Hi Hne) as [Hd Ho].
  unfold debounce_channel. fold (raw_level dr i). rewrite Hd, Ho.
  cbn [snd] in *. fold elapsed.
  destruct (INPUT_DEBOUNCE_MS <=? elapsed); cbn [fst snd];
    rewrite chan_bit_write_bit_same by assumption;
    rewrite ?list_lookup_insert_eq by lia; auto.
Qed.

(** The whole loop, seen from one channel. *)
Lemma debounce_inputs_channel lc i :
  0 <= i < 12 -> length lc = 12%nat -> raw i <> stable i ->
  let elapsed := u32 (now - default 0 (lc !! Z.to_nat i)) in
  let r := debounce_inputs dr now old_low old_high lc in
  chan_bit (fst r) i
    = (if INPUT_DEBOUNCE_MS <=? elapsed then raw i else stable i)
  /\ snd r !! Z.to_nat i
     = (if INPUT_DEBOUNCE_MS <=? elapsed then Some now
        else lc !! Z.to_nat i).
Proof.
  intros Hi Hlen Hne elapsed r. unfold r, debounce_inputs.
  consts.
  set (acc0 := fold_left step (seqZ 0 i) (255, 15, lc)).
  assert (Hsplit : fold_left step (seqZ 0 12) (255, 15, lc)
                   = fold_left step (seqZ (Z.succ i) (Z.pred (12 - i)))
                       (step acc0 i)).
  { replace 12 with (i + (12 - i)) at 1 by lia.
    rewrite seqZ_app, Z.add_0_l by lia.
    rewrite (seqZ_cons i) by lia.
    rewrite fold_left_app. reflexivity. }
  rewrite Hsplit. clear Hsplit.
  destruct (debounce_fold_other (seqZ 0 i) (255, 15, lc) i Hi) as [_ Hlc0].
  { apply Forall_seqZ. lia. }
  fold acc0 in Hlc0. cbn [snd] in Hlc0.
  destruct (debounce_fold_other (seqZ (Z.succ i) (Z.pred (12 - i)))
              (step acc0 i) i Hi) as [-> ->].
  { apply Forall_seqZ. lia. }
  destruct (debounce_channel_same acc0 i Hi) as [-> ->]; try assumption.
  - unfold acc0. rewrite debounce_fold_length. exact Hlen.
  - rewrite Hlc0. fold elapsed. auto.
Qed.

End Debounce.

Section DebounceState.

Variable dr : Z -> bool.

Lemma contacts_private_inv s lo hi lc :
  contacts_private s = (lo, hi, lc) ->
  input_state_low s = lo /\ input_state_high s = hi
  /\ input_last_change s = lc.
Proof. unfold contacts_private. intros [= -> -> ->]. auto. Qed.

Lemma update_contacts_private now s :
  let r := debounce_inputs dr now (input_state_low s) (input_state_high s)
             (input_last_change s) in
  contacts_private (update_contacts dr now s) = (fst (fst r), snd (fst r), snd r).
Proof.
  intros r. unfold r, update_contacts.
  destruct (debounce_inputs _ _ _ _ _) as [[lo hi] lc]. reflexivity.
Qed.

Lemma update_inputs_private now t s :
  let r := debounce_inputs dr now (input_state_low s) (input_state_high s)
             (input_last_change s) in
  stable_bit (update_inputs dr now t s) = chan_bit (fst r)
  /\ input_last_change (update_inputs dr now t s) = snd r.
Proof.
  intros r.
  pose proof (update_button_contacts dr t (update_contacts dr now s)) as Hb.
  rewrite update_contacts_private in Hb. fold r in Hb.
  apply contacts_private_inv in Hb. destruct Hb as (Hlo & Hhi & Hlc).
  unfold stable_bit. fold (update_inputs dr now t s) in Hlo, Hhi, Hlc.
  rewrite Hlo, Hhi, Hlc. destruct r as [[lo hi] lc]. auto.
Qed.

(** The debounce outcome does not depend on the register bank. *)
Lemma update_inputs_ignores_registers now t r s :
  contacts_private (update_inputs dr now t (set_registers r s))
  = contacts_private (update_inputs dr now t s).
Proof.
  unfold update_inputs.
  rewrite !update_button_contacts, !update_contacts_private. reflexivity.
Qed.

(** The stable bitmaps are what the host reads at 0x50/0x51. *)
Lemma update_inputs_publishes now t s :
  wf s ->
  reg (update_inputs dr now t s) REG_INPUT_STATUS_LOW
    = input_state_low (update_inputs dr now t s)
  /\ reg (update_inputs dr now t s) REG_INPUT_STATUS_HIGH
     = input_state_high (update_inputs dr now t s).
Proof.
  intros Hwf.
  pose proof (wf_update_contacts dr now s Hwf) as Hwf0.
  pose proof (update_button_contacts dr t (update_contacts dr now s)) as Hb.
  apply contacts_private_inv in Hb. destruct Hb as (Hlo & Hhi & _).
  unfold update_inputs. rewrite Hlo, Hhi.
  rewrite !update_button_reg by (auto; consts; lia).
  clear Hwf0 Hlo Hhi. destruct Hwf as [Hlen Hlc].
  unfold update_contacts.
  pose proof (debounce_inputs_length dr now (input_state_low s)
                (input_state_high s) (input_last_change s)) as Hl.
  destruct (debounce_inputs _ _ _ _ _) as [[lo hi] lc]. cbn [snd] in Hl.
  assert (Hwf1 : wf (flag_changes (Z.lxor (input_state_low s) lo)
                       (Z.lxor (input_state_high s) hi) s))
    by (apply wf_flag_changes; split; assumption).
  destruct Hwf1 as [Hlen1 _].
  split; regs; reflexivity.
Qed.

End DebounceState.

(** One pass of [update_inputs] over a channel whose sample differs from
    its stable bit. *)
Lemma update_inputs_debounce (s : state) (dr : Z -> bool) (now now_ms i : Z) :
  wf s -> 0 <= i < NUM_DIGITAL_INPUTS ->
  let raw := raw_level dr i in
  let elapsed := u32 (now - default 0 (input_last_change s !! Z.to_nat i)) in
  let s' := update_inputs dr now now_ms s in
  raw <> stable_bit s i ->
  stable_bit s' i = (if INPUT_DEBOUNCE_MS <=? elapsed then raw
                     else stable_bit s i)
  /\ input_last_change s' !! Z.to_nat i
     = (if INPUT_DEBOUNCE_MS <=? elapsed then Some now
        else input_last_change s !! Z.to_nat i).
Proof.
  intros [Hlen Hlc] Hi raw elapsed s' Hne.
  destruct (update_inputs_private dr now now_ms s) as [Hst Hl].
  fold s' in Hst, Hl.
  destruct (debounce_inputs_channel dr now (input_state_low s)
              (input_state_high s) (input_last_change s) i
              ltac:(consts; lia) Hlc Hne) as [Hbit Hlast].
  rewrite Hst, Hl. split; assumption.
Qed.

(** The rest of the tick leaves the debounce variables and the published
    bitmaps as [update_inputs] set them. *)
Lemma tick_contacts (h : hw) (s : state) :
  wf s ->
  let s0 := update_inputs (digitalRead h) (millis_inputs h) (millis_button h) s in
  contacts_private (tick h s) = contacts_private s0
  /\ reg (tick h s) REG_INPUT_STATUS_LOW = input_state_low s0
  /\ reg (tick h s) REG_INPUT_STATUS_HIGH = input_state_high s0.
Proof.
  intros Hwf s0. unfold tick. fold s0.
  assert (Hwf0 : wf s0) by (apply wf_update_inputs, Hwf).
  pose proof (wf_update_encoder _ Hwf0) as Hwf1.
  destruct (status_only_pwm_outputs _ Hwf1) as (_ & Hr & _ & _ & _ & ->).
  rewrite !Hr by (consts; lia).
  rewrite !update_encoder_reg by (auto; consts; lia).
  destruct (update_encoder_button s0) as [_ ->].
  destruct (update_inputs_publishes (digitalRead h) (millis_inputs h)
              (millis_button h) s Hwf) as [Hlo Hhi].
  fold s0 in Hlo, Hhi. auto.
Qed.

(** C3, as amended: in every tick and for every channel, a raw sample that
    differs from the stable bit is committed iff [now - last_change[i]]
    (in [uint32_t] arithmetic) is at least the compile-time constant
    INPUT_DEBOUNCE_MS = 50; otherwise the stable bit and the time stamp are
    kept.  The stable bit is what the host reads at 0x50/0x51.
    CONFIG_DEBOUNCE (0x71) is initialised to the same 50 but is not
    consulted: writing any value to it leaves the outcome of the following
    tick unchanged. *)
Theorem debounce_window_is_the_constant (s : state) (h : hw) (i w : Z) :
  wf s -> 0 <= i < NUM_DIGITAL_INPUTS ->
  let raw := raw_level (digitalRead h) i in
  let now := millis_inputs h in
  let elapsed := u32 (now - default 0 (input_last_change s !! Z.to_nat i)) in
  let s' := tick h s in
  raw <> stable_bit s i ->
  (stable_bit s' i = raw <-> INPUT_DEBOUNCE_MS <= elapsed)
  /\ (INPUT_DEBOUNCE_MS <= elapsed ->
      input_last_change s' !! Z.to_nat i = Some now)
  /\ (elapsed < INPUT_DEBOUNCE_MS ->
      stable_bit s' i = stable_bit s i
      /\ input_last_change s' !! Z.to_nat i
         = input_last_change s !! Z.to_nat i)
  /\ chan_bit (reg s' REG_INPUT_STATUS_LOW, reg s' REG_INPUT_STATUS_HIGH) i
     = stable_bit s' i
  /\ INPUT_DEBOUNCE_MS = 50
  /\ contacts_private
       (tick h (snd (i2c_register_write REG_CONFIG_DEBOUNCE w s)))
     = contacts_private s'.
Proof.
  intros Hwf Hi raw now elapsed s' Hne.
  destruct (tick_contacts h s Hwf) as (Hc & Hlo & Hhi).
  fold s' in Hc, Hlo, Hhi.
  destruct (update_inputs_debounce s (digitalRead h) now (millis_button h) i
              Hwf Hi Hne) as [Hbit Hlast].
  fold raw elapsed in Hbit, Hlast. subst now.
  set (s0 := update_inputs (digitalRead h) (millis_inputs h)
               (millis_button h) s) in *.
  assert (Hs' : stable_bit s' = stable_bit s0
                /\ input_last_change s' = input_last_change s0
                /\ input_state_low s' = input_state_low s0
                /\ input_state_high s' = input_state_high s0).
  { apply contacts_private_inv in Hc. destruct Hc as (H1 & H2 & H3).
    unfold stable_bit. rewrite H1, H2, H3. auto. }
  destruct Hs' as (Hsb & Hlc' & Hl' & Hh').
  rewrite Hsb, Hlc', Hbit, Hlast.
  assert (Hpub : chan_bit (reg s' REG_INPUT_STATUS_LOW,
                           reg s' REG_INPUT_STATUS_HIGH) i
                 = (if INPUT_DEBOUNCE_MS <=? elapsed then raw
                    else stable_bit s i)).
  { rewrite Hlo, Hhi, <- Hbit. reflexivity. }
  assert (Hcfg : contacts_private
                   (tick h (snd (i2c_register_write REG_CONFIG_DEBOUNCE w s)))
                 = contacts_private s').
  { change (snd (i2c_register_write REG_CONFIG_DEBOUNCE w s))
      with (set_registers (reg_set REG_CONFIG_DEBOUNCE w (registers s)) s).
    destruct (tick_contacts h
                (set_registers (reg_set REG_CONFIG_DEBOUNCE w (registers s)) s))
      as (-> & _).
    { apply (wf_store REG_CONFIG_DEBOUNCE w s Hwf). }
    rewrite update_inputs_ignores_registers. symmetry. exact Hc. }
  rewrite Hpub.
  destruct (Z.leb_spec INPUT_DEBOUNCE_MS elapsed) as [Hge | Hlt].
  - split; [tauto |]. split; [auto |]. split; [lia |]. auto.
  - split; [split; [congruence | lia] |]. split; [lia |]. auto.
Qed.

Lemma debounce_window_is_the_constant_witness :
  let s := host_write REG_CONFIG_DEBOUNCE [10] booted in
  wf s
  /\ reg s REG_CONFIG_DEBOUNCE = 10
  /\ stable_bit s 0 = true
  /\ stable_bit (tick (hw_at 60 (pin_low 13)) s) 0 = false.
Proof.
  split; [split; reflexivity |]. split; [reflexivity |].
  split; [reflexivity |].
  destruct (debounce_window_is_the_constant
              (host_write REG_CONFIG_DEBOUNCE [10] booted)
              (hw_at 60 (pin_low 13)) 0 10
              ltac:(split; reflexivity) ltac:(consts; lia)
              ltac:(vm_compute; discriminate)) as [Hiff _].
  apply Hiff. vm_compute. discriminate.
Defined.

(** C3 as stated fails: with CONFIG_DEBOUNCE rewritten to 10 ms, a contact
    that has differed from its stable bit for 20 ms is not committed. *)
Lemma debounce_register_counterexample :
  let s := host_write REG_CONFIG_DEBOUNCE [10] booted in
  let dr := pin_low 13 in
  let s' := loop (hw_at 20 dr) s in
  reg s REG_CONFIG_DEBOUNCE = 10
  /\ dr 13 <> stable_bit s 0
  /\ ~ (stable_bit s' 0 = dr 13
        <-> reg s REG_CONFIG_DEBOUNCE
            <= u32 (20 - default 0 (input_last_change s !! Z.to_nat 0))).
Proof.
  split; [reflexivity |]. split; [vm_compute; discriminate |].
  intros [_ H].
  assert (Hc : stable_bit
                 (loop (hw_at 20 (pin_low 13))
                    (host_write REG_CONFIG_DEBOUNCE [10] booted)) 0
               = pin_low 13 13)
    by (apply H; vm_compute; discriminate).
  vm_compute in Hc. discriminate Hc.
Qed.


(** * Further properties of the register protocol *)

(** ** The address pointer is invisible to the bank operations *)

Section Pointer.

Variable p : Z.

Lemma i2c_registers_init_pointer s :
  i2c_registers_init (set_current_register p s)
  = set_current_register p (i2c_registers_init s).
Proof. reflexivity. Qed.

Lemma i2c_execute_command_pointer c s :
  i2c_execute_command c (set_current_register p s)
  = (fst (i2c_execute_command c s),
     set_current_register p (snd (i2c_execute_command c s))).
Proof. unfold i2c_execute_command. split_ifs; reflexivity. Qed.

Lemma i2c_register_write_pointer a v s :
  i2c_register_write a v (set_current_register p s)
  = (fst (i2c_register_write a v s),
     set_current_register p (snd (i2c_register_write a v s))).
Proof.
  unfold i2c_register_write.
  destruct (a <=? 3); [reflexivity |].
  destruct (a =? REG_COMMAND); [apply i2c_execute_command_pointer |].
  destruct (sizeof_I2CRegisterBank <=? a); [reflexivity |].
  destruct (a =? REG_CONTROL); [| reflexivity].
  destruct (test v CTRL_RESET_ENCODER), (test v CTRL_CLEAR_INPUTS);
    reflexivity.
Qed.

Lemma i2c_register_read_pointer a s :
  i2c_register_read a (set_current_register p s)
  = (fst (i2c_register_read a s),
     set_current_register p (snd (i2c_register_read a s))).
Proof.
  unfold i2c_register_read.
  destruct (sizeof_I2CRegisterBank <=? a); [reflexivity |].
  change (reg (store REG_INPUT_CHANGED_LOW 0 (set_current_register p s))
              REG_INPUT_CHANGED_HIGH)
    with (reg (store REG_INPUT_CHANGED_LOW 0 s) REG_INPUT_CHANGED_HIGH).
  change (reg (store REG_INPUT_CHANGED_HIGH 0 (set_current_register p s))
              REG_INPUT_CHANGED_LOW)
    with (reg (store REG_INPUT_CHANGED_HIGH 0 s) REG_INPUT_CHANGED_LOW).
  split_ifs; reflexivity.
Qed.

End Pointer.

Lemma i2c_execute_command_keeps_pointer c s :
  current_register (snd (i2c_execute_command c s)) = current_register s.
Proof. unfold i2c_execute_command. split_ifs; reflexivity. Qed.

Lemma i2c_register_write_keeps_pointer a v s :
  current_register (snd (i2c_register_write a v s)) = current_register s.
Proof.
  unfold i2c_register_write.
  destruct (a <=? 3); [reflexivity |].
  destruct (a =? REG_COMMAND); [apply i2c_execute_command_keeps_pointer |].
  destruct (sizeof_I2CRegisterBank <=? a); [reflexivity |].
  destruct (a =? REG_CONTROL); [| reflexivity].
  destruct (test v CTRL_RESET_ENCODER), (test v CTRL_CLEAR_INPUTS);
    reflexivity.
Qed.

Lemma i2c_register_read_keeps_pointer a s :
  current_register (snd (i2c_register_read a s)) = current_register s.
Proof. unfold i2c_register_read. split_ifs; reflexivity. Qed.

(** A one-register write transaction and a one-byte read transaction in
    terms of the bank operations. *)
Lemma host_write_one a v s :
  host_write a [v] s
  = set_current_register (u8 (a + 1)) (snd (i2c_register_write a v s)).
Proof.
  unfold host_write, i2c_receive_handler, receive_bytes.
  change (current_register (set_current_register a s)) with a.
  rewrite i2c_register_write_pointer. cbn [snd].
  change (current_register (set_current_register a ?x)) with a.
  reflexivity.
Qed.

Lemma host_read_one a s :
  host_read a 1 s
  = ([fst (i2c_register_read a s)],
     set_current_register (u8 (a + 1)) (snd (i2c_register_read a s))).
Proof.
  unfold host_read, i2c_receive_handler, receive_bytes.
  cbn [request_bytes]. unfold i2c_request_handler.
  change (current_register (set_current_register a s)) with a.
  rewrite i2c_register_read_pointer. cbn [fst snd].
  change (current_register (set_current_register a ?x)) with a.
  reflexivity.
Qed.

(** ** Rejected accesses *)

(** What both rejection paths leave behind: ERROR.INVALID_REG raised, the
    rest of the bank and every private variable as before. *)
Lemma invalid_reg_raised s :
  wf s ->
  let s' := store REG_ERROR (or8 (reg s REG_ERROR) ERROR_INVALID_REG) s in
  Z.testbit (reg s' REG_ERROR) 1 = true
  /\ (forall b, 0 <= b -> b <> REG_ERROR -> reg s' b = reg s b)
  /\ encoder_private s' = encoder_private s.
Proof.
  intros [Hlen _] s'. unfold s'. split; [| split; [| reflexivity]].
  - regs. rewrite testbit_or8 by lia. closed_bits. reflexivity.
  - intros b Hb Hne. regs. addr_cases; reflexivity.
Qed.

(** X1: the identity registers 0x00-0x03 are read-only: a write to any of
    them returns an error, leaves the byte (and every register other than
    ERROR) unchanged and raises ERROR.INVALID_REG. *)
Theorem identity_registers_are_read_only (s : state) (a v : Z) :
  wf s -> 0 <= a <= 3 ->
  let '(ok, s') := i2c_register_write a v s in
  ok = false
  /\ reg s' a = reg s a
  /\ Z.testbit (reg s' REG_ERROR) 1 = true
  /\ (forall b, 0 <= b -> b <> REG_ERROR -> reg s' b = reg s b)
  /\ encoder_private s' = encoder_private s.
Proof.
  intros Hwf Ha. unfold i2c_register_write.
  destruct (Z.leb_spec a 3); [| lia].
  destruct (invalid_reg_raised s Hwf) as (Hbit & Hframe & Hpriv).
  split; [reflexivity |]. split; [apply Hframe; consts; lia |].
  auto.
Qed.

Lemma identity_registers_are_read_only_witness :
  wf booted
  /\ fst (i2c_register_write REG_DEVICE_ID 0xAA booted) = false
  /\ reg (snd (i2c_register_write REG_DEVICE_ID 0xAA booted)) REG_DEVICE_ID
     = DEVICE_ID.
Proof.
  split; [exact wf_booted |].
  pose proof (identity_registers_are_read_only booted REG_DEVICE_ID 0xAA
                wf_booted ltac:(consts; lia)) as H.
  destruct (i2c_register_write REG_DEVICE_ID 0xAA booted) as [ok s'].
  destruct H as (Hok & Hreg & _). cbn [fst snd]. split; [exact Hok |].
  rewrite Hreg. reflexivity.
Defined.

(** X2: an address of 0x80 or above is outside the bank.  A read there
    returns 0xFF, a write (other than to the command port 0xF0) is refused;
    both raise ERROR.INVALID_REG and change nothing else. *)
Theorem out_of_range_access_is_flagged (s : state) (a v : Z) :
  wf s -> 128 <= a ->
  let s' := store REG_ERROR (or8 (reg s REG_ERROR) ERROR_INVALID_REG) s in
  i2c_register_read a s = (0xFF, s')
  /\ (a <> REG_COMMAND -> i2c_register_write a v s = (false, s'))
  /\ Z.testbit (reg s' REG_ERROR) 1 = true
  /\ (forall b, 0 <= b -> b <> REG_ERROR -> reg s' b = reg s b)
  /\ encoder_private s' = encoder_private s.
Proof.
  intros Hwf Ha s'.
  split; [apply i2c_register_read_out_of_range, Ha |].
  split; [| apply invalid_reg_raised, Hwf].
  intros Hne. unfold i2c_register_write. consts.
  destruct (Z.leb_spec a 3); [lia |].
  destruct (Z.eqb_spec a 240); [contradiction |].
  destruct (Z.leb_spec 128 a); [reflexivity | lia].
Qed.

Lemma out_of_range_access_is_flagged_witness :
  wf booted
  /\ fst (i2c_register_read 0x80 booted) = 0xFF
  /\ fst (i2c_register_write 0xFF 1 booted) = false.
Proof.
  split; [exact wf_booted |].
  destruct (out_of_range_access_is_flagged booted 0x80 0 wf_booted
              ltac:(lia)) as (Hr & _).
  destruct (out_of_range_access_is_flagged booted 0xFF 1 wf_booted
              ltac:(lia)) as (_ & Hw & _).
  rewrite Hr, Hw by (consts; lia). split; reflexivity.
Defined.

(** ** Round trip *)

(** X3: every address from 0x04 to 0x7F other than CONTROL stores what the
    host writes: the write is accepted, no other register changes, and the
    next read of that address, also through the I2C handlers, returns the
    byte written (for the auto-clearing addresses 0x52, 0x53 this is the
    value before the clear). *)
Theorem write_then_read_round_trip (s : state) (a v : Z) :
  wf s -> 4 <= a < 128 -> a <> REG_CONTROL ->
  let '(ok, s') := i2c_register_write a v s in
  ok = true
  /\ fst (i2c_register_read a s') = v
  /\ (forall b, 0 <= b -> b <> a -> reg s' b = reg s b)
  /\ fst (host_read a 1 (host_write a [v] s)) = [v].
Proof.
  intros Hwf Ha Hne.
  assert (Hw : i2c_register_write a v s = (true, store a v s)).
  { unfold i2c_register_write. consts.
    destruct (Z.leb_spec a 3); [lia |].
    destruct (Z.eqb_spec a 240); [lia |].
    destruct (Z.leb_spec 128 a); [lia |].
    destruct (Z.eqb_spec a 16); [contradiction | reflexivity]. }
  assert (Hr : forall s0, wf s0 -> fst (i2c_register_read a s0) = reg s0 a).
  { intros s0 _. unfold i2c_register_read. consts.
    destruct (Z.leb_spec 128 a); [lia |]. reflexivity. }
  rewrite host_write_one, host_read_one, Hw. cbn [fst snd].
  rewrite i2c_register_read_pointer. cbn [fst].
  rewrite !Hr by (apply wf_store, Hwf).
  rewrite reg_store_same by (auto; lia).
  split; [reflexivity |]. split; [reflexivity |]. split; [| reflexivity].
  intros b Hb Hba. apply reg_store_other; auto; lia.
Qed.

Lemma write_then_read_round_trip_witness :
  wf booted
  /\ fst (host_read REG_INPUT_CHANGED_LOW 1
            (host_write REG_INPUT_CHANGED_LOW [0x5A] booted)) = [0x5A].
Proof.
  split; [exact wf_booted |].
  pose proof (write_then_read_round_trip booted REG_INPUT_CHANGED_LOW 0x5A
                wf_booted ltac:(consts; lia) ltac:(consts; lia)) as H.
  destruct (i2c_register_write REG_INPUT_CHANGED_LOW 0x5A booted) as [ok s'].
  destruct H as (_ & _ & _ & H). exact H.
Defined.

(** ** Read transactions byte by byte *)

Lemma request_bytes_S a n s :
  request_bytes (S n) (set_current_register a s)
  = (fst (i2c_register_read a s)
       :: fst (request_bytes n
                 (set_current_register (u8 (a + 1))
                    (snd (i2c_register_read a s)))),
     snd (request_bytes n
            (set_current_register (u8 (a + 1))
               (snd (i2c_register_read a s))))).
Proof.
  cbn [request_bytes]. unfold i2c_request_handler.
  change (current_register (set_current_register a s)) with a.
  rewrite i2c_register_read_pointer. cbv beta iota.
  change (current_register (set_current_register a ?x)) with a.
  change (set_current_register (u8 (a + 1))
            (set_current_register a (snd (i2c_register_read a s))))
    with (set_current_register (u8 (a + 1)) (snd (i2c_register_read a s))).
  destruct (request_bytes n _) as [bs s2]. reflexivity.
Qed.

(** ** Read-side effects *)








(** X6: a CONTROL write with bit 2 (CLEAR_INPUTS) set zeroes both
    changed-flag registers and STATUS.INPUT_CHANGED within the write and
    leaves bit 2 of the stored byte clear; unless bit 1 is set as well, the
    encoder counters and their published bytes are not touched. *)
Theorem clear_inputs_action (s : state) (v : Z) :
  wf s -> Z.testbit v 2 = true ->
  let '(ok, s') := i2c_register_write REG_CONTROL v s in
  ok = true
  /\ reg s' REG_INPUT_CHANGED_LOW = 0
  /\ reg s' REG_INPUT_CHANGED_HIGH = 0
  /\ Z.testbit (reg s' REG_STATUS) 5 = false
  /\ Z.testbit (reg s' REG_CONTROL) 2 = false
  /\ (Z.testbit v 1 = false ->
      encoder_private s' = encoder_private s
      /\ reg s' REG_ENCODER_POS_LOW = reg s REG_ENCODER_POS_LOW
      /\ reg s' REG_ENCODER_POS_HIGH = reg s REG_ENCODER_POS_HIGH
      /\ reg s' REG_ENCODER_DELTA = reg s REG_ENCODER_DELTA).
Proof.
  intros [Hlen Hlc] Hbit.
  unfold i2c_register_write. consts. closed_eqb.
  rewrite test_bit1, test_bit2, Hbit.
  destruct (Z.testbit v 1) eqn:E1;
    (split; [reflexivity |]);
    repeat split; try discriminate; regs;
    rewrite ?testbit_andn8 by lia; closed_bits; rewrite ?andb_false_r;
    reflexivity.
Qed.

Lemma clear_inputs_action_witness :
  let s := loop (hw_at 60 (pin_low 15)) booted in
  wf s
  /\ reg s REG_INPUT_CHANGED_LOW = 4
  /\ reg (snd (i2c_register_write REG_CONTROL 0x05 s)) REG_INPUT_CHANGED_LOW
     = 0.
Proof.
  split; [split; reflexivity |]. split; [reflexivity |].
  pose proof (clear_inputs_action (loop (hw_at 60 (pin_low 15)) booted) 0x05
                ltac:(split; reflexivity) eq_refl) as H.
  destruct (i2c_register_write REG_CONTROL 5
              (loop (hw_at 60 (pin_low 15)) booted)) as [ok s'].
  destruct H as (_ & H & _). exact H.
Defined.

(** ** Soft reset *)

(** X7: the soft-reset command brings the bank to one fixed content, the
    power-up defaults, whatever it held before: identity 0x52/1/0/0,
    CONTROL = ENABLE, STATUS = READY, backlight 128, inputs "all open",
    CONFIG_DEBOUNCE = 50 and ERROR = 0.  Hence a second reset changes
    nothing, and the command itself always reports ok. *)
Theorem soft_reset_restores_defaults (s : state) :
  let s1 := host_write REG_COMMAND [CMD_RESET] s in
  fst (i2c_execute_command CMD_RESET s) = true
  /\ registers s1 = registers booted
  /\ host_write REG_COMMAND [CMD_RESET] s1 = s1
  /\ fst (host_read REG_DEVICE_ID 4 s1) = [DEVICE_ID; 1; 0; 0]
  /\ reg s1 REG_CONTROL = CTRL_ENABLE
  /\ reg s1 REG_STATUS = STATUS_READY
  /\ reg s1 REG_ERROR = 0
  /\ reg s1 REG_BACKLIGHT = 128
  /\ reg s1 REG_INPUT_STATUS_LOW = 0xFF
  /\ reg s1 REG_INPUT_STATUS_HIGH = 0x0F
  /\ reg s1 REG_CONFIG_DEBOUNCE = INPUT_DEBOUNCE_MS.
Proof.
  intros s1. repeat split; reflexivity.
Qed.

(** ** Multi-byte transactions *)

Lemma u8_add_idemp a b : u8 (u8 a + b) = u8 (a + b).
Proof. unfold u8. apply Zplus_mod_idemp_l. Qed.

Lemma receive_bytes_pointer vs s :
  u8 (current_register (receive_bytes vs s))
  = u8 (current_register s + Z.of_nat (length vs)).
Proof.
  revert s. induction vs as [| v vs IH]; intros s.
  - cbn [receive_bytes length]. rewrite Z.add_0_r. reflexivity.
  - cbn [receive_bytes length]. rewrite IH.
    change (current_register (set_current_register ?x ?y)) with x.
    rewrite i2c_register_write_keeps_pointer, u8_add_idemp.
    f_equal. lia.
Qed.

Lemma receive_bytes_pointer_range vs s :
  0 <= current_register s < 256 ->
  0 <= current_register (receive_bytes vs s) < 256.
Proof.
  revert s. induction vs as [| v vs IH]; intros s Hs; [exact Hs |].
  cbn [receive_bytes]. apply IH.
  change (current_register (set_current_register ?x ?y)) with x.
  apply u8_range.
Qed.

Lemma host_write_cons a v vs s :
  host_write a (v :: vs) s
  = host_write (u8 (a + 1)) vs (snd (i2c_register_write a v s)).
Proof.
  unfold host_write, i2c_receive_handler. cbn [receive_bytes].
  change (current_register (set_current_register a s)) with a.
  rewrite i2c_register_write_pointer. cbn [snd].
  change (current_register (set_current_register a ?x)) with a.
  reflexivity.
Qed.

Lemma host_write_pointer a vs s :
  0 <= a < 256 ->
  current_register (host_write a vs s) = u8 (a + Z.of_nat (length vs)).
Proof.
  intros Ha. unfold host_write, i2c_receive_handler.
  pose proof (receive_bytes_pointer vs (set_current_register a s)) as Hp.
  pose proof (receive_bytes_pointer_range vs (set_current_register a s) Ha)
    as Hr.
  rewrite u8_small in Hp by exact Hr. exact Hp.
Qed.

(** Registers that simply store what is written. *)
Lemma i2c_register_write_plain a v s :
  4 <= a < 128 -> a <> REG_CONTROL ->
  i2c_register_write a v s = (true, store a v s).
Proof.
  intros Ha Hne. unfold i2c_register_write. consts.
  destruct (Z.leb_spec a 3); [lia |].
  destruct (Z.eqb_spec a 240); [lia |].
  destruct (Z.leb_spec 128 a); [lia |].
  destruct (Z.eqb_spec a 16); [contradiction | reflexivity].
Qed.

(** A burst leaves the addresses below it alone. *)
Lemma host_write_below vs a s b :
  wf s -> 4 <= a -> a + Z.of_nat (length vs) <= 128 ->
  a + Z.of_nat (length vs) <= REG_CONTROL \/ REG_CONTROL < a ->
  0 <= b -> b < a ->
  reg (host_write a vs s) b = reg s b.
Proof.
  revert a s. induction vs as [| v vs IH];
    intros a s Hwf Ha Hlen Hctl Hb Hlt; [reflexivity |].
  cbn [length] in Hlen, Hctl.
  assert (Hc : a <> REG_CONTROL) by (revert Hctl; consts; lia).
  rewrite host_write_cons, u8_small, i2c_register_write_plain by lia.
  cbn [snd].
  rewrite IH by (auto with wf; revert Hctl; consts; lia).
  apply reg_store_other; auto; lia.
Qed.

(** X8: a write transaction is the address byte followed by single-register
    writes in bus order at consecutive addresses: an empty transaction is
    ignored, an address-only transaction moves the pointer and nothing else,
    and [addr, v, rest...] acts as the write of [v] to [addr] followed by the
    transaction [addr+1, rest...].  The pointer ends at the address plus the
    number of data bytes, wrapping from 0xFF to 0x00. *)
Theorem write_transaction_is_sequence_of_writes
    (s : state) (a v : Z) (vs : list Z) :
  0 <= a < 256 ->
  i2c_receive_handler [] s = s
  /\ host_write a [] s = set_current_register a s
  /\ host_write a (v :: vs) s
     = host_write (u8 (a + 1)) vs (snd (i2c_register_write a v s))
  /\ current_register (host_write a vs s) = u8 (a + Z.of_nat (length vs)).
Proof.
  intros Ha. split; [reflexivity |]. split; [reflexivity |].
  split; [apply host_write_cons | apply host_write_pointer, Ha].
Qed.

Lemma write_transaction_is_sequence_of_writes_witness :
  current_register (host_write 0xFE [1; 2; 3] booted) = 1
  /\ reg (host_write REG_VU_LEFT [0x80; 0x40] booted) REG_VU_RIGHT = 0x40.
Proof.
  destruct (write_transaction_is_sequence_of_writes booted 0xFE 1 [1; 2; 3]
              ltac:(lia)) as (_ & _ & _ & Hp).
  destruct (write_transaction_is_sequence_of_writes booted REG_VU_LEFT 0x80
              [0x40] ltac:(consts; lia)) as (_ & _ & Hseq & _).
  rewrite Hp, Hseq. split; reflexivity.
Defined.

(** X9: a burst write into the writable part of the bank that does not
    cross CONTROL stores byte [k] of the data at address [addr + k], leaves
    every address outside the burst unchanged and leaves the pointer just
    past the burst. *)
Theorem block_write_stores_consecutive_bytes
    (s : state) (a : Z) (vs : list Z) :
  wf s -> 4 <= a -> a + Z.of_nat (length vs) <= 128 ->
  a + Z.of_nat (length vs) <= REG_CONTROL \/ REG_CONTROL < a ->
  let s' := host_write a vs s in
  (forall k v, vs !! k = Some v -> reg s' (a + Z.of_nat k) = v)
  /\ (forall b, 0 <= b -> b < a \/ a + Z.of_nat (length vs) <= b ->
      reg s' b = reg s b)
  /\ current_register s' = a + Z.of_nat (length vs).
Proof.
  intros Hwf Ha Hlen Hctl s'. unfold s'. clear s'.
  split; [| split].
  - revert s a Hwf Ha Hlen Hctl.
    induction vs as [| v vs IH]; intros s a Hwf Ha Hlen Hctl k x Hk;
      [discriminate |].
    cbn [length] in Hlen, Hctl.
    assert (Hc : a <> REG_CONTROL) by (revert Hctl; consts; lia).
    rewrite host_write_cons, u8_small, i2c_register_write_plain by lia.
    cbn [snd].
    destruct k as [| k].
    + injection Hk as ->. rewrite Z.add_0_r.
      rewrite host_write_below by (auto with wf; revert Hctl; consts; lia).
      apply reg_store_same; auto; lia.
    + cbn [lookup list_lookup] in Hk.
      replace (a + Z.of_nat (S k)) with ((a + 1) + Z.of_nat k) by lia.
      apply IH; auto with wf; revert Hctl; consts; lia.
  - revert s a Hwf Ha Hlen Hctl.
    induction vs as [| v vs IH]; intros s a Hwf Ha Hlen Hctl b Hb Hout;
      [reflexivity |].
    cbn [length] in Hlen, Hctl, Hout.
    assert (Hc : a <> REG_CONTROL) by (revert Hctl; consts; lia).
    rewrite host_write_cons, u8_small, i2c_register_write_plain by lia.
    cbn [snd].
    rewrite IH by (auto with wf; revert Hctl; consts; lia).
    apply reg_store_other; auto; lia.
  - rewrite host_write_pointer by lia. apply u8_small. lia.
Qed.

Lemma block_write_stores_consecutive_bytes_witness :
  wf booted
  /\ reg (host_write REG_VU_LEFT [0x80; 0x40; 0x01] booted) REG_VU_MODE = 0x01
  /\ current_register (host_write REG_VU_LEFT [0x80; 0x40; 0x01] booted)
     = 0x23.
Proof.
  split; [exact wf_booted |].
  destruct (block_write_stores_consecutive_bytes booted REG_VU_LEFT
              [0x80; 0x40; 0x01] wf_booted ltac:(consts; lia)
              ltac:(cbn; consts; lia) ltac:(cbn; consts; lia))
    as (Hk & _ & Hp).
  split; [apply (Hk 2%nat 0x01 eq_refl) | rewrite Hp; reflexivity].
Defined.

(** X10: a read transaction over a range of the bank that contains none of
    the auto-clearing addresses (0x52, 0x53, 0x62) returns the stored bytes
    of consecutive addresses in order and changes nothing but the pointer,
    which ends just past the range. *)
Theorem block_read_returns_consecutive_registers
    (s : state) (a : Z) (n : nat) :
  0 <= a -> a + Z.of_nat n <= 128 ->
  a + Z.of_nat n <= REG_INPUT_CHANGED_LOW
  \/ (REG_INPUT_CHANGED_HIGH < a /\ a + Z.of_nat n <= REG_ENCODER_DELTA)
  \/ REG_ENCODER_DELTA < a ->
  host_read a n s
  = (reg s <$> seqZ a (Z.of_nat n), set_current_register (a + Z.of_nat n) s).
Proof.
  unfold host_read, i2c_receive_handler, receive_bytes.
  revert a. induction n as [| n IH]; intros a Ha Hlen Hfree.
  - cbn [request_bytes]. rewrite Z.add_0_r. reflexivity.
  - rewrite request_bytes_S.
    rewrite i2c_register_read_plain by (revert Hfree; consts; lia).
    cbn [fst snd]. rewrite u8_small by lia.
    rewrite IH by (revert Hfree; consts; lia). cbn [fst snd].
    rewrite (seqZ_cons a) by lia.
    replace (Z.pred (Z.of_nat (S n))) with (Z.of_nat n) by lia.
    replace (a + 1 + Z.of_nat n) with (a + Z.of_nat (S n)) by lia.
    reflexivity.
Qed.

Lemma block_read_returns_consecutive_registers_witness :
  host_read REG_DEVICE_ID 4 booted
  = ([0x52; 1; 0; 0], set_current_register 4 booted).
Proof.
  rewrite (block_read_returns_consecutive_registers booted REG_DEVICE_ID 4)
    by (cbn; consts; lia).
  reflexivity.
Defined.

(** ** What the host cannot reach *)

(** X11: bus transactions work on the register bank only.  No read and no
    write changes the debounce or button variables, and the encoder counters
    change only through a CONTROL write with RESET_ENCODER set; in
    particular commands, soft reset included, leave all three alone. *)
Theorem host_access_keeps_private_state (s : state) (a v : Z) :
  let r := snd (i2c_register_read a s) in
  let w := snd (i2c_register_write a v s) in
  encoder_private r = encoder_private s
  /\ button_private r = button_private s
  /\ contacts_private r = contacts_private s
  /\ button_private w = button_private s
  /\ contacts_private w = contacts_private s
  /\ (a <> REG_CONTROL \/ Z.testbit v 1 = false ->
      encoder_private w = encoder_private s).
Proof.
  intros r w. unfold r, w. clear r w.
  split; [unfold i2c_register_read; split_ifs; reflexivity |].
  split; [unfold i2c_register_read; split_ifs; reflexivity |].
  split; [unfold i2c_register_read; split_ifs; reflexivity |].
  unfold i2c_register_write, i2c_execute_command.
  rewrite test_bit1.
  destruct (a <=? 3); [repeat split; reflexivity |].
  destruct (a =? REG_COMMAND);
    [split_ifs; repeat split; reflexivity |].
  destruct (sizeof_I2CRegisterBank <=? a); [repeat split; reflexivity |].
  destruct (Z.eqb_spec a REG_CONTROL) as [-> | Hne];
    [| repeat split; reflexivity].
  destruct (Z.testbit v 1) eqn:E1, (test v CTRL_CLEAR_INPUTS);
    cbn [snd]; (split; [reflexivity |]); (split; [reflexivity |]);
    intros [H | H]; congruence || reflexivity.
Qed.

Lemma host_access_keeps_private_state_witness :
  let s := run_isr (quadrature_cycles 1) booted in
  encoder_position s = 4
  /\ encoder_private (snd (i2c_register_write REG_CONTROL 0x09 s))
     = encoder_private s
  /\ encoder_private (host_write REG_COMMAND [CMD_RESET] s) = encoder_private s.
Proof.
  split; [reflexivity |].
  destruct (host_access_keeps_private_state
              (run_isr (quadrature_cycles 1) booted) REG_CONTROL 0x09)
    as (_ & _ & _ & _ & _ & H).
  split; [apply H; right; reflexivity | vm_compute; reflexivity].
Defined.

(** ** The output engine *)

Ltac pins :=
  unfold PIN_VU_LEFT_IN1, PIN_VU_LEFT_IN2, PIN_VU_RIGHT_IN1, PIN_VU_RIGHT_IN2,
    PIN_BACKLIGHT_IN1, PIN_BACKLIGHT_IN2, PIN_TAPE_MOTOR_IN1,
    PIN_TAPE_MOTOR_IN2 in *.

Ltac masks :=
  repeat match goal with
         | |- context [Z.testbit 4 ?n] =>
             change (Z.testbit 4 n) with (Z.testbit (Z.shiftl 1 2) n)
         | |- context [Z.testbit 8 ?n] =>
             change (Z.testbit 8 n) with (Z.testbit (Z.shiftl 1 3) n)
         | |- context [Z.testbit 16 ?n] =>
             change (Z.testbit 16 n) with (Z.testbit (Z.shiftl 1 4) n)
         | |- context [Z.testbit 32 ?n] =>
             change (Z.testbit 32 n) with (Z.testbit (Z.shiftl 1 5) n)
         | |- context [Z.testbit 64 ?n] =>
             change (Z.testbit 64 n) with (Z.testbit (Z.shiftl 1 6) n)
         | |- context [Z.testbit 128 ?n] =>
             change (Z.testbit 128 n) with (Z.testbit (Z.shiftl 1 7) n)
         end;
  rewrite ?testbit_one_shifted by lia.

Section StatusBits.

(** Setting or clearing one flag of a status byte, bit by bit. *)
Lemma testbit_set_flag x k n :
  0 <= k < 8 -> 0 <= n < 8 ->
  Z.testbit (or8 x (Z.shiftl 1 k)) n = (if n =? k then true else Z.testbit x n).
Proof.
  intros Hk Hn. rewrite testbit_or8, testbit_one_shifted by lia.
  destruct (Z.ltb_spec n 8); [| lia].
  destruct (n =? k); cbn [andb]; [apply orb_true_r | apply orb_false_r].
Qed.

Lemma testbit_clear_flag x k n :
  0 <= k < 8 -> 0 <= n < 8 ->
  Z.testbit (andn8 x (Z.shiftl 1 k)) n
  = (if n =? k then false else Z.testbit x n).
Proof.
  intros Hk Hn. rewrite testbit_andn8, testbit_one_shifted by lia.
  destruct (Z.ltb_spec n 8); [| lia].
  destruct (n =? k); cbn [andb negb]; [apply andb_false_r | apply andb_true_r].
Qed.

Lemma test_bit3 v : test v 8 = Z.testbit v 3.
Proof. apply (test_one_shifted v 3). lia. Qed.

Lemma test_bit4 v : test v 16 = Z.testbit v 4.
Proof. apply (test_one_shifted v 4). lia. Qed.

Lemma test_bit5 v : test v 32 = Z.testbit v 5.
Proof. apply (test_one_shifted v 5). lia. Qed.

End StatusBits.

Section Actuators.

Variable b : bool.

Lemma update_vu_meters_status s n :
  wf s -> 0 <= n < 8 ->
  Z.testbit (reg (update_vu_meters b s) REG_STATUS) n
  = (if n =? 2 then b && negb (reg s REG_VU_MODE =? VU_MODE_OFF)
     else Z.testbit (reg s REG_STATUS) n).
Proof.
  intros [Hlen _] Hn. unfold update_vu_meters.
  destruct (b && negb (reg s REG_VU_MODE =? VU_MODE_OFF)); regs.
  - apply (testbit_set_flag _ 2); lia.
  - apply (testbit_clear_flag _ 2); lia.
Qed.

Lemma update_vu_meters_pwm s :
  let gate := b && negb (reg s REG_VU_MODE =? VU_MODE_OFF) in
  pwm (update_vu_meters b s)
  = <[PIN_VU_RIGHT_IN2 := 0]>
      (<[PIN_VU_RIGHT_IN1 := if gate then reg s REG_VU_RIGHT else 0]>
         (<[PIN_VU_LEFT_IN2 := 0]>
            (<[PIN_VU_LEFT_IN1 := if gate then reg s REG_VU_LEFT else 0]>
               (pwm s)))).
Proof.
  intros gate. unfold gate, update_vu_meters.
  destruct (b && negb (reg s REG_VU_MODE =? VU_MODE_OFF)); reflexivity.
Qed.

Lemma update_backlight_status s n :
  wf s -> 0 <= n < 8 ->
  Z.testbit (reg (update_backlight b s) REG_STATUS) n
  = (if n =? 3 then b && negb (reg s REG_BACKLIGHT_MODE =? BACKLIGHT_MODE_OFF)
     else Z.testbit (reg s REG_STATUS) n).
Proof.
  intros [Hlen _] Hn. unfold update_backlight.
  destruct (b && negb (reg s REG_BACKLIGHT_MODE =? BACKLIGHT_MODE_OFF)); regs.
  - apply (testbit_set_flag _ 3); lia.
  - apply (testbit_clear_flag _ 3); lia.
Qed.

Lemma update_backlight_pwm s :
  let gate := b && negb (reg s REG_BACKLIGHT_MODE =? BACKLIGHT_MODE_OFF) in
  pwm (update_backlight b s)
  = <[PIN_BACKLIGHT_IN2 := 0]>
      (<[PIN_BACKLIGHT_IN1 := if gate then reg s REG_BACKLIGHT else 0]>
         (pwm s)).
Proof.
  intros gate. unfold gate, update_backlight.
  destruct (b && negb (reg s REG_BACKLIGHT_MODE =? BACKLIGHT_MODE_OFF));
    reflexivity.
Qed.

(** The tape motor drives its two inputs and TAPE_RUNNING together. *)
Lemma update_tape_motor_cases s :
  wf s ->
  let gate := b && negb (reg s REG_TAPE_MODE =? TAPE_MODE_OFF) in
  let dir := reg s REG_TAPE_DIRECTION in
  exists in1 in2 running,
    pwm (update_tape_motor b s)
      = <[PIN_TAPE_MOTOR_IN2 := in2]> (<[PIN_TAPE_MOTOR_IN1 := in1]> (pwm s))
    /\ (forall n, 0 <= n < 8 ->
        Z.testbit (reg (update_tape_motor b s) REG_STATUS) n
        = (if n =? 4 then running else Z.testbit (reg s REG_STATUS) n))
    /\ (in1, in2, running)
       = (if gate then
            if dir =? TAPE_DIR_FORWARD then (reg s REG_TAPE_SPEED, 0, true)
            else if dir =? TAPE_DIR_REVERSE then (0, reg s REG_TAPE_SPEED, true)
            else if dir =? TAPE_DIR_BRAKE then (255, 255, false)
            else (0, 0, false)
          else (0, 0, false)).
Proof.
  intros [Hlen _] gate dir. unfold gate, dir, update_tape_motor.
  destruct (b && negb (reg s REG_TAPE_MODE =? TAPE_MODE_OFF));
    [destruct (reg s REG_TAPE_DIRECTION =? TAPE_DIR_FORWARD);
     [| destruct (reg s REG_TAPE_DIRECTION =? TAPE_DIR_REVERSE);
        [| destruct (reg s REG_TAPE_DIRECTION =? TAPE_DIR_BRAKE)]] |];
    eexists _, _, _; (split; [reflexivity |]); (split; [| reflexivity]);
    intros n Hn; regs;
    first [apply (testbit_set_flag _ 4); lia
          | apply (testbit_clear_flag _ 4); lia].
Qed.

End Actuators.

(** The three groups together: the duty written to each of the eight pins
    and every bit of STATUS after [update_pwm_outputs]. *)
Lemma update_pwm_outputs_spec s :
  wf s ->
  let vu := Z.testbit (reg s REG_CONTROL) 3
            && negb (reg s REG_VU_MODE =? VU_MODE_OFF) in
  let bl := Z.testbit (reg s REG_CONTROL) 4
            && negb (reg s REG_BACKLIGHT_MODE =? BACKLIGHT_MODE_OFF) in
  let tp := Z.testbit (reg s REG_CONTROL) 5
            && negb (reg s REG_TAPE_MODE =? TAPE_MODE_OFF) in
  let dir := reg s REG_TAPE_DIRECTION in
  exists in1 in2 running,
    pwm (update_pwm_outputs s)
      = <[PIN_TAPE_MOTOR_IN2 := in2]>
          (<[PIN_TAPE_MOTOR_IN1 := in1]>
             (<[PIN_BACKLIGHT_IN2 := 0]>
                (<[PIN_BACKLIGHT_IN1 := if bl then reg s REG_BACKLIGHT else 0]>
                   (<[PIN_VU_RIGHT_IN2 := 0]>
                      (<[PIN_VU_RIGHT_IN1 :=
                           if vu then reg s REG_VU_RIGHT else 0]>
                         (<[PIN_VU_LEFT_IN2 := 0]>
                            (<[PIN_VU_LEFT_IN1 :=
                                 if vu then reg s REG_VU_LEFT else 0]>
                               (pwm s))))))))
    /\ (forall n, 0 <= n < 8 ->
        Z.testbit (reg (update_pwm_outputs s) REG_STATUS) n
        = (if n =? 2 then vu else if n =? 3 then bl
           else if n =? 4 then running
           else Z.testbit (reg s REG_STATUS) n))
    /\ (in1, in2, running)
       = (if tp then
            if dir =? TAPE_DIR_FORWARD then (reg s REG_TAPE_SPEED, 0, true)
            else if dir =? TAPE_DIR_REVERSE then (0, reg s REG_TAPE_SPEED, true)
            else if dir =? TAPE_DIR_BRAKE then (255, 255, false)
            else (0, 0, false)
          else (0, 0, false)).
Proof.
  intros Hwf vu bl tp dir. unfold update_pwm_outputs. cbv zeta.
  set (bv := test (reg s REG_CONTROL) CTRL_VU_ENABLE).
  set (bb := test (reg s REG_CONTROL) CTRL_BACKLIGHT_ENABLE).
  set (bt := test (reg s REG_CONTROL) CTRL_TAPE_ENABLE).
  assert (Hbv : bv = Z.testbit (reg s REG_CONTROL) 3) by apply test_bit3.
  assert (Hbb : bb = Z.testbit (reg s REG_CONTROL) 4) by apply test_bit4.
  assert (Hbt : bt = Z.testbit (reg s REG_CONTROL) 5) by apply test_bit5.
  destruct (status_only_vu bv s Hwf) as (Hwf1 & Hr1 & _).
  set (s1 := update_vu_meters bv s) in *.
  destruct (status_only_backlight bb s1 Hwf1) as (Hwf2 & Hr2 & _).
  set (s2 := update_backlight bb s1) in *.
  destruct (update_tape_motor_cases bt s2 Hwf2)
    as (in1 & in2 & running & Hpwm & Hst & Hcase).
  exists in1, in2, running.
  rewrite !Hr2, !Hr1 in Hcase by (consts; lia).
  split; [| split].
  - rewrite Hpwm. unfold s2. rewrite update_backlight_pwm.
    rewrite !Hr1 by (consts; lia).
    unfold s1. rewrite update_vu_meters_pwm.
    unfold vu, bl. rewrite <- Hbv, <- Hbb. reflexivity.
  - intros n Hn. rewrite Hst by exact Hn.
    unfold s2. rewrite update_backlight_status by assumption.
    rewrite !Hr1 by (consts; lia).
    unfold s1. rewrite update_vu_meters_status by assumption.
    unfold vu, bl. rewrite <- Hbv, <- Hbb.
    destruct (Z.eqb_spec n 2) as [-> | H2]; [reflexivity |].
    destruct (Z.eqb_spec n 3) as [-> | H3]; [reflexivity |].
    reflexivity.
  - rewrite Hcase. unfold tp, dir. rewrite <- Hbt. reflexivity.
Qed.

(** X12: the VU meters are driven iff CONTROL.VU_ENABLE (bit 3) is set and
    VU_MODE is not OFF (0xFF): then IN1 of each meter gets the level register
    as duty, otherwise 0; IN2 of both meters is always 0; STATUS.VU_ACTIVE
    (bit 2) tells which case applied. *)
Theorem vu_meters_follow_registers (s : state) :
  wf s ->
  let gate := Z.testbit (reg s REG_CONTROL) 3
              && negb (reg s REG_VU_MODE =? VU_MODE_OFF) in
  let s' := update_pwm_outputs s in
  pwm s' !! PIN_VU_LEFT_IN1 = Some (if gate then reg s REG_VU_LEFT else 0)
  /\ pwm s' !! PIN_VU_LEFT_IN2 = Some 0
  /\ pwm s' !! PIN_VU_RIGHT_IN1 = Some (if gate then reg s REG_VU_RIGHT else 0)
  /\ pwm s' !! PIN_VU_RIGHT_IN2 = Some 0
  /\ Z.testbit (reg s' REG_STATUS) 2 = gate.
Proof.
  intros Hwf gate s'.
  destruct (update_pwm_outputs_spec s Hwf)
    as (in1 & in2 & running & Hpwm & Hst & _).
  fold s' in Hpwm, Hst. rewrite Hpwm, (Hst 2) by lia. pins.
  repeat split; simplify_map_eq; reflexivity.
Qed.

Lemma vu_meters_follow_registers_witness :
  let s := host_write REG_VU_LEFT [0x80; 0x40]
             (host_write REG_CONTROL [0x09] booted) in
  wf s
  /\ pwm (tick (hw_at 10 idle_pins) s) !! PIN_VU_LEFT_IN1 = Some 0x80
  /\ pwm (tick (hw_at 10 idle_pins) s) !! PIN_VU_RIGHT_IN1 = Some 0x40
  /\ Z.testbit (reg (tick (hw_at 10 idle_pins) s) REG_STATUS) 2 = true.
Proof.
  split; [split; reflexivity |].
  destruct (vu_meters_follow_registers
              (update_encoder
                 (update_inputs idle_pins 10 10
                    (host_write REG_VU_LEFT [0x80; 0x40]
                       (host_write REG_CONTROL [0x09] booted))))
              ltac:(split; reflexivity))
    as (Hl & _ & Hr & _ & Hb).
  unfold tick. cbn [digitalRead millis_inputs millis_button hw_at].
  rewrite Hl, Hr, Hb. repeat split; vm_compute; reflexivity.
Defined.

(** X13: the backlight is driven iff CONTROL.BACKLIGHT_ENABLE (bit 4) is set
    and BACKLIGHT_MODE is not OFF: IN1 gets the BACKLIGHT register as duty,
    otherwise 0; IN2 is always 0; STATUS.BACKLIGHT_ON (bit 3) tells which. *)
Theorem backlight_follows_registers (s : state) :
  wf s ->
  let gate := Z.testbit (reg s REG_CONTROL) 4
              && negb (reg s REG_BACKLIGHT_MODE =? BACKLIGHT_MODE_OFF) in
  let s' := update_pwm_outputs s in
  pwm s' !! PIN_BACKLIGHT_IN1 = Some (if gate then reg s REG_BACKLIGHT else 0)
  /\ pwm s' !! PIN_BACKLIGHT_IN2 = Some 0
  /\ Z.testbit (reg s' REG_STATUS) 3 = gate.
Proof.
  intros Hwf gate s'.
  destruct (update_pwm_outputs_spec s Hwf)
    as (in1 & in2 & running & Hpwm & Hst & _).
  fold s' in Hpwm, Hst. rewrite Hpwm, (Hst 3) by lia. pins.
  repeat split; simplify_map_eq; reflexivity.
Qed.

Lemma backlight_follows_registers_witness :
  let s := host_write REG_CONTROL [0x11] booted in
  wf s
  /\ pwm (update_pwm_outputs s) !! PIN_BACKLIGHT_IN1 = Some 128
  /\ pwm (update_pwm_outputs booted) !! PIN_BACKLIGHT_IN1 = Some 0.
Proof.
  split; [split; reflexivity |].
  destruct (backlight_follows_registers
              (host_write REG_CONTROL [0x11] booted)
              ltac:(split; reflexivity)) as (H1 & _).
  destruct (backlight_follows_registers booted wf_booted) as (H0 & _).
  rewrite H1, H0. split; reflexivity.
Defined.

(** X14: with CONTROL.TAPE_ENABLE (bit 5) set and TAPE_MODE not OFF the
    tape motor follows TAPE_DIRECTION: FORWARD drives (speed, 0), REVERSE
    (0, speed), both with STATUS.TAPE_RUNNING (bit 4) set; BRAKE drives
    (255, 255) and any other direction, like a closed gate, (0, 0), with
    TAPE_RUNNING clear.  Both inputs are non-zero at once only when
    braking. *)
Theorem tape_motor_follows_direction (s : state) :
  wf s ->
  let gate := Z.testbit (reg s REG_CONTROL) 5
              && negb (reg s REG_TAPE_MODE =? TAPE_MODE_OFF) in
  let dir := reg s REG_TAPE_DIRECTION in
  let speed := reg s REG_TAPE_SPEED in
  let s' := update_pwm_outputs s in
  let out := (pwm s' !! PIN_TAPE_MOTOR_IN1, pwm s' !! PIN_TAPE_MOTOR_IN2,
              Z.testbit (reg s' REG_STATUS) 4) in
  (gate = true -> dir = TAPE_DIR_FORWARD -> out = (Some speed, Some 0, true))
  /\ (gate = true -> dir = TAPE_DIR_REVERSE ->
      out = (Some 0, Some speed, true))
  /\ (gate = true -> dir = TAPE_DIR_BRAKE -> out = (Some 255, Some 255, false))
  /\ (gate = false
      \/ (dir <> TAPE_DIR_FORWARD /\ dir <> TAPE_DIR_REVERSE
          /\ dir <> TAPE_DIR_BRAKE) ->
      out = (Some 0, Some 0, false))
  /\ (forall x y, out = (Some x, Some y, false) \/ out = (Some x, Some y, true) ->
      x <> 0 -> y <> 0 -> gate = true /\ dir = TAPE_DIR_BRAKE).
Proof.
  intros Hwf gate dir speed s' out.
  destruct (update_pwm_outputs_spec s Hwf)
    as (in1 & in2 & running & Hpwm & Hst & Hcase).
  fold s' in Hpwm, Hst. fold gate dir speed in Hcase.
  assert (Hout : out = (Some in1, Some in2, running)).
  { unfold out. rewrite Hpwm, (Hst 4) by lia. pins.
    simplify_map_eq. reflexivity. }
  rewrite Hout. clear Hout Hpwm Hst out.
  destruct gate;
    [destruct (Z.eqb_spec dir TAPE_DIR_FORWARD) as [Ef | Ef];
     [| destruct (Z.eqb_spec dir TAPE_DIR_REVERSE) as [Er | Er];
        [| destruct (Z.eqb_spec dir TAPE_DIR_BRAKE) as [Eb | Eb]]] |];
    injection Hcase as -> -> ->;
    (split; [| split; [| split; [| split]]]);
    try (intros _ Hd; first [reflexivity | exfalso; consts; congruence]);
    try (intros Hg; discriminate Hg);
    try (intros [Hg | (H1 & H2 & H3)];
         first [reflexivity | discriminate Hg | contradiction]);
    intros x y [H | H] Hx Hy; try discriminate H;
    injection H as <- <-; first [congruence | auto].
Qed.

Lemma tape_motor_follows_direction_witness :
  let s := host_write REG_TAPE_SPEED [0xC0; TAPE_DIR_REVERSE]
             (host_write REG_CONTROL [0x21] booted) in
  let b := host_write REG_TAPE_DIRECTION [TAPE_DIR_BRAKE] s in
  wf s /\ wf b
  /\ (pwm (update_pwm_outputs s) !! PIN_TAPE_MOTOR_IN1,
      pwm (update_pwm_outputs s) !! PIN_TAPE_MOTOR_IN2,
      Z.testbit (reg (update_pwm_outputs s) REG_STATUS) 4)
     = (Some 0, Some 0xC0, true)
  /\ (pwm (update_pwm_outputs b) !! PIN_TAPE_MOTOR_IN1,
      pwm (update_pwm_outputs b) !! PIN_TAPE_MOTOR_IN2,
      Z.testbit (reg (update_pwm_outputs b) REG_STATUS) 4)
     = (Some 255, Some 255, false).
Proof.
  split; [split; reflexivity |]. split; [split; reflexivity |].
  destruct (tape_motor_follows_direction
              (host_write REG_TAPE_SPEED [0xC0; TAPE_DIR_REVERSE]
                 (host_write REG_CONTROL [0x21] booted))
              ltac:(split; reflexivity)) as (_ & Hrev & _).
  destruct (tape_motor_follows_direction
              (host_write REG_TAPE_DIRECTION [TAPE_DIR_BRAKE]
                 (host_write REG_TAPE_SPEED [0xC0; TAPE_DIR_REVERSE]
                    (host_write REG_CONTROL [0x21] booted)))
              ltac:(split; reflexivity)) as (_ & _ & Hbrake & _).
  split; [apply Hrev; reflexivity | apply Hbrake; reflexivity].
Defined.

(** X15: the outputs depend on CONTROL only through its three sub-enable
    bits 3, 4 and 5.  Two CONTROL bytes that agree on those bits, whatever
    the master ENABLE bit 0 and the remaining bits are, give the same eight
    duty values and the same STATUS. *)
Theorem master_enable_gates_nothing (s : state) (c : Z) :
  wf s ->
  Z.testbit c 3 = Z.testbit (reg s REG_CONTROL) 3 ->
  Z.testbit c 4 = Z.testbit (reg s REG_CONTROL) 4 ->
  Z.testbit c 5 = Z.testbit (reg s REG_CONTROL) 5 ->
  let s0 := store REG_CONTROL c s in
  pwm (update_pwm_outputs s0) = pwm (update_pwm_outputs s)
  /\ (forall n, 0 <= n < 8 ->
      Z.testbit (reg (update_pwm_outputs s0) REG_STATUS) n
      = Z.testbit (reg (update_pwm_outputs s) REG_STATUS) n).
Proof.
  intros Hwf H3 H4 H5 s0.
  assert (Hwf0 : wf s0) by (apply wf_store, Hwf).
  assert (Hc : reg s0 REG_CONTROL = c)
    by (apply reg_store_same; auto; consts; lia).
  assert (Hr : forall a, 0 <= a -> a <> REG_CONTROL -> reg s0 a = reg s a)
    by (intros a Ha Hne; apply reg_store_other; auto; consts; lia).
  destruct (update_pwm_outputs_spec s Hwf)
    as (in1 & in2 & running & Hpwm & Hst & Hcase).
  destruct (update_pwm_outputs_spec s0 Hwf0)
    as (in1' & in2' & running' & Hpwm' & Hst' & Hcase').
  rewrite Hc in Hpwm', Hst', Hcase'.
  rewrite H3, H4 in Hpwm', Hst'. rewrite H5 in Hcase'.
  rewrite (Hr REG_VU_MODE), (Hr REG_VU_LEFT), (Hr REG_VU_RIGHT),
    (Hr REG_BACKLIGHT_MODE), (Hr REG_BACKLIGHT) in Hpwm' by (consts; lia).
  rewrite (Hr REG_VU_MODE), (Hr REG_BACKLIGHT_MODE), (Hr REG_STATUS) in Hst'
    by (consts; lia).
  rewrite (Hr REG_TAPE_MODE), (Hr REG_TAPE_DIRECTION), (Hr REG_TAPE_SPEED)
    in Hcase' by (consts; lia).
  change (pwm s0) with (pwm s) in Hpwm'.
  rewrite <- Hcase in Hcase'. injection Hcase' as -> -> ->.
  split.
  - rewrite Hpwm', Hpwm. reflexivity.
  - intros n Hn. rewrite Hst', Hst by exact Hn. reflexivity.
Qed.

Lemma master_enable_gates_nothing_witness :
  let s := host_write REG_VU_LEFT [0x80] (host_write REG_CONTROL [0x09] booted) in
  wf s
  /\ reg s REG_CONTROL = 0x09
  /\ pwm (update_pwm_outputs (store REG_CONTROL 0x08 s))
     = pwm (update_pwm_outputs s).
Proof.
  split; [split; reflexivity |]. split; [reflexivity |].
  destruct (master_enable_gates_nothing
              (host_write REG_VU_LEFT [0x80]
                 (host_write REG_CONTROL [0x09] booted)) 0x08
              ltac:(split; reflexivity) eq_refl eq_refl eq_refl) as [H _].
  exact H.
Defined.

(** ** The input engine *)

Section Bitmaps.

Variable dr : Z -> bool.
Variables now old_low old_high : Z.

Lemma write_bit_range i b nl nh :
  0 <= i < 12 -> 0 <= nl < 256 -> 0 <= nh < 16 ->
  0 <= fst (write_bit i b (nl, nh)) < 256
  /\ 0 <= snd (write_bit i b (nl, nh)) < 16.
Proof.
  intros Hi Hl Hh. unfold write_bit.
  destruct (Z.ltb_spec i 8) as [Hlt | Hge]; cbn [fst snd].
  - split; [destruct b; apply u8_range | exact Hh].
  - split; [exact Hl |].
    assert (Hi' : i = 8 \/ i = 9 \/ i = 10 \/ i = 11) by lia.
    assert (Hh' : nh = 0 \/ nh = 1 \/ nh = 2 \/ nh = 3 \/ nh = 4 \/ nh = 5
                  \/ nh = 6 \/ nh = 7 \/ nh = 8 \/ nh = 9 \/ nh = 10
                  \/ nh = 11 \/ nh = 12 \/ nh = 13 \/ nh = 14 \/ nh = 15)
      by lia.
    repeat destruct Hi' as [-> | Hi']; try subst i;
      repeat destruct Hh' as [-> | Hh']; try subst nh;
      destruct b; vm_compute; split; congruence.
Qed.

Lemma debounce_channel_range acc i :
  0 <= i < 12 ->
  0 <= fst (fst acc) < 256 /\ 0 <= snd (fst acc) < 16 ->
  0 <= fst (fst (debounce_channel dr now old_low old_high acc i)) < 256
  /\ 0 <= snd (fst (debounce_channel dr now old_low old_high acc i)) < 16.
Proof.
  intros Hi [Hl Hh]. destruct acc as [[nl nh] lc]. cbn [fst snd] in *.
  unfold debounce_channel.
  split_ifs; cbn [fst]; apply write_bit_range; assumption.
Qed.

Lemma debounce_fold_range chans acc :
  Forall (fun i => 0 <= i < 12) chans ->
  0 <= fst (fst acc) < 256 /\ 0 <= snd (fst acc) < 16 ->
  let r := fold_left (debounce_channel dr now old_low old_high) chans acc in
  0 <= fst (fst r) < 256 /\ 0 <= snd (fst r) < 16.
Proof.
  intros Hall. revert acc.
  induction Hall as [| i chans Hi _ IH]; intros acc Hacc; [exact Hacc |].
  cbn [fold_left]. apply IH, debounce_channel_range; assumption.
Qed.

Lemma debounce_inputs_range lc :
  let r := debounce_inputs dr now old_low old_high lc in
  0 <= fst (fst r) < 256 /\ 0 <= snd (fst r) < 16.
Proof.
  unfold debounce_inputs. apply debounce_fold_range.
  - apply Forall_seqZ. consts. lia.
  - cbn [fst snd]. lia.
Qed.

End Bitmaps.

(** X16: whatever the pins and whatever the state before, after a tick the
    low stable bitmap is a byte and the high stable bitmap uses bits 0-3
    only (there are twelve inputs), and these are the bytes published at
    0x50 and 0x51. *)
Theorem input_bitmaps_stay_in_range (s : state) (h : hw) :
  wf s ->
  let s' := tick h s in
  0 <= input_state_low s' < 256
  /\ 0 <= input_state_high s' < 16
  /\ reg s' REG_INPUT_STATUS_LOW = input_state_low s'
  /\ reg s' REG_INPUT_STATUS_HIGH = input_state_high s'.
Proof.
  intros Hwf s'.
  destruct (tick_contacts h s Hwf) as (Hc & Hlo & Hhi). fold s' in Hc, Hlo, Hhi.
  set (s0 := update_inputs (digitalRead h) (millis_inputs h)
               (millis_button h) s) in *.
  pose proof (update_button_contacts (digitalRead h) (millis_button h)
                (update_contacts (digitalRead h) (millis_inputs h) s)) as Hb.
  rewrite update_contacts_private in Hb.
  change (update_button (digitalRead h) (millis_button h)
            (update_contacts (digitalRead h) (millis_inputs h) s))
    with s0 in Hb.
  rewrite Hb in Hc.
  apply contacts_private_inv in Hc. destruct Hc as (Hl' & Hh' & _).
  apply contacts_private_inv in Hb. destruct Hb as (Hl0 & Hh0 & _).
  pose proof (debounce_inputs_range (digitalRead h) (millis_inputs h)
                (input_state_low s) (input_state_high s)
                (input_last_change s)) as [Hr1 Hr2].
  rewrite Hl', Hh', Hlo, Hhi, Hl0, Hh0. auto.
Qed.

Lemma input_bitmaps_stay_in_range_witness :
  let s := tick (hw_at 60 (pin_low 26)) booted in
  wf booted /\ reg s REG_INPUT_STATUS_HIGH = 0x0B /\ input_state_high s = 0x0B.
Proof.
  split; [exact wf_booted |].
  destruct (input_bitmaps_stay_in_range booted (hw_at 60 (pin_low 26))
              wf_booted) as (_ & _ & _ & H).
  rewrite H. split; vm_compute; reflexivity.
Defined.

Section Steady.

Variable dr : Z -> bool.
Variables now old_low old_high : Z.

Local Abbreviation step := (debounce_channel dr now old_low old_high).
Local Abbreviation raw := (raw_level dr).
Local Abbreviation stable := (chan_bit (old_low, old_high)).

Lemma channel_mask_index i :
  0 <= i < 12 -> i mod 8 = (if i <? 8 then i else i - 8).
Proof.
  intros Hi. destruct (Z.ltb_spec i 8).
  - apply Z.mod_small. lia.
  - replace i with ((i - 8) + 1 * 8) at 1 by lia.
    rewrite Z_mod_plus_full. apply Z.mod_small. lia.
Qed.

(** When sample and stable bit agree, the firmware's comparison still fires
    for a high level on every channel but the first of each byte: it
    compares the [bool] with the masked byte, not with a bit. *)
Lemma steady_comparison i :
  0 <= i < 12 -> raw i = stable i ->
  negb (Z.b2z (raw i)
        =? Z.land (if i <? 8 then old_low else old_high)
                  (Z.shiftl 1 (i mod 8)))
  = raw i && negb (i mod 8 =? 0)
  /\ old_bit old_low old_high i = stable i.
Proof.
  intros Hi Heq. unfold chan_bit, old_bit in *. cbn [fst snd] in *.
  pose proof (channel_mask_index i Hi) as Hm. rewrite Hm.
  destruct (Z.ltb_spec i 8);
    rewrite land_one_shifted, test_one_shifted by lia;
    (split; [| reflexivity]); rewrite <- Heq;
    destruct (raw i); cbn [Z.b2z andb negb]; try reflexivity;
    match goal with
    | |- context [2 ^ ?k] =>
        destruct (Z.eqb_spec k 0) as [E | E];
        [rewrite E; reflexivity |];
        assert (2 ^ 1 <= 2 ^ k) by (apply Z.pow_le_mono_r; lia);
        change (2 ^ 1) with 2 in *;
        destruct (Z.eqb_spec 1 (2 ^ k)); [lia | reflexivity]
    end.
Qed.

Lemma debounce_channel_steady acc i :
  0 <= i < 12 -> length (snd acc) = 12%nat -> raw i = stable i ->
  let elapsed := u32 (now - default 0 (snd acc !! Z.to_nat i)) in
  chan_bit (fst (step acc i)) i = stable i
  /\ snd (step acc i) !! Z.to_nat i
     = (if raw i && negb (i mod 8 =? 0) && (INPUT_DEBOUNCE_MS <=? elapsed)
        then Some now else snd acc !! Z.to_nat i).
Proof.
  intros Hi Hlen Heq elapsed. destruct acc as [ns lc].
  destruct (steady_comparison i Hi Heq) as [Hd Ho].
  unfold debounce_channel. fold (raw_level dr i). rewrite Hd, Ho.
  cbn [snd] in *. fold elapsed.
  destruct (raw i && negb (i mod 8 =? 0)); cbn [andb];
    [destruct (INPUT_DEBOUNCE_MS <=? elapsed) |];
    cbn [fst snd]; rewrite chan_bit_write_bit_same by assumption;
    rewrite ?list_lookup_insert_eq by lia; auto.
Qed.

Lemma debounce_inputs_steady lc i :
  0 <= i < 12 -> length lc = 12%nat -> raw i = stable i ->
  let elapsed := u32 (now - default 0 (lc !! Z.to_nat i)) in
  let r := debounce_inputs dr now old_low old_high lc in
  chan_bit (fst r) i = stable i
  /\ snd r !! Z.to_nat i
     = (if raw i && negb (i mod 8 =? 0) && (INPUT_DEBOUNCE_MS <=? elapsed)
        then Some now else lc !! Z.to_nat i).
Proof.
  intros Hi Hlen Heq elapsed r. unfold r, debounce_inputs.
  consts.
  set (acc0 := fold_left step (seqZ 0 i) (255, 15, lc)).
  assert (Hsplit : fold_left step (seqZ 0 12) (255, 15, lc)
                   = fold_left step (seqZ (Z.succ i) (Z.pred (12 - i)))
                       (step acc0 i)).
  { replace 12 with (i + (12 - i)) at 1 by lia.
    rewrite seqZ_app, Z.add_0_l by lia.
    rewrite (seqZ_cons i) by lia.
    rewrite fold_left_app. reflexivity. }
  rewrite Hsplit. clear Hsplit.
  destruct (debounce_fold_other dr now old_low old_high (seqZ 0 i)
              (255, 15, lc) i Hi) as [_ Hlc0].
  { apply Forall_seqZ. lia. }
  fold acc0 in Hlc0. cbn [snd] in Hlc0.
  destruct (debounce_fold_other dr now old_low old_high
              (seqZ (Z.succ i) (Z.pred (12 - i))) (step acc0 i) i Hi)
    as [-> ->].
  { apply Forall_seqZ. lia. }
  destruct (debounce_channel_steady acc0 i Hi) as [-> ->]; try assumption.
  - unfold acc0. rewrite debounce_fold_length. exact Hlen.
  - rewrite Hlc0. fold elapsed. auto.
Qed.

End Steady.

(** X17: a contact whose sampled level equals its stable bit keeps that bit
    over the tick, and its 0x50/0x51 bit with it.  Its debounce time stamp
    is left alone for a low level and on channels 0 and 8; for a high level
    on any other channel the firmware's comparison treats the sample as a
    change and, once 50 ms have passed since the stamp, restarts the stamp
    at [now]. *)
Theorem steady_contact_keeps_its_bit (s : state) (h : hw) (i : Z) :
  wf s -> 0 <= i < NUM_DIGITAL_INPUTS ->
  let raw := raw_level (digitalRead h) i in
  let now := millis_inputs h in
  let elapsed := u32 (now - default 0 (input_last_change s !! Z.to_nat i)) in
  let s' := tick h s in
  raw = stable_bit s i ->
  stable_bit s' i = stable_bit s i
  /\ chan_bit (reg s' REG_INPUT_STATUS_LOW, reg s' REG_INPUT_STATUS_HIGH) i
     = stable_bit s i
  /\ input_last_change s' !! Z.to_nat i
     = (if raw && negb (i mod 8 =? 0) && (INPUT_DEBOUNCE_MS <=? elapsed)
        then Some now else input_last_change s !! Z.to_nat i).
Proof.
  intros Hwf Hi raw now elapsed s' Heq.
  destruct (tick_contacts h s Hwf) as (Hc & Hlo & Hhi).
  fold s' in Hc, Hlo, Hhi.
  destruct (update_inputs_private (digitalRead h) (millis_inputs h)
              (millis_button h) s) as [Hst Hl].
  destruct (debounce_inputs_steady (digitalRead h) now (input_state_low s)
              (input_state_high s) (input_last_change s) i
              ltac:(revert Hi; consts; lia) (proj2 Hwf) Heq) as [Hbit Hlast].
  fold raw elapsed in Hbit, Hlast. subst now.
  set (s0 := update_inputs (digitalRead h) (millis_inputs h)
               (millis_button h) s) in *.
  assert (Hs' : stable_bit s' = stable_bit s0
                /\ input_last_change s' = input_last_change s0).
  { apply contacts_private_inv in Hc. destruct Hc as (H1 & H2 & H3).
    unfold stable_bit. rewrite H1, H2, H3. auto. }
  destruct Hs' as (Hsb & Hlc').
  rewrite Hsb, Hlc', Hlo, Hhi, Hl, Hlast.
  change (chan_bit (input_state_low s0, input_state_high s0) i)
    with (stable_bit s0 i).
  rewrite Hst, Hbit. auto.
Qed.

Lemma steady_contact_keeps_its_bit_witness :
  let s := tick (hw_at 10 idle_pins) booted in
  wf s
  /\ input_last_change (tick (hw_at 70 idle_pins) s) !! 0%nat = Some 0
  /\ input_last_change (tick (hw_at 70 idle_pins) s) !! 1%nat = Some 70
  /\ stable_bit (tick (hw_at 70 idle_pins) s) 1 = true.
Proof.
  split; [split; reflexivity |].
  destruct (steady_contact_keeps_its_bit (tick (hw_at 10 idle_pins) booted)
              (hw_at 70 idle_pins) 0 ltac:(split; reflexivity)
              ltac:(consts; lia) eq_refl) as (_ & _ & H0).
  destruct (steady_contact_keeps_its_bit (tick (hw_at 10 idle_pins) booted)
              (hw_at 70 idle_pins) 1 ltac:(split; reflexivity)
              ltac:(consts; lia) eq_refl) as (Hb & _ & H1).
  change (Z.to_nat 0) with 0%nat in H0. change (Z.to_nat 1) with 1%nat in H1.
  rewrite H0, H1, Hb. repeat split; vm_compute; reflexivity.
Defined.

Section ChangedFlags.

Lemma chan_bit_lxor a b c d i :
  0 <= i < 12 ->
  chan_bit (Z.lxor a b, Z.lxor c d) i
  = xorb (chan_bit (a, c) i) (chan_bit (b, d) i).
Proof.
  intros Hi. unfold chan_bit. cbn [fst snd].
  destruct (i <? 8); apply Z.lxor_spec.
Qed.

Lemma chan_bit_nonzero cl ch i :
  chan_bit (cl, ch) i = true -> negb (cl =? 0) || negb (ch =? 0) = true.
Proof.
  unfold chan_bit. cbn [fst snd]. intros H.
  destruct (Z.eqb_spec cl 0) as [-> | _], (Z.eqb_spec ch 0) as [-> | _];
    try reflexivity.
  destruct (i <? 8); rewrite Z.bits_0 in H; discriminate H.
Qed.

Lemma flag_changes_flags cl ch s i :
  wf s -> 0 <= i < 12 ->
  chan_bit (reg (flag_changes cl ch s) REG_INPUT_CHANGED_LOW,
            reg (flag_changes cl ch s) REG_INPUT_CHANGED_HIGH) i
  = chan_bit (reg s REG_INPUT_CHANGED_LOW, reg s REG_INPUT_CHANGED_HIGH) i
    || chan_bit (cl, ch) i.
Proof.
  intros [Hlen _] Hi. unfold flag_changes, chan_bit. cbn [fst snd].
  destruct (Z.eqb_spec cl 0) as [-> | Hcl], (Z.eqb_spec ch 0) as [-> | Hch];
    cbn [negb orb]; regs; destruct (Z.ltb_spec i 8);
    rewrite ?testbit_or8, ?Z.bits_0, ?orb_false_r by lia;
    try reflexivity;
    match goal with
    | |- context [?x <? 8] => destruct (Z.ltb_spec x 8); [reflexivity | lia]
    end.
Qed.

Lemma flag_changes_status cl ch s :
  wf s ->
  Z.testbit (reg (flag_changes cl ch s) REG_STATUS) 5
  = Z.testbit (reg s REG_STATUS) 5 || (negb (cl =? 0) || negb (ch =? 0)).
Proof.
  intros [Hlen _]. unfold flag_changes.
  destruct (negb (cl =? 0) || negb (ch =? 0)); regs.
  - rewrite testbit_or8 by lia. closed_bits. rewrite ?orb_true_r. reflexivity.
  - rewrite orb_false_r. reflexivity.
Qed.

Lemma update_encoder_status_bit s n :
  wf s -> 0 <= n < 8 ->
  Z.testbit (reg (update_encoder s) REG_STATUS) n
  = (if n =? 6
     then Z.testbit (reg s REG_STATUS) 6 || negb (encoder_delta s =? 0)
     else Z.testbit (reg s REG_STATUS) n).
Proof.
  intros [Hlen _] Hn. unfold update_encoder.
  destruct (negb (encoder_delta s =? 0)); regs.
  - change 64 with (Z.shiftl 1 6). rewrite testbit_set_flag by lia.
    destruct (Z.eqb_spec n 6) as [-> | _];
      [rewrite orb_true_r |]; reflexivity.
  - destruct (Z.eqb_spec n 6) as [-> | _];
      [rewrite orb_false_r |]; reflexivity.
Qed.

(** Status bits 0, 1, 5, 6 and 7 and every register but STATUS pass through
    [update_pwm_outputs]. *)
Lemma update_pwm_outputs_keeps s n :
  wf s -> 0 <= n < 8 -> n <> 2 -> n <> 3 -> n <> 4 ->
  Z.testbit (reg (update_pwm_outputs s) REG_STATUS) n
  = Z.testbit (reg s REG_STATUS) n.
Proof.
  intros Hwf Hn H2 H3 H4.
  destruct (update_pwm_outputs_spec s Hwf) as (? & ? & ? & _ & Hst & _).
  rewrite Hst by exact Hn.
  destruct (Z.eqb_spec n 2); [contradiction |].
  destruct (Z.eqb_spec n 3); [contradiction |].
  destruct (Z.eqb_spec n 4); [contradiction | reflexivity].
Qed.

Lemma update_contacts_flags dr now s i :
  wf s -> 0 <= i < 12 ->
  let s0 := update_contacts dr now s in
  chan_bit (reg s0 REG_INPUT_CHANGED_LOW, reg s0 REG_INPUT_CHANGED_HIGH) i
  = chan_bit (reg s REG_INPUT_CHANGED_LOW, reg s REG_INPUT_CHANGED_HIGH) i
    || xorb (stable_bit s i) (stable_bit s0 i)
  /\ (xorb (stable_bit s i) (stable_bit s0 i) = true ->
      Z.testbit (reg s0 REG_STATUS) 5 = true).
Proof.
  intros Hwf Hi s0. unfold s0, update_contacts.
  pose proof (debounce_inputs_length dr now (input_state_low s)
                (input_state_high s) (input_last_change s)) as Hl.
  destruct (debounce_inputs _ _ _ _ _) as [[lo hi] lc]. cbn [snd] in Hl.
  rewrite (proj2 Hwf) in Hl.
  set (cl := Z.lxor (input_state_low s) lo).
  set (ch := Z.lxor (input_state_high s) hi).
  assert (Hwf1 : wf (flag_changes cl ch s)) by (apply wf_flag_changes, Hwf).
  rewrite !reg_store_other
    by (auto using wf_store, wf_set_input_state; consts; lia).
  change (reg (set_input_state lo hi lc ?x)) with (reg x).
  change (stable_bit (store REG_INPUT_STATUS_HIGH ?a
                        (store REG_INPUT_STATUS_LOW ?b
                           (set_input_state lo hi lc ?x))) i)
    with (chan_bit (lo, hi) i).
  rewrite flag_changes_flags, flag_changes_status by assumption.
  unfold cl, ch, stable_bit. rewrite chan_bit_lxor by exact Hi.
  split; [reflexivity |].
  intros Hx. rewrite <- chan_bit_lxor in Hx by exact Hi.
  apply chan_bit_nonzero in Hx. rewrite Hx. apply orb_true_r.
Qed.

End ChangedFlags.

(** X18: the changed flags record every committed transition.  After a
    tick the INPUT_CHANGED bit of a channel (0x52/0x53) is its previous
    value OR-ed with "stable bit changed in this tick", so a flag is never
    cleared by the tick, and a tick that changes any stable bit sets
    STATUS.INPUT_CHANGED (bit 5). *)
Theorem changed_flags_record_transitions (s : state) (h : hw) (i : Z) :
  wf s -> 0 <= i < NUM_DIGITAL_INPUTS ->
  let s' := tick h s in
  chan_bit (reg s' REG_INPUT_CHANGED_LOW, reg s' REG_INPUT_CHANGED_HIGH) i
  = chan_bit (reg s REG_INPUT_CHANGED_LOW, reg s REG_INPUT_CHANGED_HIGH) i
    || xorb (stable_bit s i) (stable_bit s' i)
  /\ (stable_bit s' i <> stable_bit s i ->
      Z.testbit (reg s' REG_STATUS) 5 = true).
Proof.
  intros Hwf Hi s'.
  assert (Hi' : 0 <= i < 12) by (revert Hi; consts; lia).
  set (dr := digitalRead h).
  set (s0 := update_contacts dr (millis_inputs h) s).
  set (s1 := update_button dr (millis_button h) s0).
  set (s2 := update_encoder s1).
  assert (Hwf0 : wf s0) by (apply wf_update_contacts, Hwf).
  assert (Hwf1 : wf s1) by (apply wf_update_button, Hwf0).
  assert (Hwf2 : wf s2) by (apply wf_update_encoder, Hwf1).
  change s' with (update_pwm_outputs s2).
  destruct (status_only_pwm_outputs s2 Hwf2) as (_ & Hr & _ & _ & _ & Hc2).
  assert (Hst : stable_bit (update_pwm_outputs s2) i = stable_bit s0 i).
  { unfold stable_bit.
    apply contacts_private_inv in Hc2. destruct Hc2 as (-> & -> & _).
    destruct (update_encoder_button s1) as [_ Hc1].
    apply contacts_private_inv in Hc1. fold s2 in Hc1.
    destruct Hc1 as (-> & -> & _).
    pose proof (update_button_contacts dr (millis_button h) s0) as Hc0.
    apply contacts_private_inv in Hc0. fold s1 in Hc0.
    destruct Hc0 as (-> & -> & _). reflexivity. }
  rewrite Hst, !Hr by (consts; lia).
  unfold s2. rewrite !update_encoder_reg by (auto; consts; lia).
  unfold s1. rewrite !update_button_reg by (auto; consts; lia).
  destruct (update_contacts_flags dr (millis_inputs h) s i Hwf Hi')
    as [Hflags Hstatus].
  fold s0 in Hflags, Hstatus. split; [exact Hflags |].
  intros Hne.
  rewrite update_pwm_outputs_keeps by (auto; lia).
  fold s1. fold s2. unfold s2.
  rewrite update_encoder_status_bit by (auto; lia). cbn [Z.eqb Pos.eqb].
  unfold s1. rewrite update_button_status_bit by (auto; lia).
  apply Hstatus.
  destruct (stable_bit s i), (stable_bit s0 i); try reflexivity;
    exfalso; apply Hne; reflexivity.
Qed.

Lemma changed_flags_record_transitions_witness :
  let s := tick (hw_at 60 (pin_low 15)) booted in
  wf booted
  /\ reg s REG_INPUT_STATUS_LOW = 0xFB
  /\ chan_bit (reg s REG_INPUT_CHANGED_LOW, reg s REG_INPUT_CHANGED_HIGH) 2
     = true
  /\ Z.testbit (reg s REG_STATUS) 5 = true.
Proof.
  split; [exact wf_booted |]. split; [vm_compute; reflexivity |].
  destruct (changed_flags_record_transitions booted (hw_at 60 (pin_low 15)) 2
              wf_booted ltac:(consts; lia)) as [Hf Hs].
  rewrite Hf. split; [vm_compute; reflexivity |].
  apply Hs. vm_compute. discriminate.
Defined.

(** ** The button classifier over a tick *)

Section ButtonCases.

Variable dr : Z -> bool.

(** The published byte is the classifier's state. *)
Lemma update_button_publishes t s :
  wf s ->
  reg (update_button dr t s) REG_ENCODER_BUTTON
  = encoder_button_state (update_button dr t s).
Proof.
  intros Hwf. unfold update_button.
  match goal with
  | |- reg (store _ (encoder_button_state ?x) ?x) _ = _ =>
      assert (Hx : wf x) by (split_ifs; auto 10 with wf);
      rewrite (reg_store_same x) by (auto; consts; lia)
  end.
  reflexivity.
Qed.

Lemma update_button_released t s :
  wf s -> dr PIN_ENCODER_BTN = true ->
  encoder_button_state s <> ENC_BTN_RELEASED ->
  button_private (update_button dr t s)
    = (ENC_BTN_RELEASED, encoder_button_press_time s, t)
  /\ Z.testbit (reg (update_button dr t s) REG_STATUS) 7 = false.
Proof.
  intros [Hlen _] Hup Hst. unfold update_button.
  rewrite Hup. cbn [negb andb].
  destruct (Z.eqb_spec (encoder_button_state s) ENC_BTN_RELEASED);
    [contradiction |]. cbn [negb].
  split; [reflexivity |]. regs.
  rewrite testbit_andn8 by lia. closed_bits. apply andb_false_r.
Qed.

Lemma update_button_idle t s :
  wf s -> dr PIN_ENCODER_BTN = true ->
  encoder_button_state s = ENC_BTN_RELEASED ->
  button_private (update_button dr t s) = button_private s
  /\ Z.testbit (reg (update_button dr t s) REG_STATUS) 7
     = Z.testbit (reg s REG_STATUS) 7.
Proof.
  intros [Hlen _] Hup Hst. unfold update_button.
  rewrite Hup, Hst. cbn [negb andb]. consts. closed_eqb. cbn [negb].
  split; [reflexivity |]. regs. reflexivity.
Qed.

Lemma update_button_pressed_status t s :
  wf s -> dr PIN_ENCODER_BTN = false ->
  encoder_button_state s = ENC_BTN_RELEASED ->
  Z.testbit (reg (update_button dr t s) REG_STATUS) 7 = true.
Proof.
  intros [Hlen _] Hdown Hst. unfold update_button.
  rewrite Hdown, Hst. cbn [negb andb]. consts. closed_eqb.
  split_ifs; regs;
    rewrite testbit_or8 by lia; closed_bits; rewrite ?orb_true_r; reflexivity.
Qed.

Lemma update_button_not_yet_held t s :
  wf s -> dr PIN_ENCODER_BTN = false ->
  encoder_button_state s = ENC_BTN_PRESSED ->
  u32 (t - encoder_button_press_time s) < 1000 ->
  button_private (update_button dr t s) = button_private s.
Proof.
  intros [Hlen _] Hdown Hst Hlt. unfold update_button.
  rewrite Hdown, Hst. cbn [negb andb]. consts. closed_eqb.
  destruct (Z.leb_spec 1000 (u32 (t - encoder_button_press_time s)));
    [lia |].
  unfold button_private. proj. rewrite Hst. reflexivity.
Qed.

Lemma update_button_held_stays t s :
  wf s -> dr PIN_ENCODER_BTN = false ->
  encoder_button_state s = ENC_BTN_HELD ->
  button_private (update_button dr t s) = button_private s.
Proof.
  intros [Hlen _] Hdown Hst. unfold update_button.
  rewrite Hdown, Hst. cbn [negb andb]. consts. closed_eqb.
  unfold button_private. proj. rewrite Hst. reflexivity.
Qed.

End ButtonCases.

(** Bit 7 of STATUS after a tick is what [update_button] left. *)
Lemma tick_button_status h s :
  wf s ->
  Z.testbit (reg (tick h s) REG_STATUS) 7
  = Z.testbit
      (reg (update_button (digitalRead h) (millis_button h)
              (update_contacts (digitalRead h) (millis_inputs h) s))
           REG_STATUS) 7.
Proof.
  intros Hwf. unfold tick, update_inputs.
  pose proof (wf_update_contacts (digitalRead h) (millis_inputs h) s Hwf)
    as Hwf0.
  pose proof (wf_update_button (digitalRead h) (millis_button h) _ Hwf0)
    as Hwf1.
  rewrite update_pwm_outputs_keeps by (auto using wf_update_encoder; lia).
  rewrite update_encoder_status_bit by (auto; lia). reflexivity.
Qed.

(** The classifier of a tick, stated on the state the debounce pass hands to
    it: same button variables as before the tick. *)
Lemma tick_button_split h s :
  wf s ->
  exists s0,
    wf s0 /\ button_private s0 = button_private s
    /\ button_private (tick h s)
       = button_private (update_button (digitalRead h) (millis_button h) s0)
    /\ reg (tick h s) REG_ENCODER_BUTTON
       = encoder_button_state
           (update_button (digitalRead h) (millis_button h) s0)
    /\ Z.testbit (reg (tick h s) REG_STATUS) 7
       = Z.testbit
           (reg (update_button (digitalRead h) (millis_button h) s0)
              REG_STATUS) 7.
Proof.
  intros Hwf.
  destruct (tick_button h s Hwf) as (s0 & Hwf0 & Hb0 & Hb & Hr).
  exists (update_contacts (digitalRead h) (millis_inputs h) s).
  pose proof (wf_update_contacts (digitalRead h) (millis_inputs h) s Hwf)
    as Hwf1.
  split; [exact Hwf1 |]. split; [apply update_contacts_button |].
  split; [| split; [| apply tick_button_status, Hwf]].
  - unfold tick, update_inputs.
    pose proof (wf_update_button (digitalRead h) (millis_button h) _ Hwf1)
      as Hwf2.
    destruct (status_only_pwm_outputs _ (wf_update_encoder _ Hwf2))
      as (_ & _ & _ & _ & -> & _).
    destruct (update_encoder_button
                (update_button (digitalRead h) (millis_button h)
                   (update_contacts (digitalRead h) (millis_inputs h) s)))
      as [-> _].
    reflexivity.
  - rewrite <- update_button_publishes by exact Hwf1.
    unfold tick, update_inputs.
    pose proof (wf_update_button (digitalRead h) (millis_button h) _ Hwf1)
      as Hwf2.
    destruct (status_only_pwm_outputs _ (wf_update_encoder _ Hwf2))
      as (_ & Hreg & _).
    rewrite Hreg by (consts; lia).
    rewrite update_encoder_reg by (auto; consts; lia). reflexivity.
Qed.

(** X19: releasing the button ends any press: from PRESSED, HELD or
    DOUBLE_CLICK a tick that samples the button up publishes RELEASED at
    0x63, records the release time used for double-click detection, keeps
    the press time and clears STATUS.BUTTON_PRESSED (bit 7); with the button
    up and the state already RELEASED the classifier does nothing. *)
Theorem button_release_is_recorded (s : state) (h : hw) :
  wf s -> digitalRead h PIN_ENCODER_BTN = true ->
  let s' := tick h s in
  (encoder_button_state s <> ENC_BTN_RELEASED ->
   reg s' REG_ENCODER_BUTTON = ENC_BTN_RELEASED
   /\ encoder_button_last_release s' = millis_button h
   /\ encoder_button_press_time s' = encoder_button_press_time s
   /\ Z.testbit (reg s' REG_STATUS) 7 = false)
  /\ (encoder_button_state s = ENC_BTN_RELEASED ->
      reg s' REG_ENCODER_BUTTON = ENC_BTN_RELEASED
      /\ button_private s' = button_private s).
Proof.
  intros Hwf Hup s'.
  destruct (tick_button_split h s Hwf) as (s0 & Hwf0 & Hb0 & Hb & Hr & Hs).
  fold s' in Hb, Hr, Hs.
  destruct (button_private_inv _ _ Hb0) as (Hst0 & Hpt0 & Hlr0).
  split; intros Hst.
  - destruct (update_button_released (digitalRead h) (millis_button h) s0
                Hwf0 Hup ltac:(congruence)) as [Hp Hbit].
    rewrite Hp in Hb.
    destruct (button_private_inv s'
                (set_encoder_button_last_release (millis_button h)
                   (set_encoder_button_state ENC_BTN_RELEASED s0)) Hb)
      as (Hst' & Hpt' & Hlr').
    cbn in Hst', Hpt', Hlr'.
    rewrite Hs, Hbit, Hr.
    assert (Hfst : encoder_button_state
                     (update_button (digitalRead h) (millis_button h) s0)
                   = ENC_BTN_RELEASED)
      by (unfold button_private in Hp; congruence).
    rewrite Hfst. repeat split; congruence.
  - destruct (update_button_idle (digitalRead h) (millis_button h) s0
                Hwf0 Hup ltac:(congruence)) as [Hp _].
    rewrite Hp in Hb. rewrite Hr.
    assert (Hfst : encoder_button_state
                     (update_button (digitalRead h) (millis_button h) s0)
                   = encoder_button_state s0)
      by (unfold button_private in Hp; congruence).
    rewrite Hfst. split; congruence.
Qed.

Lemma button_release_is_recorded_witness :
  let s := tick (hw_at 1000 (pin_low PIN_ENCODER_BTN)) booted in
  wf s
  /\ reg s REG_ENCODER_BUTTON = ENC_BTN_PRESSED
  /\ reg (tick (hw_at 1050 idle_pins) s) REG_ENCODER_BUTTON = ENC_BTN_RELEASED
  /\ encoder_button_last_release (tick (hw_at 1050 idle_pins) s) = 1050.
Proof.
  split; [split; reflexivity |]. split; [reflexivity |].
  destruct (button_release_is_recorded
              (tick (hw_at 1000 (pin_low PIN_ENCODER_BTN)) booted)
              (hw_at 1050 idle_pins) ltac:(split; reflexivity) eq_refl)
    as [H _].
  destruct H as (H1 & H2 & _); [vm_compute; discriminate |].
  split; assumption.
Defined.

(** X20: what a tick makes of a button that is down.  From RELEASED the
    state becomes DOUBLE_CLICK if the last release is less than 300 ms old
    and PRESSED otherwise, the press time is recorded and
    STATUS.BUTTON_PRESSED (bit 7) is set; from PRESSED it becomes HELD once
    1000 ms have passed since the recorded press time and stays PRESSED
    before; HELD stays HELD.  All times are differences of [uint32_t]
    millisecond counts, so they survive the counter's wrap-around. *)
Theorem button_press_is_classified (s : state) (h : hw) :
  wf s -> digitalRead h PIN_ENCODER_BTN = false ->
  let t := millis_button h in
  let s' := tick h s in
  (encoder_button_state s = ENC_BTN_RELEASED ->
   reg s' REG_ENCODER_BUTTON
     = (if u32 (t - encoder_button_last_release s) <? 300
        then ENC_BTN_DOUBLE_CLICK else ENC_BTN_PRESSED)
   /\ encoder_button_press_time s' = t
   /\ Z.testbit (reg s' REG_STATUS) 7 = true)
  /\ (encoder_button_state s = ENC_BTN_PRESSED ->
      reg s' REG_ENCODER_BUTTON
        = (if 1000 <=? u32 (t - encoder_button_press_time s)
           then ENC_BTN_HELD else ENC_BTN_PRESSED)
      /\ encoder_button_press_time s' = encoder_button_press_time s)
  /\ (encoder_button_state s = ENC_BTN_HELD ->
      reg s' REG_ENCODER_BUTTON = ENC_BTN_HELD).
Proof.
  intros Hwf Hdown t s'.
  destruct (tick_button_split h s Hwf) as (s0 & Hwf0 & Hb0 & Hb & Hr & Hs).
  fold s' t in Hb, Hr, Hs.
  destruct (button_private_inv _ _ Hb0) as (Hst0 & Hpt0 & Hlr0).
  assert (Hproj : forall a b c,
            button_private (update_button (digitalRead h) t s0) = (a, b, c) ->
            reg s' REG_ENCODER_BUTTON = a /\ encoder_button_press_time s' = b).
  { intros a b c Hp. rewrite Hp in Hb. rewrite Hr.
    unfold button_private in Hp, Hb. split; congruence. }
  split; [| split]; intros Hst.
  - rewrite Hs, (update_button_pressed_status (digitalRead h) t s0)
      by (auto; congruence).
    rewrite <- Hlr0.
    destruct (Z.ltb_spec (u32 (t - encoder_button_last_release s0)) 300)
      as [Hlt | Hge].
    + destruct (update_button_double_click (digitalRead h) Hdown t s0 Hwf0
                  ltac:(congruence) Hlt) as [Hp _].
      destruct (Hproj _ _ _ Hp). auto.
    + destruct (update_button_single_press (digitalRead h) Hdown t s0 Hwf0
                  ltac:(congruence) Hge) as [Hp _].
      destruct (Hproj _ _ _ Hp). auto.
  - rewrite <- Hpt0.
    destruct (Z.leb_spec 1000 (u32 (t - encoder_button_press_time s0)))
      as [Hge | Hlt].
    + destruct (update_button_held (digitalRead h) Hdown t s0 Hwf0
                  ltac:(congruence) Hge) as [Hp _].
      destruct (Hproj _ _ _ Hp). auto.
    + pose proof (update_button_not_yet_held (digitalRead h) t s0 Hwf0 Hdown
                    ltac:(congruence) Hlt) as Hp.
      destruct (Hproj _ _ _ Hp). split; congruence.
  - pose proof (update_button_held_stays (digitalRead h) t s0 Hwf0 Hdown
                  ltac:(congruence)) as Hp.
    destruct (Hproj _ _ _ Hp). congruence.
Qed.

Lemma button_press_is_classified_witness :
  let down := pin_low PIN_ENCODER_BTN in
  let s := tick (hw_at 1000 down) booted in
  wf booted /\ wf s
  /\ reg s REG_ENCODER_BUTTON = ENC_BTN_PRESSED
  /\ reg (tick (hw_at 1990 down) s) REG_ENCODER_BUTTON = ENC_BTN_PRESSED
  /\ reg (tick (hw_at 2000 down) s) REG_ENCODER_BUTTON = ENC_BTN_HELD.
Proof.
  split; [exact wf_booted |]. split; [split; reflexivity |].
  destruct (button_press_is_classified booted
              (hw_at 1000 (pin_low PIN_ENCODER_BTN)) wf_booted eq_refl)
    as [H0 _].
  destruct (H0 eq_refl) as (Hp & _).
  destruct (button_press_is_classified
              (tick (hw_at 1000 (pin_low PIN_ENCODER_BTN)) booted)
              (hw_at 1990 (pin_low PIN_ENCODER_BTN))
              ltac:(split; reflexivity) eq_refl) as (_ & H1 & _).
  destruct (button_press_is_classified
              (tick (hw_at 1000 (pin_low PIN_ENCODER_BTN)) booted)
              (hw_at 2000 (pin_low PIN_ENCODER_BTN))
              ltac:(split; reflexivity) eq_refl) as (_ & H2 & _).
  destruct (H1 ltac:(vm_compute; reflexivity)) as [H1' _].
  destruct (H2 ltac:(vm_compute; reflexivity)) as [H2' _].
  rewrite Hp, H1', H2'. repeat split; vm_compute; reflexivity.
Defined.

(** ** The quadrature decoder *)

Section Decoder.

Lemma transition_antisym a b :
  0 <= a < 4 -> 0 <= b < 4 -> transition b a = - transition a b.
Proof.
  intros Ha Hb.
  assert (Ha' : a = 0 \/ a = 1 \/ a = 2 \/ a = 3) by lia.
  assert (Hb' : b = 0 \/ b = 1 \/ b = 2 \/ b = 3) by lia.
  repeat destruct Ha' as [-> | Ha']; try subst a;
    repeat destruct Hb' as [-> | Hb']; try subst b; reflexivity.
Qed.

Lemma s16_congr x y : x mod 65536 = y mod 65536 -> s16 x = s16 y.
Proof.
  intros H. unfold s16.
  rewrite <- (Zplus_mod_idemp_l x), <- (Zplus_mod_idemp_l y), H.
  reflexivity.
Qed.

Lemma s16_small x : -32768 <= x < 32768 -> s16 x = x.
Proof. intros H. unfold s16. rewrite Z.mod_small by lia. lia. Qed.

Lemma s16_cancel p d : -32768 <= p < 32768 -> s16 (s16 (p + d) + - d) = p.
Proof.
  intros Hp. rewrite <- (s16_small p Hp) at 2. apply s16_congr.
  rewrite <- Zplus_mod_idemp_l, s16_mod, Zplus_mod_idemp_l.
  f_equal. lia.
Qed.

Lemma s8_cancel p d : -128 <= p < 128 -> s8 (s8 (p + d) + - d) = p.
Proof.
  intros Hp. rewrite <- (s8_small p) at 2 by lia. apply s8_congr.
  rewrite <- Zplus_mod_idemp_l, s8_mod, Zplus_mod_idemp_l.
  f_equal. lia.
Qed.

End Decoder.

(** X21: the decoder is reversible.  An interrupt that samples the pins at
    the levels already recorded changes no counter, and an interrupt
    followed by one that samples the previous levels again restores
    position, delta accumulator and recorded state exactly, also across the
    wrap-around of the two counters. *)
Theorem encoder_step_and_back_cancel (s : state) (fwd back : Z -> bool) :
  0 <= encoder_state s < 4 ->
  -32768 <= encoder_position s < 32768 ->
  -128 <= encoder_delta s < 128 ->
  quadrature back = encoder_state s ->
  encoder_private (encoder_isr back (encoder_isr fwd s)) = encoder_private s
  /\ encoder_private (encoder_isr back s) = encoder_private s.
Proof.
  intros Hst Hp Hd Hback.
  pose proof (quadrature_range fwd) as Hq.
  assert (H0 : transition (encoder_state s) (encoder_state s) = 0).
  { pose proof (transition_antisym _ _ Hst Hst). lia. }
  split.
  - unfold encoder_isr at 2.
    pose proof (transition_antisym (encoder_state s) (quadrature fwd) Hst Hq)
      as Hanti.
    destruct (Z.eqb_spec (transition (encoder_state s) (quadrature fwd)) 0)
      as [E | E]; cbn [negb]; unfold encoder_isr, encoder_private; proj;
      rewrite Hback, Hanti.
    + rewrite E. cbn [Z.opp Z.eqb negb]. proj. reflexivity.
    + destruct (Z.eqb_spec
                  (- transition (encoder_state s) (quadrature fwd)) 0);
        [lia |]. cbn [negb]. proj.
      rewrite s16_cancel, s8_cancel by assumption. reflexivity.
  - unfold encoder_isr, encoder_private. rewrite Hback, H0.
    cbn [Z.eqb negb]. proj. reflexivity.
Qed.

Lemma encoder_step_and_back_cancel_witness :
  let s := set_encoder_delta 127 (set_encoder_position 32767 booted) in
  encoder_position (encoder_isr (encoder_pins true false) s) = -32768
  /\ encoder_delta (encoder_isr (encoder_pins true false) s) = -128
  /\ encoder_private
       (encoder_isr (encoder_pins false false)
          (encoder_isr (encoder_pins true false) s))
     = (32767, 127, 0).
Proof.
  split; [reflexivity |]. split; [reflexivity |].
  destruct (encoder_step_and_back_cancel
              (set_encoder_delta 127 (set_encoder_position 32767 booted))
              (encoder_pins true false) (encoder_pins false false)
              ltac:(cbn; lia) ltac:(cbn; lia) ltac:(cbn; lia) eq_refl)
    as [H _].
  rewrite H. reflexivity.
Defined.

Section EncoderFlag.

Lemma flag_changes_status_bit cl ch s n :
  wf s -> 0 <= n < 8 -> n <> 5 ->
  Z.testbit (reg (flag_changes cl ch s) REG_STATUS) n
  = Z.testbit (reg s REG_STATUS) n.
Proof.
  intros [Hlen _] Hn Hne. unfold flag_changes.
  destruct (negb (cl =? 0) || negb (ch =? 0)); regs; [| reflexivity].
  change 32 with (Z.shiftl 1 5). rewrite testbit_set_flag by lia.
  destruct (Z.eqb_spec n 5); [contradiction | reflexivity].
Qed.

End EncoderFlag.

(** X22: STATUS.ENCODER_CHANGED (bit 6) after a tick is its previous value
    OR-ed with "the accumulator was non-zero at this tick": the tick sets
    the flag whenever it publishes a non-zero delta and never clears it;
    the byte published at 0x62 is that accumulator value, and the
    accumulator restarts from zero. *)
Theorem tick_flags_encoder_change (s : state) (h : hw) :
  wf s ->
  let s' := tick h s in
  Z.testbit (reg s' REG_STATUS) 6
  = Z.testbit (reg s REG_STATUS) 6 || negb (encoder_delta s =? 0)
  /\ reg s' REG_ENCODER_DELTA = u8 (encoder_delta s)
  /\ encoder_delta s' = 0.
Proof.
  intros Hwf s'.
  destruct (tick_publishes h s Hwf) as (_ & _ & Hd & Hpriv).
  fold s' in Hd, Hpriv.
  split; [| split; [exact Hd |]].
  - unfold s', tick, update_inputs.
    set (dr := digitalRead h).
    set (s0 := update_contacts dr (millis_inputs h) s).
    set (s1 := update_button dr (millis_button h) s0).
    assert (Hwf0 : wf s0) by (apply wf_update_contacts, Hwf).
    assert (Hwf1 : wf s1) by (apply wf_update_button, Hwf0).
    rewrite update_pwm_outputs_keeps by (auto using wf_update_encoder; lia).
    rewrite update_encoder_status_bit by (auto; lia). cbn [Z.eqb Pos.eqb].
    unfold s1. rewrite update_button_status_bit by (auto; lia).
    destruct (encoder_private_inv _ _
                (update_button_encoder dr (millis_button h) s0))
      as (_ & -> & _).
    destruct (encoder_private_inv _ _
                (update_contacts_encoder dr (millis_inputs h) s))
      as (_ & He & _).
    fold s0 in He. rewrite He.
    destruct (update_contacts_status dr (millis_inputs h) s Hwf)
      as (cl & ch & Hst).
    fold s0 in Hst. rewrite Hst.
    rewrite flag_changes_status_bit by (auto; lia). reflexivity.
  - apply (encoder_private_inv s' (set_encoder_delta 0 s)) in Hpriv.
    destruct Hpriv as (_ & Hz & _). exact Hz.
Qed.

Lemma tick_flags_encoder_change_witness :
  let s := run_isr (quadrature_cycles 1) booted in
  wf s
  /\ Z.testbit (reg (tick (hw_at 10 idle_pins) s) REG_STATUS) 6 = true
  /\ Z.testbit
       (reg (tick (hw_at 20 idle_pins) (tick (hw_at 10 idle_pins) s))
          REG_STATUS) 6 = true
  /\ reg (tick (hw_at 20 idle_pins) (tick (hw_at 10 idle_pins) s))
       REG_ENCODER_DELTA = 0.
Proof.
  split; [split; reflexivity |].
  destruct (tick_flags_encoder_change (run_isr (quadrature_cycles 1) booted)
              (hw_at 10 idle_pins) ltac:(split; reflexivity))
    as (H1 & _ & Hz).
  destruct (tick_flags_encoder_change
              (tick (hw_at 10 idle_pins)
                 (run_isr (quadrature_cycles 1) booted))
              (hw_at 20 idle_pins) ltac:(split; reflexivity))
    as (H2 & Hd & _).
  rewrite H2, Hd, H1, Hz. repeat split; vm_compute; reflexivity.
Defined.

(** ** Interrupts between host reads *)

Section Snapshot.

Lemma encoder_isr_set_current_register dr p s :
  encoder_isr dr (set_current_register p s)
  = set_current_register p (encoder_isr dr s).
Proof.
  unfold encoder_isr.
  change (encoder_state (set_current_register p s)) with (encoder_state s).
  destruct (negb (transition (encoder_state s) (quadrature dr) =? 0));
    reflexivity.
Qed.

Lemma encoder_isr_store dr a v s :
  encoder_isr dr (store a v s) = store a v (encoder_isr dr s).
Proof.
  unfold encoder_isr.
  change (encoder_state (store a v s)) with (encoder_state s).
  destruct (negb (transition (encoder_state s) (quadrature dr) =? 0));
    reflexivity.
Qed.

Lemma encoder_isr_reg dr s a : reg (encoder_isr dr s) a = reg s a.
Proof.
  unfold encoder_isr.
  destruct (negb (transition (encoder_state s) (quadrature dr) =? 0));
    reflexivity.
Qed.

Lemma encoder_isr_read dr a s :
  i2c_register_read a (encoder_isr dr s)
  = (fst (i2c_register_read a s), encoder_isr dr (snd (i2c_register_read a s))).
Proof.
  unfold i2c_register_read.
  repeat (rewrite <- ?encoder_isr_store; rewrite ?encoder_isr_reg).
  destruct (sizeof_I2CRegisterBank <=? a); [reflexivity |].
  destruct (a =? REG_INPUT_CHANGED_LOW).
  { destruct (reg (store REG_INPUT_CHANGED_LOW 0 s) REG_INPUT_CHANGED_HIGH
              =? 0); reflexivity. }
  destruct (a =? REG_INPUT_CHANGED_HIGH).
  { destruct (reg (store REG_INPUT_CHANGED_HIGH 0 s) REG_INPUT_CHANGED_LOW
              =? 0); reflexivity. }
  destruct (a =? REG_ENCODER_DELTA); reflexivity.
Qed.

Lemma run_isr_read edges a s :
  i2c_register_read a (run_isr edges s)
  = (fst (i2c_register_read a s), run_isr edges (snd (i2c_register_read a s))).
Proof.
  revert s. induction edges as [| dr edges IH]; intros s.
  - cbn [run_isr fold_left]. destruct (i2c_register_read a s); reflexivity.
  - cbn [run_isr fold_left]. unfold run_isr in IH. rewrite IH.
    rewrite encoder_isr_read. reflexivity.
Qed.

Lemma run_isr_set_current_register edges p s :
  run_isr edges (set_current_register p s)
  = set_current_register p (run_isr edges s).
Proof.
  revert s. induction edges as [| dr edges IH]; intros s; [reflexivity |].
  cbn [run_isr fold_left]. unfold run_isr in IH.
  rewrite encoder_isr_set_current_register. apply IH.
Qed.

Lemma run_isr_request_bytes edges n a s :
  request_bytes n (set_current_register a (run_isr edges s))
  = (fst (request_bytes n (set_current_register a s)),
     run_isr edges (snd (request_bytes n (set_current_register a s)))).
Proof.
  revert a s. induction n as [| n IH]; intros a s.
  - cbn [request_bytes fst snd].
    rewrite run_isr_set_current_register. reflexivity.
  - rewrite !request_bytes_S, run_isr_read. cbn [fst snd].
    rewrite IH. reflexivity.
Qed.

End Snapshot.

(** X23: encoder interrupts are invisible to the host until the next tick.
    The interrupt routine works on its private counters only, so a read
    transaction returns the same bytes whether or not any number of encoder
    edges arrived before it, and reading commutes with those interrupts: the
    host always sees the position and delta published by the last tick. *)
Theorem interrupts_do_not_show_before_the_tick
    (s : state) (edges : list (Z -> bool)) (a : Z) (n : nat) :
  host_read a n (run_isr edges s)
  = (fst (host_read a n s), run_isr edges (snd (host_read a n s)))
  /\ registers (run_isr edges s) = registers s.
Proof.
  split.
  - unfold host_read, i2c_receive_handler, receive_bytes.
    apply run_isr_request_bytes.
  - apply run_isr_spec.
Qed.
